(** * Decisive-Hiring: the scoring engine [psychology_predictor] of decihier.py

    A shallow embedding of the scoring function of [src/decihier.py] and the
    properties of it that the specification states.  Python integers are [Z],
    Python floats are IEEE binary64 values in the integer-only model of
    [SpecFloat], dictionaries read by key are [gmap]s, and an exception that
    leaves a block is the [Raise] case of a small error monad. *)

From Stdlib Require Import ZArith Lia List Permutation Sorted.
From Stdlib Require Import Floats.SpecFloat Numbers.DecimalString.
From stdpp Require Import gmap strings list fin_maps.

Local Open Scope string_scope.
Local Open Scope Z_scope.

(** ** Exceptions and the error monad *)

Module Py.

(** The exception classes the function can meet. *)
Inductive exn : Set :=
| KeyError
| ValueError
| TypeError
| OverflowError
| ZeroDivisionError.

Inductive result (A : Type) : Type :=
| Ok (a : A)
| Raise (e : exn).
Arguments Ok {A} a.
Arguments Raise {A} e.

Definition bind {A B : Type} (r : result A) (k : A -> result B) : result B :=
  match r with
  | Ok a => k a
  | Raise e => Raise e
  end.

Definition fmap {A B : Type} (f : A -> B) (r : result A) : result B :=
  bind r (fun a => Ok (f a)).

(** [d[k]] on a value that may lack the key. *)
Definition getitem {A : Type} (field : option A) : result A :=
  match field with
  | Some v => Ok v
  | None => Raise KeyError
  end.

(** A JSON value as [request.json] delivers it.  Arrays and objects keep no
    contents here: the function only ever passes such a value to [int]. *)
Inductive pyval : Type :=
| PyNone
| PyBool (b : bool)
| PyInt (z : Z)
| PyFloat (f : spec_float)
| PyStr (s : string)
| PyList
| PyDict.

(** *** binary64 arithmetic *)

Definition prec : Z := 53.
Definition emax : Z := 1024.

(** [a / b] on two [int]s: the correctly rounded quotient, [OverflowError]
    when it does not fit a float. *)
Definition truediv (a b : Z) : result spec_float :=
  if b =? 0 then Raise ZeroDivisionError
  else if a =? 0 then Ok (S754_zero (b <? 0))
  else
    match SFdiv prec emax
            (S754_finite (a <? 0) (Z.to_pos (Z.abs a)) 0)
            (S754_finite (b <? 0) (Z.to_pos (Z.abs b)) 0) with
    | S754_infinity _ => Raise OverflowError
    | q => Ok q
    end.

(** [x * n] for a float [x] and a small [int] [n] (exactly representable). *)
Definition float_of_small (n : Z) : spec_float := binary_normalize prec emax n 0 false.

Definition mul_int (x : spec_float) (n : Z) : spec_float :=
  SFmul prec emax x (float_of_small n).

(** [round(x)] with one argument: the nearest integer, ties to even. *)
Definition round_pos (m : positive) (e : Z) : Z :=
  match e with
  | Z0 => Zpos m
  | Zpos p => Zpos m * 2 ^ Zpos p
  | Zneg p =>
      let d := 2 ^ Zpos p in
      let q := Zpos m / d in
      match (2 * (Zpos m mod d)) ?= d with
      | Lt => q
      | Gt => q + 1
      | Eq => if Z.even q then q else q + 1
      end
  end.

Definition round (x : spec_float) : result Z :=
  match x with
  | S754_nan => Raise ValueError
  | S754_infinity _ => Raise OverflowError
  | S754_zero _ => Ok 0
  | S754_finite s m e => Ok (cond_Zopp s (round_pos m e))
  end.

(** [int(x)] on a float: truncation toward zero. *)
Definition trunc_pos (m : positive) (e : Z) : Z :=
  match e with
  | Z0 => Zpos m
  | Zpos p => Zpos m * 2 ^ Zpos p
  | Zneg p => Zpos m / 2 ^ Zpos p
  end.

Definition int_of_float (x : spec_float) : result Z :=
  match x with
  | S754_nan => Raise ValueError
  | S754_infinity _ => Raise OverflowError
  | S754_zero _ => Ok 0
  | S754_finite s m e => Ok (cond_Zopp s (trunc_pos m e))
  end.

Section Int.

(** [int(s)] on a [str]: [Some z] when the text is an integer literal, [None]
    when [int] raises [ValueError]. *)
Variable int_of_str : string -> option Z.

(** The builtin [int(v)]. *)
Definition int (v : pyval) : result Z :=
  match v with
  | PyNone => Raise TypeError
  | PyBool b => Ok (if b then 1 else 0)
  | PyInt z => Ok z
  | PyFloat f => int_of_float f
  | PyStr s =>
      match int_of_str s with
      | Some z => Ok z
      | None => Raise ValueError
      end
  | PyList => Raise TypeError
  | PyDict => Raise TypeError
  end.

End Int.

End Py.

Import Py.

Notation "'let*' x ':=' c1 'in' c2" := (Py.bind c1 (fun x => c2))
  (at level 10, x name, c1 at level 100, c2 at level 200).
Notation "'let*' ' p ':=' c1 'in' c2" := (Py.bind c1 (fun p => c2))
  (at level 10, p pattern, c1 at level 100, c2 at level 200).

(** ** Configuration (lines 9-20) *)

Definition TRAIT_MAP : list (string * string) :=
  [("TA", "Technical Acumen"); ("SL", "Strategic Leadership");
   ("ER", "Ethical Responsibility"); ("BP", "Business Profitability");
   ("BS", "Behavioral Speed")].

Module TIME_THRESHOLDS.
Definition TOO_FAST : Z := 15000.
Definition OPTIMAL_MIN : Z := 30000.
Definition OPTIMAL_MAX : Z := 60000.
Definition TOO_SLOW : Z := 60001.
End TIME_THRESHOLDS.

(** ** Data *)

(** A question id: a JSON integer or a JSON string, compared with [==]. *)
Inductive qid : Type :=
| IdInt (n : Z)
| IdStr (s : string).

#[global] Instance qid_eq_dec : EqDecision qid.
Proof. solve_decision. Defined.

(** One option of a question; [o_score] is [option['score'].items()], in the
    order of the dictionary. *)
Record AnswerOption : Type := {
  o_text : string;
  o_score : list (string * Z)
}.

Record Question : Type := {
  q_id : qid;
  q_prompt : string;
  q_options : list AnswerOption
}.

(** One element of [answers]; a field is [None] when the key is missing. *)
Record Answer : Type := {
  questionId : option qid;
  selectedOptionIndex : option pyval;
  timeTakenMs : option pyval
}.

(** One element of [detailed_results] (lines 137-145). *)
Record Detail : Type := {
  d_questionId : qid;
  d_prompt : string;
  d_chosenOptionText : string;
  d_rawScoreImpact : list (string * Z);
  d_timeTakenMs : Z;
  d_timeBehavior : string;
  d_traitMap : list (string * string)
}.

Record BehavioralSummary : Type := {
  fastResponses : Z;
  slowResponses : Z;
  optimalResponses : Z;
  totalTimeMs : Z
}.

(** The local variables the loop of lines 83-145 updates. *)
Record LoopState : Type := {
  total_raw_score : Z;
  skill_scores : gmap string Z;
  behavioral_summary : BehavioralSummary;
  detailed_results : list Detail;
  max_possible_trait_score_base : Z
}.

(** The dictionary returned at lines 168-178. *)
Record Report : Type := {
  totalScore : Z;
  skillScores : gmap string Z;
  behavioralSummary : BehavioralSummary;
  detailedResults : list Detail;
  jobTitle : string;
  candidateName : string;
  testId : string;
  passThreshold : Z;
  traitMap : list (string * string)
}.

(** The globals the function reads. *)
Record GeneratedTest : Type := {
  gt_role : string;
  gt_questions : list Question
}.

Record JobProfile : Type := {
  skills_required : list string;
  questions : list Question
}.

Record AssessmentData : Type := {
  PASS_THRESHOLD : Z;
  JOB_PROFILES : gmap string JobProfile
}.

Record Globals : Type := {
  session : gmap string string;
  GENERATED_TESTS : gmap string GeneratedTest;
  ASSESSMENT_DATA : AssessmentData
}.

(** ** The function *)

(** Lines 59-63: the generated test of the session's test id, else the job
    profile of [job_key]. *)
Definition job_questions_of (g : Globals) (job_key : string) : option (list Question) :=
  match session g !! "test_id" ≫= (λ test_id, GENERATED_TESTS g !! test_id) with
  | Some test => Some (gt_questions test)
  | None =>
      match JOB_PROFILES (ASSESSMENT_DATA g) !! job_key with
      | Some profile => Some (questions profile)
      | None => None
      end
  end.

(** Line 69 (lines 71-73 store 0 under the same five keys again). *)
Definition skill_keys : list string := ["TA"; "SL"; "ER"; "BP"; "BS"].

Definition skill_scores_init : gmap string Z :=
  list_to_map ((λ k, (k, 0)) <$> skill_keys).

Definition loop_init : LoopState :=
  {| total_raw_score := 0;
     skill_scores := skill_scores_init;
     behavioral_summary :=
       {| fastResponses := 0; slowResponses := 0; optimalResponses := 0; totalTimeMs := 0 |};
     detailed_results := [];
     max_possible_trait_score_base := 0 |}.

(** [skill_scores[k] += d]: [KeyError] when the key is not there. *)
Definition add_to (k : string) (d : Z) (m : gmap string Z) : result (gmap string Z) :=
  match m !! k with
  | Some v => Ok (<[k := v + d]> m)
  | None => Raise KeyError
  end.

(** Lines 107-109, on the pair [(skill_scores, question_points)]. *)
Fixpoint add_option_score (items : list (string * Z)) (acc : gmap string Z * Z)
  : result (gmap string Z * Z) :=
  match items with
  | [] => Ok acc
  | (trait_key, score) :: rest =>
      let* m := add_to trait_key score acc.1 in
      add_option_score rest (m, acc.2 + score)
  end.

(** Lines 84-85: the first question with the answer's id.  The generator reads
    [answer['questionId']] once per question, so not at all on an empty set. *)
Definition find_question (job_questions : list Question) (answer : Answer)
  : result (option Question) :=
  match job_questions with
  | [] => Ok None
  | _ :: _ =>
      let* i := getitem (questionId answer) in
      Ok (List.find (λ q, bool_decide (q_id q = i)) job_questions)
  end.

(** Line 89 followed by a [continue]: the state of an answer that is skipped
    once its question was found; only the trait base has moved. *)
Definition skipped (st : LoopState) : LoopState :=
  {| total_raw_score := total_raw_score st;
     skill_scores := skill_scores st;
     behavioral_summary := behavioral_summary st;
     detailed_results := detailed_results st;
     max_possible_trait_score_base := max_possible_trait_score_base st + 10 |}.

(** Lines 97-100: the chosen option, [None] when the index is out of bounds. *)
Definition chosen_option (question : Question) (option_index : Z) : option AnswerOption :=
  if (0 <=? option_index) && (option_index <? Z.of_nat (length (q_options question)))
  then q_options question !! Z.to_nat option_index
  else None.

(** Lines 111-133, on [(time_score, skill_scores, behavioral_summary,
    time_behavior)]. *)
Definition time_penalty (time_taken : Z) (m : gmap string Z) (b : BehavioralSummary)
  : result (Z * gmap string Z * BehavioralSummary * string) :=
  if time_taken <? TIME_THRESHOLDS.TOO_FAST then
    let* m := add_to "BS" 5 m in
    let* m := add_to "ER" (-5) m in
    let* m := add_to "SL" (-5) m in
    Ok (-20, m,
        {| fastResponses := fastResponses b + 1; slowResponses := slowResponses b;
           optimalResponses := optimalResponses b; totalTimeMs := totalTimeMs b |},
        "Too Fast (Lack of Contemplation)")
  else if time_taken >? TIME_THRESHOLDS.OPTIMAL_MAX then
    let* m := add_to "TA" (-5) m in
    let* m := add_to "BS" (-10) m in
    Ok (-20, m,
        {| fastResponses := fastResponses b; slowResponses := slowResponses b + 1;
           optimalResponses := optimalResponses b; totalTimeMs := totalTimeMs b |},
        "Too Slow (Inefficiency)")
  else if (TIME_THRESHOLDS.OPTIMAL_MIN <=? time_taken)
          && (time_taken <=? TIME_THRESHOLDS.OPTIMAL_MAX) then
    let* m := add_to "BS" 5 m in
    Ok (5, m,
        {| fastResponses := fastResponses b; slowResponses := slowResponses b;
           optimalResponses := optimalResponses b + 1; totalTimeMs := totalTimeMs b |},
        "Optimal")
  else Ok (0, m, b, "Optimal").

(** ** Auxiliary definitions for the proofs *)

(** The sum of the values an item list holds under key [k], and of all its
    values. *)
Fixpoint points_for (k : string) (items : list (string * Z)) : Z :=
  match items with
  | [] => 0
  | (k', v) :: rest => (if decide (k' = k) then v else 0) + points_for k rest
  end.

Fixpoint points (items : list (string * Z)) : Z :=
  match items with
  | [] => 0
  | (_, v) :: rest => v + points rest
  end.

(** [skill_scores] after [+=] of every item, when no key is missing. *)
Definition bumped (items : list (string * Z)) (m : gmap string Z) : gmap string Z :=
  map_imap (λ k v, Some (v + points_for k items)) m.

(** The five keys of line 69 and no other. *)
Definition keys_present (m : gmap string Z) : Prop :=
  dom m = list_to_set skill_keys.

Definition known_keys (items : list (string * Z)) : bool :=
  forallb (λ kv, bool_decide (kv.1 ∈ skill_keys)) items.

(** What lines 111-133 do, as data: the time score, the side adjustments,
    the counters to add and the label. *)
Definition time_rule (time_taken : Z) : Z * list (string * Z) * BehavioralSummary * string :=
  if time_taken <? TIME_THRESHOLDS.TOO_FAST then
    (-20, [("BS", 5); ("ER", -5); ("SL", -5)],
     {| fastResponses := 1; slowResponses := 0; optimalResponses := 0; totalTimeMs := 0 |},
     "Too Fast (Lack of Contemplation)")
  else if time_taken >? TIME_THRESHOLDS.OPTIMAL_MAX then
    (-20, [("TA", -5); ("BS", -10)],
     {| fastResponses := 0; slowResponses := 1; optimalResponses := 0; totalTimeMs := 0 |},
     "Too Slow (Inefficiency)")
  else if (TIME_THRESHOLDS.OPTIMAL_MIN <=? time_taken)
          && (time_taken <=? TIME_THRESHOLDS.OPTIMAL_MAX) then
    (5, [("BS", 5)],
     {| fastResponses := 0; slowResponses := 0; optimalResponses := 1; totalTimeMs := 0 |},
     "Optimal")
  else
    (0, [],
     {| fastResponses := 0; slowResponses := 0; optimalResponses := 0; totalTimeMs := 0 |},
     "Optimal").

(** What one pass of the loop body adds to the state. *)
Record Effect : Type := {
  e_raw : Z;
  e_items : list (string * Z);
  e_counts : BehavioralSummary;
  e_details : list Detail;
  e_base : Z
}.

Definition add_counts (b c : BehavioralSummary) : BehavioralSummary :=
  {| fastResponses := fastResponses b + fastResponses c;
     slowResponses := slowResponses b + slowResponses c;
     optimalResponses := optimalResponses b + optimalResponses c;
     totalTimeMs := totalTimeMs b + totalTimeMs c |}.

Definition no_counts : BehavioralSummary :=
  {| fastResponses := 0; slowResponses := 0; optimalResponses := 0; totalTimeMs := 0 |}.

Definition apply_effect (e : Effect) (st : LoopState) : LoopState :=
  {| total_raw_score := total_raw_score st + e_raw e;
     skill_scores := bumped (e_items e) (skill_scores st);
     behavioral_summary := add_counts (behavioral_summary st) (e_counts e);
     detailed_results := detailed_results st ++ e_details e;
     max_possible_trait_score_base := max_possible_trait_score_base st + e_base e |}.

Definition no_effect : Effect :=
  {| e_raw := 0; e_items := []; e_counts := no_counts; e_details := []; e_base := 0 |}.

Definition skip_effect : Effect :=
  {| e_raw := 0; e_items := []; e_counts := no_counts; e_details := []; e_base := 10 |}.

(** Two loop states that differ in the order of [detailed_results] only. *)
Definition same_totals (s s' : LoopState) : Prop :=
  total_raw_score s = total_raw_score s'
  ∧ skill_scores s = skill_scores s'
  ∧ behavioral_summary s = behavioral_summary s'
  ∧ max_possible_trait_score_base s = max_possible_trait_score_base s'
  ∧ detailed_results s ≡ₚ detailed_results s'.

Definition clamp (x lo hi : Z) : Z := Z.max lo (Z.min hi x).

Fixpoint total_time (ds : list Detail) : Z :=
  match ds with
  | [] => 0
  | d :: rest => d_timeTakenMs d + total_time rest
  end.

(** The state [st'] after the loop body scored option [o] with time [t]:
    [time_score], the side adjustments [side], the counter increments and the
    label are those of the time branch taken. *)
Definition scored_as (st st' : LoopState) (o : AnswerOption) (t : Z)
  (time_score : Z) (side : list (string * Z)) (fast slow optimal : Z) (label : string)
  : Prop :=
  total_raw_score st' = total_raw_score st + (points (o_score o) + time_score)
  ∧ (∀ k, skill_scores st' !! k
          = (λ v, v + points_for k (o_score o) + points_for k side) <$> skill_scores st !! k)
  ∧ fastResponses (behavioral_summary st') = fastResponses (behavioral_summary st) + fast
  ∧ slowResponses (behavioral_summary st') = slowResponses (behavioral_summary st) + slow
  ∧ optimalResponses (behavioral_summary st')
    = optimalResponses (behavioral_summary st) + optimal
  ∧ totalTimeMs (behavioral_summary st') = totalTimeMs (behavioral_summary st) + t
  ∧ (∃ d, detailed_results st' = (detailed_results st ++ [d])%list
          ∧ d_timeTakenMs d = t ∧ d_timeBehavior d = label
          ∧ d_rawScoreImpact d = o_score o)
  ∧ max_possible_trait_score_base st' = max_possible_trait_score_base st + 10.

(** A float that is zero or finite, below [2 ^ K] in magnitude. *)
Definition float_below (K : Z) (x : spec_float) : Prop :=
  match x with
  | S754_zero _ => True
  | S754_finite _ m e => Zdigits2 (Zpos m) + e <= K ∧ e <= K - 53
  | _ => False
  end.

(** The place of [N / D] between two consecutive integers, as [SpecFloat]
    records it when it rounds. *)
Definition loc_of (N D : Z) : location :=
  if N mod D =? 0 then loc_Exact else loc_Inexact (2 * (N mod D) ?= D).

(** [Y] is the magnitude of the float [f], of sign [sx], in units of
    [2 ^ ex]. *)
Definition scaled (f : spec_float) (sx : bool) (ex Y : Z) : Prop :=
  match f with
  | S754_zero s => s = sx ∧ Y = 0
  | S754_finite s m e => s = sx ∧ ex <= e ∧ -1074 <= e ∧ Y = Zpos m * 2 ^ (e - ex)
  | S754_infinity _ => True
  | S754_nan => False
  end.

(** [Y] is [N / D] up to a relative error of [2 ^ -53] or, in units of
    [2 ^ ex], up to half the least subnormal [2 ^ -1074]. *)
Definition close (N D ex Y : Z) : Prop :=
  2 ^ 53 * Z.abs (Y * D - N) <= N
  ∨ (ex <= -1074 ∧ 2 * Z.abs (Y * D - N) <= D * 2 ^ (-1074 - ex)).

Definition not_infinite (f : spec_float) : Prop :=
  match f with
  | S754_infinity _ => False
  | _ => True
  end.

(** [x] is [100 * a / b] up to one half and the error of a binary64 division
    and a binary64 product:
    [|x - 100 a / b| <= 1/2 + 2^-53 (1 + 300 |a / b|)]. *)
Definition close_to_percent (a b x : Z) : Prop :=
  2 ^ 53 * Z.abs (b * x - 100 * a) <= (2 ^ 52 + 1) * b + 300 * Z.abs a.

(** [x] is a nearest integer to [100 * a / b]. *)
Definition nearest_percent (a b x : Z) : Prop :=
  2 * Z.abs (b * x - 100 * a) <= b.

(** [x = round(a / b * 100)] as the specification writes it, for [0 < b]:
    the quotient, the product and [round] of Python give [x]; [x] is
    [100 * a / b] up to one half and the error of the two float operations;
    and below [2 ^ 53], where that error is less than any gap between
    [100 * a / b] and a half-integer, [x] is a nearest integer to
    [100 * a / b]. *)
Definition rounded_percent (a b x : Z) : Prop :=
  (∃ q, Py.truediv a b = Py.Ok q ∧ Py.round (Py.mul_int q 100) = Py.Ok x)
  ∧ close_to_percent a b x
  ∧ (600 * Z.abs a + 2 * b < 2 ^ 53 -> nearest_percent a b x).

(** The sum of the magnitudes of the values of an item list. *)
Fixpoint weight (items : list (string * Z)) : Z :=
  match items with
  | [] => 0
  | (_, v) :: rest => Z.abs v + weight rest
  end.

(** A value [int] does not answer with [OverflowError]: any but an infinite
    float. *)
Definition finite_number (v : pyval) : bool :=
  match v with
  | PyFloat (S754_infinity _) => false
  | _ => true
  end.

(** An answer that carries its three keys, with no infinite float. *)
Definition complete_answer (a : Answer) : bool :=
  match questionId a, selectedOptionIndex a, timeTakenMs a with
  | Some _, Some v, Some w => finite_number v && finite_number w
  | _, _, _ => false
  end.

(** A question set whose options score the five trait keys only, each option
    with values of total magnitude at most [W]. *)
Definition typed_option (W : Z) (o : AnswerOption) : bool :=
  known_keys (o_score o) && (weight (o_score o) <=? W).

Definition typed_questions (W : Z) (qs : list Question) : bool :=
  forallb (λ q, forallb (typed_option W) (q_options q)) qs.

(** Every value of [skill_scores] is at most [B] in magnitude. *)
Definition skills_within (B : Z) (m : gmap string Z) : Prop :=
  ∀ k v, m !! k = Some v -> Z.abs v <= B.

(** Whether some question of the set has the answer's id, and how many
    answers of a list are so. *)
Definition is_matched (qs : list Question) (a : Answer) : bool :=
  match questionId a with
  | Some i => existsb (λ q, bool_decide (q_id q = i)) qs
  | None => false
  end.

Definition matched_count (qs : list Question) (answers : list Answer) : Z :=
  Z.of_nat (length (List.filter (is_matched qs) answers)).

(** What the counters stand for in [total_raw_score] (lines 116, 124, 131)
    and in the raw total of key [k] (lines 117-119, 125-126, 132). *)
Definition time_total (b : BehavioralSummary) : Z :=
  5 * optimalResponses b - 20 * fastResponses b - 20 * slowResponses b.

Definition side_total (k : string) (b : BehavioralSummary) : Z :=
  (if decide ("BS" = k)
   then 5 * fastResponses b + 5 * optimalResponses b - 10 * slowResponses b else 0)
  + (if decide ("TA" = k) then - 5 * slowResponses b else 0)
  + (if decide ("ER" = k) then - 5 * fastResponses b else 0)
  + (if decide ("SL" = k) then - 5 * fastResponses b else 0).

(** The option points the detail records show, in all and under key [k]. *)
Fixpoint details_points (ds : list Detail) : Z :=
  match ds with
  | [] => 0
  | d :: rest => points (d_rawScoreImpact d) + details_points rest
  end.

Fixpoint details_points_for (k : string) (ds : list Detail) : Z :=
  match ds with
  | [] => 0
  | d :: rest => points_for k (d_rawScoreImpact d) + details_points_for k rest
  end.

(** ** The routes (lines 183-360) *)

(** One element of [TEST_RESULTS] (lines 287-294). *)
Record ResultEntry : Type := {
  r_id : string;
  r_username : string;
  r_score : Z;
  r_role : string;
  r_submitted_at : string;
  r_full_results : Report
}.

(** The module globals a route reads and writes.  The session is not among
    them: it comes with the request and goes back with the response. *)
Record Server : Type := {
  srv_GENERATED_TESTS : gmap string GeneratedTest;
  srv_TEST_RESULTS : list ResultEntry;
  srv_ASSESSMENT_DATA : AssessmentData
}.

Definition globals_in (srv : Server) (sess : gmap string string) : Globals :=
  {| session := sess;
     GENERATED_TESTS := srv_GENERATED_TESTS srv;
     ASSESSMENT_DATA := srv_ASSESSMENT_DATA srv |}.

(** What a route answers.  [JsonException e] is the 500 answer of [assess]
    with [str(e)]; [HrForm] holds the keys of [JOB_PROFILES] (a [gmap] keeps
    no order of insertion). *)
Inductive response : Type :=
| IndexPage (is_logged_in : bool)
| IndexError (error : string)
| RedirectIndex
| Details (questions_count : nat) (skills : list string) (pass_threshold total_minutes : Z)
| ThankYouPage
| TestPage (job_key candidate_name : string) (questions : list Question)
| NotFoundText
| JsonError (status : Z) (error : string)
| JsonException (e : exn)
| JsonRedirect
| HrReport (result : Report)
| HrSuccess (role test_key : string) (questions : list Question)
| HrForm (roles : gset string)
| HrDashboard (results : list ResultEntry).

(** [s[:n]]. *)
Definition str_prefix (n : nat) (s : string) : string := String.substring 0 n s.

(** Lines 183-194. *)
Definition index (sess : gmap string string) : response :=
  IndexPage (bool_decide (is_Some (sess !! "candidate_name"))
             && bool_decide (is_Some (sess !! "test_id"))).

(** Lines 226-239; [job_key] is [request.json.get('jobKey')]. *)
Definition get_assessment_details (srv : Server) (job_key : option string) : response :=
  match job_key ≫= (λ k, JOB_PROFILES (srv_ASSESSMENT_DATA srv) !! k) with
  | Some job_data =>
      Details (length (questions job_data)) (skills_required job_data)
        (PASS_THRESHOLD (srv_ASSESSMENT_DATA srv)) 10
  | None => JsonError 404 "Job profile not found"
  end.

(** The session after lines 213-215. *)
Definition entered (sess : gmap string string) (name test_id assigned_role : string)
  : gmap string string :=
  <["assigned_role" := assigned_role]>
    (<["test_id" := test_id]> (<["candidate_name" := name]> sess)).

(** Lines 197-217; [name] and [test_id] are the two [request.form.get]. *)
Definition login (srv : Server) (sess : gmap string string) (name test_id : option string)
  : gmap string string * response :=
  match name, test_id with
  | Some name, Some test_id =>
      if bool_decide (name = "") || bool_decide (test_id = "") then
        (sess, IndexError "Please provide a Name and Test ID.")
      else
        match srv_GENERATED_TESTS srv !! test_id with
        | Some test => (entered sess name test_id (gt_role test), RedirectIndex)
        | None =>
            if bool_decide (test_id ≠ "test123") then (sess, IndexError "Invalid Test ID.")
            else (entered sess name test_id "", RedirectIndex)
        end
  | _, _ => (sess, IndexError "Please provide a Name and Test ID.")
  end.

(** Lines 220-223. *)
Definition logout (sess : gmap string string) : gmap string string * response :=
  (∅, RedirectIndex).

(** Lines 243-264. *)
Definition start_assessment_page (srv : Server) (sess : gmap string string)
  (job_key : string) : response :=
  match sess !! "candidate_name" with
  | None => RedirectIndex
  | Some candidate_name =>
      match sess !! "test_id" ≫= (λ test_id, srv_GENERATED_TESTS srv !! test_id) with
      | Some test => TestPage job_key candidate_name (gt_questions test)
      | None =>
          match JOB_PROFILES (srv_ASSESSMENT_DATA srv) !! job_key with
          | Some job_data => TestPage job_key candidate_name (questions job_data)
          | None => NotFoundText
          end
      end
  end.

(** Lines 320-331: the first stored result whose id is the first eight
    characters of [result_id] or whose test id is [result_id]. *)
Definition show_assessment_result (srv : Server) (result_id : string) : response :=
  match List.find (λ r, bool_decide (r_id r = str_prefix 8 result_id)
                        || bool_decide (testId (r_full_results r) = result_id))
          (srv_TEST_RESULTS srv) with
  | Some result_entry => HrReport (r_full_results result_entry)
  | None => NotFoundText
  end.

(** Lines 334-352; [post] is [None] for a GET and the [role] field of the
    form for a POST, [fresh] is [str(uuid.uuid4())]. *)
Definition hr_create_test (srv : Server) (post : option (option string)) (fresh : string)
  : Server * response :=
  let form := (srv, HrForm (dom (JOB_PROFILES (srv_ASSESSMENT_DATA srv)))) in
  match post with
  | Some (Some role) =>
      if bool_decide (role = "") then form
      else
        match JOB_PROFILES (srv_ASSESSMENT_DATA srv) !! role with
        | Some profile =>
            let test_key := str_prefix 6 fresh in
            ({| srv_GENERATED_TESTS :=
                  <[test_key := {| gt_role := role; gt_questions := questions profile |}]>
                    (srv_GENERATED_TESTS srv);
                srv_TEST_RESULTS := srv_TEST_RESULTS srv;
                srv_ASSESSMENT_DATA := srv_ASSESSMENT_DATA srv |},
             HrSuccess role test_key (questions profile))
        | None => form
        end
  | _ => form
  end.

(** [sorted(TEST_RESULTS, key=submitted_at, reverse=True)]: by decreasing
    key, results of equal key in their order in the list. *)
Fixpoint insert_by_time (x : ResultEntry) (l : list ResultEntry) : list ResultEntry :=
  match l with
  | [] => [x]
  | y :: rest =>
      if String.ltb (r_submitted_at x) (r_submitted_at y)
      then y :: insert_by_time x rest
      else x :: y :: rest
  end.

Definition sorted_newest_first (l : list ResultEntry) : list ResultEntry :=
  foldr insert_by_time [] l.

(** Lines 355-360. *)
Definition hr_dashboard (srv : Server) : response :=
  HrDashboard (sorted_newest_first (srv_TEST_RESULTS srv)).

(** Lines 27-47.  [file] is [None] when questions.json does not exist,
    [Some None] when reading or decoding it raises, and [Some (Some data)]
    when it decodes to [data]. *)
Definition load_assessment_data (file : option (option AssessmentData)) : AssessmentData :=
  match file with
  | Some (Some data) => data
  | _ => {| PASS_THRESHOLD := 75; JOB_PROFILES := ∅ |}
  end.

(** A request with what the outside supplies to its route. *)
Inductive request : Type :=
| Index
| Login (name test_id : option string)
| Logout
| GetAssessmentDetails (job_key : option string)
| ThankYou
| StartAssessment (job_key : string)
| Assess (job_key : option string) (answers : option (list Answer)) (fresh now : string)
| ShowResult (result_id : string)
| HrCreateTest (post : option (option string)) (fresh : string)
| HrDashboardPage.

(** A request that stores a generated test under the key [test_key]. *)
Definition reuses_key (test_key : string) (req : request) : bool :=
  match req with
  | HrCreateTest _ fresh => bool_decide (str_prefix 6 fresh = test_key)
  | _ => false
  end.

(** A stored result that agrees with its own report. *)
Definition sound_entry (x : ResultEntry) : Prop :=
  r_score x = totalScore (r_full_results x)
  ∧ 0 <= r_score x <= 100
  ∧ r_role x = jobTitle (r_full_results x)
  ∧ r_username x = candidateName (r_full_results x).

(** A generated test that holds the questions of its role. *)
Definition tests_follow_profiles (srv : Server) : Prop :=
  ∀ key test, srv_GENERATED_TESTS srv !! key = Some test ->
    ∃ profile, JOB_PROFILES (srv_ASSESSMENT_DATA srv) !! gt_role test = Some profile
               ∧ gt_questions test = questions profile.

(** The server when the module is loaded (lines 23-24, 50). *)
Definition server_at_start (d : AssessmentData) : Server :=
  {| srv_GENERATED_TESTS := ∅; srv_TEST_RESULTS := []; srv_ASSESSMENT_DATA := d |}.

(** A decimal reading of [int(s)] for the examples below: an optional minus
    sign and ASCII digits. *)
Definition int_of_decimal (s : string) : option Z :=
  Z.of_int <$> NilZero.int_of_string s.

(** A question with two options, a question whose option scores a key that
    is no trait, and the globals of three sessions: a direct one on the job
    profile "dev", one on a profile holding the second question, and one
    whose test id is the key of a generated test. *)
Definition q1 : Question :=
  {| q_id := IdInt 1; q_prompt := "p1";
     q_options := [{| o_text := "a"; o_score := [("TA", 10)] |};
                   {| o_text := "b"; o_score := [("SL", 4); ("ER", 6)] |}] |}.

Definition q2 : Question :=
  {| q_id := IdInt 2; q_prompt := "p2";
     q_options := [{| o_text := "c"; o_score := [("BP", 7)] |}] |}.

Definition q_odd : Question :=
  {| q_id := IdInt 1; q_prompt := "p1";
     q_options := [{| o_text := "a"; o_score := [("XX", 3)] |}] |}.

Definition globals_of (test_id : string) (tests : gmap string GeneratedTest)
  (qs : list Question) : Globals :=
  {| session := {[ "test_id" := test_id; "candidate_name" := "Ada" ]};
     GENERATED_TESTS := tests;
     ASSESSMENT_DATA :=
       {| PASS_THRESHOLD := 75;
          JOB_PROFILES := {[ "dev" := {| skills_required := []; questions := qs |} ]} |} |}.

Definition g0 : Globals := globals_of "test123" ∅ [q1].

Definition g_odd : Globals := globals_of "test123" ∅ [q_odd].

Definition g_gen : Globals :=
  globals_of "ab12cd" {[ "ab12cd" := {| gt_role := "dev"; gt_questions := [q2] |} ]} [q1].

Definition answer (i : Z) (option_index time_taken : pyval) : Answer :=
  {| questionId := Some (IdInt i);
     selectedOptionIndex := Some option_index;
     timeTakenMs := Some time_taken |}.

Definition infinity : pyval := PyFloat (S754_infinity false).

(** The server of [g0] when the process starts, and an id as [uuid4] prints
    one. *)
Definition srv0 : Server := server_at_start (ASSESSMENT_DATA g0).

Definition uuid_a : string := "1f3a9c2e-8b7d-4e6f-9a0b-1c2d3e4f5a6b".

(** An id with other first characters, an id with the same first six, and a
    server with two job profiles. *)
Definition uuid_b : string := "7d20e4b1-3c5a-4f8e-b9d6-0a1b2c3d4e5f".

Definition uuid_a' : string := "1f3a9c77-0e1d-4c2b-8a39-5f6e7d8c9b0a".

Definition srv_two : Server :=
  server_at_start
    {| PASS_THRESHOLD := 75;
       JOB_PROFILES := {[ "dev" := {| skills_required := []; questions := [q1] |};
                          "ops" := {| skills_required := []; questions := [q2] |} ]} |}.

Section Engine.

Variable int_of_str : string -> option Z.

(** Lines 91-95: both conversions, [None] when the [except] clause skips the
    answer; any other exception leaves the function. *)
Definition parse_fields (answer : Answer) : result (option (Z * Z)) :=
  let attempt :=
    let* vi := getitem (selectedOptionIndex answer) in
    let* option_index := int int_of_str vi in
    let* vt := getitem (timeTakenMs answer) in
    let* time_taken := int int_of_str vt in
    Ok (option_index, time_taken) in
  match attempt with
  | Ok p => Ok (Some p)
  | Raise ValueError => Ok None
  | Raise TypeError => Ok None
  | Raise e => Raise e
  end.

(** A conversion that fails the way the [except] clause of line 94 catches. *)
Definition parse_failure (v : pyval) : Prop :=
  int int_of_str v = Raise ValueError ∨ int int_of_str v = Raise TypeError.

(** The body of the loop, lines 84-145. *)
Definition score_answer (job_questions : list Question) (st : LoopState) (answer : Answer)
  : result LoopState :=
  let* found := find_question job_questions answer in
  match found with
  | None => Ok st
  | Some question =>
      let* parsed := parse_fields answer in
      match parsed with
      | None => Ok (skipped st)
      | Some (option_index, time_taken) =>
          match chosen_option question option_index with
          | None => Ok (skipped st)
          | Some option =>
              let b := behavioral_summary st in
              let b :=
                {| fastResponses := fastResponses b; slowResponses := slowResponses b;
                   optimalResponses := optimalResponses b;
                   totalTimeMs := totalTimeMs b + time_taken |} in
              let option_score := o_score option in
              let* '(m, question_points) := add_option_score option_score (skill_scores st, 0) in
              let* '(time_score, m, b, time_behavior) := time_penalty time_taken m b in
              let* i := getitem (questionId answer) in
              Ok {| total_raw_score := total_raw_score st + (question_points + time_score);
                    skill_scores := m;
                    behavioral_summary := b;
                    detailed_results :=
                      detailed_results st ++
                      [{| d_questionId := i;
                          d_prompt := q_prompt question;
                          d_chosenOptionText := o_text option;
                          d_rawScoreImpact := option_score;
                          d_timeTakenMs := time_taken;
                          d_timeBehavior := time_behavior;
                          d_traitMap := TRAIT_MAP |}];
                    max_possible_trait_score_base := max_possible_trait_score_base st + 10 |}
          end
      end
  end.

(** The loop of line 83. *)
Fixpoint score_answers (job_questions : list Question) (st : LoopState) (answers : list Answer)
  : result LoopState :=
  match answers with
  | [] => Ok st
  | answer :: rest =>
      let* st := score_answer job_questions st answer in
      score_answers job_questions st rest
  end.

(** Line 148. *)
Definition MAX_POSSIBLE_SCORE (job_questions : list Question) : Z :=
  Z.of_nat (length job_questions) * 15.

(** [round((a / b) * 100)], as written at lines 153 and 159-160. *)
Definition percent (a b : Z) : result Z :=
  let* q := truediv a b in
  round (mul_int q 100).

(** Lines 152-153. *)
Definition normalized_score (total_raw_score MAX_POSSIBLE_SCORE : Z) : result Z :=
  let* r := percent total_raw_score MAX_POSSIBLE_SCORE in
  Ok (Z.max 0 (Z.min 100 r)).

(** Lines 157-166, for one key of [skill_scores]: the value stored back. *)
Definition normalized_skill (base : Z) (key : string) (v : Z) : result Z :=
  if bool_decide (key ≠ "BS") then
    let* score_val := if base >? 0 then percent v base else Ok 0 in
    Ok (Z.max 0 (Z.min 100 score_val))
  else
    Ok (Z.max 0 (Z.min 100 v)).

Definition normalize_key (base : Z) (m : gmap string Z) (key : string)
  : result (gmap string Z) :=
  let* v := getitem (m !! key) in
  let* v' := normalized_skill base key v in
  Ok (<[key := v']> m).

(** Line 156: the keys in the order of the dictionary, which is the order of
    line 69 since no key is ever added. *)
Fixpoint normalize_keys (base : Z) (keys : list string) (m : gmap string Z)
  : result (gmap string Z) :=
  match keys with
  | [] => Ok m
  | key :: rest =>
      let* m := normalize_key base m key in
      normalize_keys base rest m
  end.

(** Lines 68-178, for a question set that passed line 65. *)
Definition score_report (g : Globals) (job_key : string) (job_questions : list Question)
  (answers : list Answer) : result Report :=
  let* st := score_answers job_questions loop_init answers in
  let* normalized := normalized_score (total_raw_score st) (MAX_POSSIBLE_SCORE job_questions) in
  let* skills := normalize_keys (max_possible_trait_score_base st) skill_keys (skill_scores st) in
  Ok {| totalScore := normalized;
        skillScores := skills;
        behavioralSummary := behavioral_summary st;
        detailedResults := detailed_results st;
        jobTitle := job_key;
        candidateName := default "N/A" (session g !! "candidate_name");
        testId := default "N/A" (session g !! "test_id");
        passThreshold := PASS_THRESHOLD (ASSESSMENT_DATA g);
        traitMap := TRAIT_MAP |}.

(** The whole function; [Ok None] is its [return None]. *)
Definition psychology_predictor (g : Globals) (job_key : string) (answers : list Answer)
  : result (option Report) :=
  match job_questions_of g job_key with
  | None => Ok None
  | Some [] => Ok None
  | Some job_questions => fmap Some (score_report g job_key job_questions answers)
  end.

(** The effect of one answer, read off the fields alone. *)
Definition effect_of (job_questions : list Question) (answer : Answer) : result Effect :=
  let* found := find_question job_questions answer in
  match found with
  | None => Ok no_effect
  | Some question =>
      let* parsed := parse_fields answer in
      match parsed with
      | None => Ok skip_effect
      | Some (option_index, time_taken) =>
          match chosen_option question option_index with
          | None => Ok skip_effect
          | Some option =>
              if known_keys (o_score option) then
                let '(time_score, side, counts, time_behavior) := time_rule time_taken in
                let* i := getitem (questionId answer) in
                Ok {| e_raw := points (o_score option) + time_score;
                      e_items := o_score option ++ side;
                      e_counts :=
                        {| fastResponses := fastResponses counts;
                           slowResponses := slowResponses counts;
                           optimalResponses := optimalResponses counts;
                           totalTimeMs := time_taken |};
                      e_details :=
                        [{| d_questionId := i;
                            d_prompt := q_prompt question;
                            d_chosenOptionText := o_text option;
                            d_rawScoreImpact := o_score option;
                            d_timeTakenMs := time_taken;
                            d_timeBehavior := time_behavior;
                            d_traitMap := TRAIT_MAP |}];
                      e_base := 10 |}
              else Raise KeyError
          end
      end
  end.

(** The detail records one answer leaves, and those of a list, in its order. *)
Definition answer_details (job_questions : list Question) (answer : Answer) : list Detail :=
  match effect_of job_questions answer with
  | Ok e => e_details e
  | Raise _ => []
  end.

Definition details_in_order (job_questions : list Question) (answers : list Answer)
  : list Detail :=
  flat_map (answer_details job_questions) answers.

(** Lines 267-308, for a request whose body is a JSON object: [job_key] and
    [answers] are its [data.get('jobKey')] and [data.get('answers')], [fresh]
    is [str(uuid.uuid4())] and [now] is [datetime.utcnow().isoformat()]. *)
Definition assess (srv : Server) (sess : gmap string string)
  (job_key : option string) (answers : option (list Answer)) (fresh now : string)
  : Server * gmap string string * response :=
  match sess !! "candidate_name" with
  | None => (srv, sess, JsonError 401 "Session expired, please log in again.")
  | Some _ =>
      match job_key, answers with
      | Some job_key, Some (first :: rest) =>
          if bool_decide (job_key = "") then
            (srv, sess, JsonError 400 "Missing job key or answers")
          else
            match psychology_predictor (globals_in srv sess) job_key (first :: rest) with
            | Raise e => (srv, sess, JsonException e)
            | Ok None => (srv, sess, JsonError 404 "Job profile not found in data structure")
            | Ok (Some results) =>
                ({| srv_GENERATED_TESTS := srv_GENERATED_TESTS srv;
                    srv_TEST_RESULTS :=
                      srv_TEST_RESULTS srv ++
                      [{| r_id := str_prefix 8 fresh;
                          r_username := candidateName results;
                          r_score := totalScore results;
                          r_role := jobTitle results;
                          r_submitted_at := now;
                          r_full_results := results |}];
                    srv_ASSESSMENT_DATA := srv_ASSESSMENT_DATA srv |},
                 delete "assigned_role"
                   (delete "test_id"
                      (delete "candidate_name" (<["last_result_id" := fresh]> sess))),
                 JsonRedirect)
            end
      | _, _ => (srv, sess, JsonError 400 "Missing job key or answers")
      end
  end.

(** One request served: the new server, the session sent back, the answer. *)
Definition handle (srv : Server) (sess : gmap string string) (req : request)
  : Server * gmap string string * response :=
  match req with
  | Index => (srv, sess, index sess)
  | Login name test_id => let '(sess', resp) := login srv sess name test_id in (srv, sess', resp)
  | Logout => let '(sess', resp) := logout sess in (srv, sess', resp)
  | GetAssessmentDetails job_key => (srv, sess, get_assessment_details srv job_key)
  | ThankYou => (srv, sess, ThankYouPage)
  | StartAssessment job_key => (srv, sess, start_assessment_page srv sess job_key)
  | Assess job_key answers fresh now => assess srv sess job_key answers fresh now
  | ShowResult result_id => (srv, sess, show_assessment_result srv result_id)
  | HrCreateTest post fresh =>
      let '(srv', resp) := hr_create_test srv post fresh in (srv', sess, resp)
  | HrDashboardPage => (srv, sess, hr_dashboard srv)
  end.

(** The server after a sequence of requests, each with the session of its
    sender. *)
Fixpoint serve (srv : Server) (reqs : list (gmap string string * request)) : Server :=
  match reqs with
  | [] => srv
  | (sess, req) :: rest => serve (handle srv sess req).1.1 rest
  end.

(** ** Basic facts *)

Lemma bind_Ok {A B : Type} (r : result A) (k : A -> result B) (b : B) :
  bind r k = Ok b -> ∃ a, r = Ok a ∧ k a = Ok b.
Proof. destruct r as [a|e]; simpl; intros H; [eauto | discriminate]. Qed.

Lemma fmap_Ok {A B : Type} (f : A -> B) (r : result A) (b : B) :
  fmap f r = Ok b -> ∃ a, r = Ok a ∧ b = f a.
Proof. destruct r as [a|e]; simpl; intros H; [exists a; split; congruence | discriminate]. Qed.

Lemma points_for_app (k : string) (l1 l2 : list (string * Z)) :
  points_for k (l1 ++ l2) = points_for k l1 + points_for k l2.
Proof. induction l1 as [|[k' v] l1 IH]; simpl; [reflexivity | rewrite IH; lia]. Qed.

Lemma lookup_bumped (items : list (string * Z)) (m : gmap string Z) (k : string) :
  bumped items m !! k = (λ v, v + points_for k items) <$> m !! k.
Proof. unfold bumped. rewrite map_lookup_imap. destruct (m !! k); reflexivity. Qed.

Lemma bumped_nil (m : gmap string Z) : bumped [] m = m.
Proof.
  apply map_eq; intros k. rewrite lookup_bumped. simpl.
  destruct (m !! k); simpl; f_equal; lia.
Qed.

Lemma bumped_app (l1 l2 : list (string * Z)) (m : gmap string Z) :
  bumped (l1 ++ l2) m = bumped l2 (bumped l1 m).
Proof.
  apply map_eq; intros k. rewrite !lookup_bumped, points_for_app.
  destruct (m !! k); simpl; f_equal; lia.
Qed.

Lemma bumped_swap (l1 l2 : list (string * Z)) (m : gmap string Z) :
  bumped l2 (bumped l1 m) = bumped l1 (bumped l2 m).
Proof.
  apply map_eq; intros k. rewrite !lookup_bumped.
  destruct (m !! k); simpl; f_equal; lia.
Qed.

Lemma dom_bumped (items : list (string * Z)) (m : gmap string Z) :
  dom (bumped items m) = dom m.
Proof.
  apply set_eq; intros k. rewrite !elem_of_dom, lookup_bumped, fmap_is_Some. reflexivity.
Qed.

Lemma keys_present_bumped (items : list (string * Z)) (m : gmap string Z) :
  keys_present m -> keys_present (bumped items m).
Proof. unfold keys_present. rewrite dom_bumped. auto. Qed.

Lemma keys_present_lookup (m : gmap string Z) (k : string) :
  keys_present m -> (is_Some (m !! k) ↔ k ∈ skill_keys).
Proof.
  unfold keys_present. intros H. rewrite <- elem_of_dom, H, elem_of_list_to_set. reflexivity.
Qed.

Lemma keys_present_init : keys_present skill_scores_init.
Proof. reflexivity. Qed.

Lemma add_to_present (k : string) (d : Z) (m : gmap string Z) :
  is_Some (m !! k) -> add_to k d m = Ok (bumped [(k, d)] m).
Proof.
  intros [v Hv]. unfold add_to. rewrite Hv. f_equal.
  apply map_eq; intros j. rewrite lookup_bumped. simpl.
  destruct (decide (k = j)) as [<-|Hne].
  - rewrite lookup_insert_eq, Hv. simpl. f_equal. lia.
  - rewrite lookup_insert_ne by assumption.
    destruct (m !! j); simpl; f_equal; lia.
Qed.

Lemma add_to_missing (k : string) (d : Z) (m : gmap string Z) :
  m !! k = None -> add_to k d m = Raise KeyError.
Proof. intros H. unfold add_to. rewrite H. reflexivity. Qed.

Lemma add_to_known (k : string) (d : Z) (m : gmap string Z) :
  keys_present m -> k ∈ skill_keys -> add_to k d m = Ok (bumped [(k, d)] m).
Proof. intros Hm Hk. apply add_to_present, keys_present_lookup; assumption. Qed.

Lemma add_option_score_known (items : list (string * Z)) (m : gmap string Z) (p : Z) :
  keys_present m -> known_keys items = true ->
  add_option_score items (m, p) = Ok (bumped items m, p + points items).
Proof.
  revert m p. induction items as [|[k v] items IH]; intros m p Hm Hk.
  - simpl. rewrite bumped_nil. do 2 f_equal. lia.
  - simpl in Hk. apply andb_prop in Hk as [Hk Hrest].
    apply bool_decide_eq_true_1 in Hk. cbn [add_option_score fst snd].
    rewrite (add_to_known k v m Hm Hk). cbn [bind].
    rewrite IH by auto using keys_present_bumped.
    rewrite <- bumped_app. cbn [app points]. do 2 f_equal. lia.
Qed.

Lemma add_option_score_unknown (items : list (string * Z)) (m : gmap string Z) (p : Z) :
  keys_present m -> known_keys items = false ->
  add_option_score items (m, p) = Raise KeyError.
Proof.
  revert m p. induction items as [|[k v] items IH]; intros m p Hm Hk.
  - discriminate.
  - cbn [add_option_score fst snd]. simpl in Hk.
    destruct (decide (k ∈ skill_keys)) as [Hin|Hout].
    + rewrite (add_to_known k v m Hm Hin). cbn [bind].
      rewrite bool_decide_eq_true_2 in Hk by assumption.
      apply IH; auto using keys_present_bumped.
    + rewrite add_to_missing; [reflexivity|].
      apply eq_None_not_Some. rewrite keys_present_lookup by assumption. assumption.
Qed.

Ltac known_key := unfold skill_keys; repeat constructor.

Lemma add_counts_none (b : BehavioralSummary) : add_counts b no_counts = b.
Proof. destruct b; unfold add_counts; simpl; f_equal; lia. Qed.

Lemma time_penalty_rule (t : Z) (m : gmap string Z) (b : BehavioralSummary) :
  keys_present m ->
  time_penalty t m b =
  let '(time_score, side, counts, time_behavior) := time_rule t in
  Ok (time_score, bumped side m, add_counts b counts, time_behavior).
Proof.
  intros Hm. unfold time_penalty, time_rule.
  assert (Hin : ∀ k, k ∈ skill_keys -> ∀ d m', keys_present m' ->
            add_to k d m' = Ok (bumped [(k, d)] m')).
  { intros k Hk d m' Hm'. apply add_to_known; assumption. }
  destruct (t <? TIME_THRESHOLDS.TOO_FAST).
  - rewrite (Hin "BS") by (assumption || known_key). cbn [bind].
    rewrite (Hin "ER") by (solve [auto using keys_present_bumped] || known_key). cbn [bind].
    rewrite (Hin "SL") by (solve [auto using keys_present_bumped] || known_key). cbn [bind].
    rewrite <- !bumped_app. cbn [app].
    unfold add_counts; cbn. repeat f_equal; lia.
  - destruct (t >? TIME_THRESHOLDS.OPTIMAL_MAX).
    + rewrite (Hin "TA") by (assumption || known_key). cbn [bind].
      rewrite (Hin "BS") by (solve [auto using keys_present_bumped] || known_key). cbn [bind].
      rewrite <- !bumped_app. cbn [app].
      unfold add_counts; cbn. repeat f_equal; lia.
    + destruct ((TIME_THRESHOLDS.OPTIMAL_MIN <=? t) && (t <=? TIME_THRESHOLDS.OPTIMAL_MAX)).
      * rewrite (Hin "BS") by (assumption || known_key). cbn [bind].
        unfold add_counts; cbn. repeat f_equal; lia.
      * rewrite bumped_nil. fold no_counts. rewrite add_counts_none. reflexivity.
Qed.

Lemma time_rule_no_time (t : Z) : totalTimeMs (time_rule t).1.2 = 0.
Proof. unfold time_rule. repeat case_match; reflexivity. Qed.

Lemma apply_no_effect (st : LoopState) : apply_effect no_effect st = st.
Proof.
  destruct st. unfold apply_effect, no_effect. cbn.
  rewrite bumped_nil, add_counts_none, app_nil_r, Z.add_0_r, Z.add_0_r. reflexivity.
Qed.

(** The loop body adds to the state what [effect_of] reads off the answer, and
    raises exactly when [effect_of] does. *)
Lemma score_answer_effect (qs : list Question) (st : LoopState) (a : Answer) :
  keys_present (skill_scores st) ->
  score_answer qs st a = fmap (λ e, apply_effect e st) (effect_of qs a).
Proof.
  intros Hm. unfold score_answer, effect_of.
  destruct (find_question qs a) as [[q|]|e]; cbn [bind fmap].
  2: { rewrite apply_no_effect. reflexivity. }
  2: { reflexivity. }
  assert (Hskip : skipped st = apply_effect skip_effect st).
  { unfold skipped, apply_effect, skip_effect. cbn.
    rewrite bumped_nil, add_counts_none, app_nil_r, Z.add_0_r. reflexivity. }
  destruct (parse_fields a) as [[[i t]|]|e]; cbn [bind fmap].
  2: { rewrite Hskip. reflexivity. }
  2: { reflexivity. }
  destruct (chosen_option q i) as [o|]; cbn [bind fmap].
  2: { rewrite Hskip. reflexivity. }
  destruct (known_keys (o_score o)) eqn:Hk.
  - rewrite add_option_score_known by assumption. cbn [bind].
    rewrite time_penalty_rule by (apply keys_present_bumped; assumption).
    pose proof (time_rule_no_time t) as Ht0.
    destruct (time_rule t) as [[[time_score side] counts] label]. cbn [bind].
    destruct (questionId a) as [id|]; cbn [getitem bind fmap]; [|reflexivity].
    unfold apply_effect; cbn. rewrite bumped_app, Z.add_0_l.
    f_equal. f_equal. unfold add_counts; cbn in *. f_equal; lia.
  - rewrite add_option_score_unknown by assumption. reflexivity.
Qed.

(** ** The loop *)

Lemma apply_effect_keys (e : Effect) (st : LoopState) :
  keys_present (skill_scores st) -> keys_present (skill_scores (apply_effect e st)).
Proof. intros H. apply keys_present_bumped, H. Qed.

Lemma score_answer_Ok_inv (qs : list Question) (st st' : LoopState) (a : Answer) :
  keys_present (skill_scores st) -> score_answer qs st a = Ok st' ->
  ∃ e, effect_of qs a = Ok e ∧ st' = apply_effect e st.
Proof.
  intros Hm H. rewrite score_answer_effect in H by assumption.
  apply fmap_Ok in H. exact H.
Qed.

Lemma score_answer_of_effect (qs : list Question) (st : LoopState) (a : Answer) (e : Effect) :
  keys_present (skill_scores st) -> effect_of qs a = Ok e ->
  score_answer qs st a = Ok (apply_effect e st).
Proof. intros Hm H. rewrite score_answer_effect, H by assumption. reflexivity. Qed.

Lemma score_answer_keys (qs : list Question) (st st' : LoopState) (a : Answer) :
  keys_present (skill_scores st) -> score_answer qs st a = Ok st' ->
  keys_present (skill_scores st').
Proof.
  intros Hm H. destruct (score_answer_Ok_inv _ _ _ _ Hm H) as (e & _ & ->).
  apply apply_effect_keys, Hm.
Qed.

Lemma score_answers_keys (qs : list Question) (l : list Answer) (st st' : LoopState) :
  keys_present (skill_scores st) -> score_answers qs st l = Ok st' ->
  keys_present (skill_scores st').
Proof.
  revert st. induction l as [|a l IH]; intros st Hm H; simpl in H.
  - congruence.
  - apply bind_Ok in H as (s1 & H1 & H2).
    eapply IH; [|exact H2]. eapply score_answer_keys; eauto.
Qed.

Lemma score_answers_app (qs : list Question) (l1 l2 : list Answer) (st : LoopState) :
  score_answers qs st (l1 ++ l2) =
  let* s := score_answers qs st l1 in score_answers qs s l2.
Proof.
  revert st. induction l1 as [|a l1 IH]; intros st; simpl; [reflexivity|].
  destruct (score_answer qs st a) as [s|e]; simpl; [apply IH | reflexivity].
Qed.

Lemma same_totals_refl (s : LoopState) : same_totals s s.
Proof. unfold same_totals. auto. Qed.

Lemma same_totals_trans (s1 s2 s3 : LoopState) :
  same_totals s1 s2 -> same_totals s2 s3 -> same_totals s1 s3.
Proof.
  unfold same_totals. intros (?&?&?&?&?) (?&?&?&?&?).
  repeat split; try congruence. etrans; eassumption.
Qed.

Lemma apply_effect_same (e : Effect) (s s' : LoopState) :
  same_totals s s' -> same_totals (apply_effect e s) (apply_effect e s').
Proof.
  unfold same_totals, apply_effect. intros (H1&H2&H3&H4&H5). cbn.
  rewrite H1, H2, H3, H4, H5. auto.
Qed.

Lemma apply_effect_swap (e1 e2 : Effect) (s : LoopState) :
  same_totals (apply_effect e2 (apply_effect e1 s)) (apply_effect e1 (apply_effect e2 s)).
Proof.
  unfold same_totals, apply_effect, add_counts. cbn. repeat split.
  - lia.
  - apply bumped_swap.
  - f_equal; lia.
  - lia.
  - rewrite <- !app_assoc. apply Permutation_app_head, Permutation_app_comm.
Qed.

Lemma score_answers_same (qs : list Question) (l : list Answer) (s s' s1 : LoopState) :
  keys_present (skill_scores s) -> same_totals s s' ->
  score_answers qs s l = Ok s1 ->
  ∃ s1', score_answers qs s' l = Ok s1' ∧ same_totals s1 s1'.
Proof.
  revert s s' s1. induction l as [|a l IH]; intros s s' s1 Hm Hs H; simpl in *.
  - inversion H; subst. eauto.
  - apply bind_Ok in H as (s2 & H1 & H2).
    destruct (score_answer_Ok_inv _ _ _ _ Hm H1) as (e & He & ->).
    assert (Hm' : keys_present (skill_scores s')).
    { destruct Hs as (_ & <- & _). exact Hm. }
    rewrite (score_answer_of_effect _ _ _ _ Hm' He). cbn [bind].
    eapply IH; [| |exact H2]; auto using apply_effect_keys, apply_effect_same.
Qed.

(** Answers given in another order leave the same totals. *)
Lemma score_answers_perm (qs : list Question) (l l' : list Answer) :
  l ≡ₚ l' -> ∀ s s1, keys_present (skill_scores s) ->
  score_answers qs s l = Ok s1 ->
  ∃ s1', score_answers qs s l' = Ok s1' ∧ same_totals s1 s1'.
Proof.
  induction 1 as [|a l l' _ IH|a b l|l1 l2 l3 _ IH1 _ IH2]; intros s s1 Hm H.
  - eauto using same_totals_refl.
  - simpl in *. apply bind_Ok in H as (s2 & H1 & H2). rewrite H1. cbn [bind].
    eapply IH; [|exact H2]. eapply score_answer_keys; eauto.
  - simpl in *. apply bind_Ok in H as (s2 & H1 & H).
    apply bind_Ok in H as (s3 & H2 & H3).
    destruct (score_answer_Ok_inv _ _ _ _ Hm H1) as (e1 & He1 & ->).
    pose proof (apply_effect_keys e1 s Hm) as Hm1.
    destruct (score_answer_Ok_inv _ _ _ _ Hm1 H2) as (e2 & He2 & ->).
    rewrite (score_answer_of_effect _ _ _ _ Hm He2). cbn [bind].
    rewrite (score_answer_of_effect _ _ _ _ (apply_effect_keys e2 s Hm) He1). cbn [bind].
    eapply score_answers_same; [| |exact H3].
    + apply apply_effect_keys, Hm1.
    + apply apply_effect_swap.
  - destruct (IH1 s s1 Hm H) as (s2 & H2 & Hs12).
    destruct (IH2 s s2 Hm H2) as (s3 & H3 & Hs23).
    eauto using same_totals_trans.
Qed.

(** ** One answer *)

Lemma find_no_match (qs : list Question) (i : qid) :
  (∀ q, q ∈ qs -> q_id q ≠ i) ->
  List.find (λ q, bool_decide (q_id q = i)) qs = None.
Proof.
  induction qs as [|q qs IH]; intros H; simpl; [reflexivity|].
  rewrite bool_decide_eq_false_2 by (apply H; left).
  apply IH. intros q' Hq'. apply H. right. exact Hq'.
Qed.

Lemma find_question_no_match (qs : list Question) (a : Answer) (i : qid) :
  questionId a = Some i -> (∀ q, q ∈ qs -> q_id q ≠ i) ->
  find_question qs a = Ok None.
Proof.
  intros Hi H. unfold find_question. destruct qs as [|q qs]; [reflexivity|].
  rewrite Hi. cbn [getitem bind]. rewrite find_no_match by assumption. reflexivity.
Qed.

Lemma time_rule_cases (t : Z) :
  (t < 15000 ->
   time_rule t = (-20, [("BS", 5); ("ER", -5); ("SL", -5)],
                  {| fastResponses := 1; slowResponses := 0; optimalResponses := 0;
                     totalTimeMs := 0 |}, "Too Fast (Lack of Contemplation)"))
  ∧ (60000 < t ->
     time_rule t = (-20, [("TA", -5); ("BS", -10)],
                    {| fastResponses := 0; slowResponses := 1; optimalResponses := 0;
                       totalTimeMs := 0 |}, "Too Slow (Inefficiency)"))
  ∧ (30000 <= t <= 60000 ->
     time_rule t = (5, [("BS", 5)],
                    {| fastResponses := 0; slowResponses := 0; optimalResponses := 1;
                       totalTimeMs := 0 |}, "Optimal"))
  ∧ (15000 <= t < 30000 ->
     time_rule t = (0, [],
                    {| fastResponses := 0; slowResponses := 0; optimalResponses := 0;
                       totalTimeMs := 0 |}, "Optimal")).
Proof.
  unfold time_rule, TIME_THRESHOLDS.TOO_FAST, TIME_THRESHOLDS.OPTIMAL_MAX,
    TIME_THRESHOLDS.OPTIMAL_MIN.
  rewrite Z.gtb_ltb.
  repeat split; intros Ht;
    destruct (Z.ltb_spec t 15000); try lia;
    destruct (Z.ltb_spec 60000 t); try lia;
    destruct (Z.leb_spec 30000 t); try lia;
    destruct (Z.leb_spec t 60000); try lia; reflexivity.
Qed.

Lemma parse_fields_index_failure (a : Answer) (v : pyval) :
  selectedOptionIndex a = Some v -> parse_failure v -> parse_fields a = Ok None.
Proof.
  intros Hv [H|H]; unfold parse_fields; rewrite Hv; cbn [getitem bind];
    rewrite H; reflexivity.
Qed.

Lemma parse_fields_time_failure (a : Answer) (v w : pyval) (i : Z) :
  selectedOptionIndex a = Some v -> int int_of_str v = Ok i ->
  timeTakenMs a = Some w -> parse_failure w -> parse_fields a = Ok None.
Proof.
  intros Hv Hi Hw [H|H]; unfold parse_fields; rewrite Hv; cbn [getitem bind];
    rewrite Hi; cbn [bind]; rewrite Hw; cbn [getitem bind]; rewrite H; reflexivity.
Qed.

Lemma parse_fields_both (a : Answer) (v w : pyval) (i t : Z) :
  selectedOptionIndex a = Some v -> int int_of_str v = Ok i ->
  timeTakenMs a = Some w -> int int_of_str w = Ok t ->
  parse_fields a = Ok (Some (i, t)).
Proof.
  intros Hv Hi Hw Ht. unfold parse_fields. rewrite Hv; cbn [getitem bind].
  rewrite Hi; cbn [bind]. rewrite Hw; cbn [getitem bind]. rewrite Ht. reflexivity.
Qed.

Lemma chosen_option_out_of_bounds (q : Question) (i : Z) :
  ¬ (0 <= i < Z.of_nat (length (q_options q))) -> chosen_option q i = None.
Proof.
  intros H. unfold chosen_option.
  destruct (Z.leb_spec 0 i); destruct (Z.ltb_spec i (Z.of_nat (length (q_options q))));
    simpl; try reflexivity. lia.
Qed.

Lemma chosen_option_in_bounds (q : Question) (i : Z) (o : AnswerOption) :
  chosen_option q i = Some o ->
  0 <= i < Z.of_nat (length (q_options q)) ∧ q_options q !! Z.to_nat i = Some o.
Proof.
  unfold chosen_option.
  destruct (Z.leb_spec 0 i); destruct (Z.ltb_spec i (Z.of_nat (length (q_options q))));
    simpl; intros Hc; try discriminate. split; [lia | exact Hc].
Qed.

(** ** The claims about one answer *)

(** C1: for an answer that passes the question lookup, both conversions and
    the bounds check (on a question whose option uses the five trait keys),
    the loop body returns, and what it does with [timeTakenMs = t] is fixed by
    four ranges: [t < 15000] is "Too Fast" (time score -20, BS +5, ER -5,
    SL -5, fastResponses +1); [t > 60000] is "Too Slow" (-20, TA -5, BS -10,
    slowResponses +1); [30000 <= t <= 60000] is "Optimal" (+5, BS +5,
    optimalResponses +1); [15000 <= t < 30000] keeps the label "Optimal" with
    time score 0, no side adjustment and no counter. *)
Theorem C1_time_classification
  (qs : list Question) (st : LoopState) (a : Answer) (q : Question) (i t : Z)
  (o : AnswerOption) :
  keys_present (skill_scores st) ->
  find_question qs a = Ok (Some q) ->
  parse_fields a = Ok (Some (i, t)) ->
  chosen_option q i = Some o ->
  known_keys (o_score o) = true ->
  ∃ st', score_answer qs st a = Ok st'
    ∧ (t < 15000 ->
       scored_as st st' o t (-20) [("BS", 5); ("ER", -5); ("SL", -5)] 1 0 0
         "Too Fast (Lack of Contemplation)")
    ∧ (60000 < t ->
       scored_as st st' o t (-20) [("TA", -5); ("BS", -10)] 0 1 0
         "Too Slow (Inefficiency)")
    ∧ (30000 <= t <= 60000 ->
       scored_as st st' o t 5 [("BS", 5)] 0 0 1 "Optimal")
    ∧ (15000 <= t < 30000 ->
       scored_as st st' o t 0 [] 0 0 0 "Optimal").
Proof.
  intros Hm Hq Hp Ho Hk.
  assert (Hid : ∃ id, questionId a = Some id).
  { unfold find_question in Hq. destruct qs; [discriminate|].
    destruct (questionId a); [eauto | discriminate]. }
  destruct Hid as [id Hid].
  assert (He : ∀ time_score side counts label,
             time_rule t = (time_score, side, counts, label) ->
             ∃ st', score_answer qs st a = Ok st'
               ∧ scored_as st st' o t time_score side (fastResponses counts)
                   (slowResponses counts) (optimalResponses counts) label).
  { intros time_score side counts label Hr. eexists. split.
    - apply score_answer_of_effect; [exact Hm|].
      unfold effect_of. rewrite Hq; cbn [bind]. rewrite Hp; cbn [bind].
      rewrite Ho, Hk, Hr, Hid. cbn [getitem bind]. reflexivity.
    - unfold scored_as, apply_effect, add_counts. cbn. repeat split; try reflexivity.
      + intros k. rewrite lookup_bumped, points_for_app.
        destruct (skill_scores st !! k); simpl; f_equal; lia.
      + eexists. split; [reflexivity|]. cbn. auto. }
  destruct (time_rule_cases t) as (Hfast & Hslow & Hopt & Hgap).
  destruct (time_rule t) as [[[time_score side] counts] label] eqn:Hr.
  destruct (He _ _ _ _ eq_refl) as (st' & Hst' & Hs).
  exists st'. split; [exact Hst'|].
  split; [|split; [|split]]; intros Ht;
    [ specialize (Hfast Ht); injection Hfast as -> -> -> ->
    | specialize (Hslow Ht); injection Hslow as -> -> -> ->
    | specialize (Hopt Ht); injection Hopt as -> -> -> ->
    | specialize (Hgap Ht); injection Hgap as -> -> -> -> ]; exact Hs.
Qed.

(** C2: an answer whose question is found and whose
    [selectedOptionIndex] fails [int] with ValueError or TypeError, or whose
    index converts and whose [timeTakenMs] fails that way, or whose fields
    both convert with the index out of the option bounds, adds 10 to the trait
    base and nothing else: no score, no trait total, no time, no counter, no
    detail record. *)
Theorem C2_malformed_answer_counts_in_base
  (qs : list Question) (st : LoopState) (a : Answer) (q : Question) :
  find_question qs a = Ok (Some q) ->
  (∃ v, selectedOptionIndex a = Some v ∧ parse_failure v)
  ∨ (∃ v i w, selectedOptionIndex a = Some v ∧ int int_of_str v = Ok i
              ∧ timeTakenMs a = Some w ∧ parse_failure w)
  ∨ (∃ v i w t, selectedOptionIndex a = Some v ∧ int int_of_str v = Ok i
                ∧ timeTakenMs a = Some w ∧ int int_of_str w = Ok t
                ∧ ¬ (0 <= i < Z.of_nat (length (q_options q)))) ->
  score_answer qs st a = Ok (skipped st)
  ∧ total_raw_score (skipped st) = total_raw_score st
  ∧ skill_scores (skipped st) = skill_scores st
  ∧ behavioral_summary (skipped st) = behavioral_summary st
  ∧ detailed_results (skipped st) = detailed_results st
  ∧ max_possible_trait_score_base (skipped st) = max_possible_trait_score_base st + 10.
Proof.
  intros Hq Hcase. split; [|repeat split].
  unfold score_answer. rewrite Hq; cbn [bind].
  destruct Hcase as [(v & Hv & Hf)|[(v & i & w & Hv & Hi & Hw & Hf)
                                   |(v & i & w & t & Hv & Hi & Hw & Ht & Hb)]].
  - rewrite (parse_fields_index_failure a v Hv Hf). reflexivity.
  - rewrite (parse_fields_time_failure a v w i Hv Hi Hw Hf). reflexivity.
  - rewrite (parse_fields_both a v w i t Hv Hi Hw Ht). cbn [bind].
    rewrite (chosen_option_out_of_bounds q i Hb). reflexivity.
Qed.

(** C6: an answer whose [questionId] is the id of no question of the set
    leaves every loop variable as it was (sums, counters, detail records and
    the trait base), and the report is the one of the answer list without
    it. *)
Theorem C6_unknown_question_is_ignored
  (g : Globals) (job_key : string) (qs : list Question) (a : Answer) (i : qid) :
  job_questions_of g job_key = Some qs ->
  questionId a = Some i ->
  (∀ q, q ∈ qs -> q_id q ≠ i) ->
  (∀ st, score_answer qs st a = Ok st)
  ∧ (∀ before after,
       psychology_predictor g job_key (before ++ a :: after)
       = psychology_predictor g job_key (before ++ after)).
Proof.
  intros Hg Hi Hno.
  assert (Hstep : ∀ st, score_answer qs st a = Ok st).
  { intros st. unfold score_answer.
    rewrite (find_question_no_match qs a i Hi Hno). reflexivity. }
  split; [exact Hstep|].
  intros before after. unfold psychology_predictor. rewrite Hg.
  destruct qs as [|q0 qs']; [reflexivity|].
  unfold score_report. rewrite !score_answers_app.
  destruct (score_answers (q0 :: qs') loop_init before) as [s|e]; [|reflexivity].
  cbn [bind score_answers]. rewrite Hstep. reflexivity.
Qed.

(** ** Normalisation *)

Lemma normalized_skill_bounds (base : Z) (k : string) (v v' : Z) :
  normalized_skill base k v = Ok v' -> 0 <= v' <= 100.
Proof.
  unfold normalized_skill. destruct (bool_decide (k ≠ "BS")).
  - intros H. apply bind_Ok in H as (x & _ & H). inversion H; subst. lia.
  - intros H. inversion H; subst. lia.
Qed.

Lemma normalize_key_Ok (base : Z) (m m' : gmap string Z) (k : string) :
  normalize_key base m k = Ok m' ->
  ∃ v v', m !! k = Some v ∧ normalized_skill base k v = Ok v' ∧ m' = <[k := v']> m.
Proof.
  unfold normalize_key. intros H.
  apply bind_Ok in H as (v & Hv & H). apply bind_Ok in H as (v' & Hv' & H).
  destruct (m !! k) as [v0|]; [|discriminate]. inversion Hv; subst.
  inversion H; subst. eauto.
Qed.

Lemma normalize_keys_Ok (base : Z) (keys : list string) (m m' : gmap string Z) :
  NoDup keys -> normalize_keys base keys m = Ok m' ->
  (∀ k, k ∈ keys ->
        ∃ v v', m !! k = Some v ∧ normalized_skill base k v = Ok v' ∧ m' !! k = Some v')
  ∧ (∀ k, k ∉ keys -> m' !! k = m !! k).
Proof.
  revert m. induction keys as [|k0 keys IH]; intros m Hnd H.
  - inversion H; subst. split; [intros k Hk; inversion Hk | reflexivity].
  - cbn [normalize_keys] in H. apply bind_Ok in H as (m1 & H1 & H2).
    apply NoDup_cons in Hnd as [Hk0 Hnd].
    apply normalize_key_Ok in H1 as (v & v' & Hv & Hv' & ->).
    destruct (IH _ Hnd H2) as [Hin Hout]. split.
    + intros k Hk. apply elem_of_cons in Hk as [->|Hk].
      * exists v, v'. rewrite (Hout k0 Hk0), lookup_insert_eq. auto.
      * destruct (Hin k Hk) as (w & w' & Hw & Hw' & Hm').
        assert (k0 ≠ k) by (intros ->; contradiction).
        rewrite lookup_insert_ne in Hw by assumption. eauto.
    + intros k Hk. apply not_elem_of_cons in Hk as [Hne Hk].
      rewrite (Hout k Hk), lookup_insert_ne by congruence. reflexivity.
Qed.

Lemma skill_keys_NoDup : NoDup skill_keys.
Proof. apply (bool_decide_unpack _). reflexivity. Qed.

Lemma percent_zero (b : Z) : b ≠ 0 -> percent 0 b = Ok 0.
Proof.
  intros Hb. unfold percent, truediv.
  destruct (Z.eqb_spec b 0) as [->|_]; [contradiction|].
  cbn [Z.eqb bind]. reflexivity.
Qed.

(** What the function returns, in terms of the loop's final state. *)
Lemma psychology_predictor_Some (g : Globals) (job_key : string) (answers : list Answer)
  (r : Report) :
  psychology_predictor g job_key answers = Ok (Some r) ->
  ∃ qs st, job_questions_of g job_key = Some qs ∧ qs ≠ []
    ∧ score_answers qs loop_init answers = Ok st
    ∧ normalized_score (total_raw_score st) (MAX_POSSIBLE_SCORE qs) = Ok (totalScore r)
    ∧ normalize_keys (max_possible_trait_score_base st) skill_keys (skill_scores st)
      = Ok (skillScores r)
    ∧ behavioralSummary r = behavioral_summary st
    ∧ detailedResults r = detailed_results st.
Proof.
  unfold psychology_predictor. intros H.
  destruct (job_questions_of g job_key) as [[|q qs]|]; try discriminate.
  apply fmap_Ok in H as (r' & H & Hr). inversion Hr; subst r'. clear Hr.
  unfold score_report in H.
  apply bind_Ok in H as (st & Hst & H). apply bind_Ok in H as (n & Hn & H).
  apply bind_Ok in H as (sk & Hsk & H). inversion H; subst. cbn.
  exists (q :: qs), st. repeat split; auto.
Qed.

(** ** Accounting of times and counters *)

Lemma total_time_app (l1 l2 : list Detail) :
  total_time (l1 ++ l2) = total_time l1 + total_time l2.
Proof. induction l1 as [|d l1 IH]; simpl; [reflexivity | rewrite IH; lia]. Qed.

Lemma effect_of_Ok_cases (qs : list Question) (a : Answer) (e : Effect) :
  effect_of qs a = Ok e ->
  e = no_effect ∨ e = skip_effect
  ∨ ∃ q o id i t,
      find_question qs a = Ok (Some q) ∧ parse_fields a = Ok (Some (i, t))
      ∧ chosen_option q i = Some o ∧ known_keys (o_score o) = true
      ∧ questionId a = Some id
      ∧ e = {| e_raw := points (o_score o) + (time_rule t).1.1.1;
               e_items := o_score o ++ (time_rule t).1.1.2;
               e_counts :=
                 {| fastResponses := fastResponses (time_rule t).1.2;
                    slowResponses := slowResponses (time_rule t).1.2;
                    optimalResponses := optimalResponses (time_rule t).1.2;
                    totalTimeMs := t |};
               e_details :=
                 [{| d_questionId := id;
                     d_prompt := q_prompt q;
                     d_chosenOptionText := o_text o;
                     d_rawScoreImpact := o_score o;
                     d_timeTakenMs := t;
                     d_timeBehavior := (time_rule t).2;
                     d_traitMap := TRAIT_MAP |}];
               e_base := 10 |}.
Proof.
  unfold effect_of. intros H.
  destruct (find_question qs a) as [[q|]|]; cbn [bind] in H; try discriminate.
  2: { inversion H; auto. }
  destruct (parse_fields a) as [[[i t]|]|]; cbn [bind] in H; try discriminate.
  2: { inversion H; auto. }
  destruct (chosen_option q i) as [o|] eqn:Ho.
  2: { inversion H; auto. }
  destruct (known_keys (o_score o)) eqn:Hk; [|discriminate].
  destruct (time_rule t) as [[[time_score side] counts] label] eqn:Hr.
  destruct (questionId a) as [id|]; cbn [getitem bind] in H; [|discriminate].
  inversion H; subst. right. right. exists q, o, id, i, t.
  repeat split; try assumption; rewrite ?Hr; reflexivity.
Qed.

Lemma time_rule_counts (t : Z) :
  let c := (time_rule t).1.2 in
  0 <= fastResponses c ∧ 0 <= slowResponses c ∧ 0 <= optimalResponses c
  ∧ fastResponses c + slowResponses c + optimalResponses c <= 1.
Proof. unfold time_rule. repeat case_match; cbn; lia. Qed.

Lemma effect_of_accounting (qs : list Question) (a : Answer) (e : Effect) :
  effect_of qs a = Ok e ->
  totalTimeMs (e_counts e) = total_time (e_details e)
  ∧ 0 <= fastResponses (e_counts e) ∧ 0 <= slowResponses (e_counts e)
  ∧ 0 <= optimalResponses (e_counts e)
  ∧ fastResponses (e_counts e) + slowResponses (e_counts e) + optimalResponses (e_counts e)
    <= Z.of_nat (length (e_details e)).
Proof.
  intros H. apply effect_of_Ok_cases in H as [->|[->|H]].
  - cbn. lia.
  - cbn. lia.
  - destruct H as (q & o & id & i & t & _ & _ & _ & _ & _ & ->).
    pose proof (time_rule_counts t) as Hc. cbn in *. lia.
Qed.

Lemma score_answers_accounting (qs : list Question) (l : list Answer) (st st' : LoopState) :
  keys_present (skill_scores st) ->
  score_answers qs st l = Ok st' ->
  let b := behavioral_summary st in
  let b' := behavioral_summary st' in
  totalTimeMs b' - total_time (detailed_results st')
  = totalTimeMs b - total_time (detailed_results st)
  ∧ fastResponses b <= fastResponses b' ∧ slowResponses b <= slowResponses b'
  ∧ optimalResponses b <= optimalResponses b'
  ∧ (fastResponses b' + slowResponses b' + optimalResponses b')
    - Z.of_nat (length (detailed_results st'))
    <= (fastResponses b + slowResponses b + optimalResponses b)
       - Z.of_nat (length (detailed_results st)).
Proof.
  revert st. induction l as [|a l IH]; intros st Hm H; cbn [score_answers] in H.
  - inversion H; subst. cbn. lia.
  - apply bind_Ok in H as (s1 & H1 & H2).
    destruct (score_answer_Ok_inv _ _ _ _ Hm H1) as (e & He & ->).
    specialize (IH _ (apply_effect_keys e st Hm) H2).
    pose proof (effect_of_accounting _ _ _ He) as Ha.
    cbn in *. rewrite total_time_app, length_app in IH. lia.
Qed.

Lemma score_answers_details (qs : list Question) (l : list Answer) (st st' : LoopState) :
  keys_present (skill_scores st) ->
  score_answers qs st l = Ok st' ->
  detailed_results st' = (detailed_results st ++ details_in_order qs l)%list.
Proof.
  revert st. induction l as [|a l IH]; intros st Hm H; cbn [score_answers] in H.
  - inversion H; subst. cbn. rewrite app_nil_r. reflexivity.
  - apply bind_Ok in H as (s1 & H1 & H2).
    destruct (score_answer_Ok_inv _ _ _ _ Hm H1) as (e & He & ->).
    rewrite (IH _ (apply_effect_keys e st Hm) H2).
    unfold details_in_order. cbn [flat_map].
    replace (answer_details qs a) with (e_details e)
      by (unfold answer_details; rewrite He; reflexivity). cbn [apply_effect detailed_results]. rewrite <- app_assoc. reflexivity.
Qed.

(** ** The claims about the report *)

Lemma ratio_keys (k : string) :
  k ∈ ["TA"; "SL"; "ER"; "BP"] -> k ∈ skill_keys ∧ k ≠ "BS".
Proof.
  rewrite !elem_of_cons, elem_of_nil.
  intros [->|[->|[->|[->|[]]]]]; (split; [known_key | discriminate]).
Qed.

(** C5: in every report the function returns, [totalScore] and the score of
    each of TA, SL, ER, BP and BS lie between 0 and 100. *)
Theorem C5_scores_in_range
  (g : Globals) (job_key : string) (answers : list Answer) (r : Report) :
  psychology_predictor g job_key answers = Ok (Some r) ->
  0 <= totalScore r <= 100
  ∧ ∀ k, k ∈ skill_keys -> ∃ v, skillScores r !! k = Some v ∧ 0 <= v <= 100.
Proof.
  intros H.
  apply psychology_predictor_Some in H as (qs & st & _ & _ & _ & Hn & Hsk & _ & _).
  split.
  - unfold normalized_score in Hn. apply bind_Ok in Hn as (x & _ & Hn).
    inversion Hn. lia.
  - intros k Hk.
    destruct (normalize_keys_Ok _ _ _ _ skill_keys_NoDup Hsk) as [Hin _].
    destruct (Hin k Hk) as (v & v' & _ & Hv' & Hr).
    exists v'. split; [exact Hr|]. eapply normalized_skill_bounds, Hv'.
Qed.

(** C7: on a non-empty question set the empty answer list gives a report, not
    an error, with [totalScore] 0, the five skill scores 0, no detail record,
    and counters and total time 0; and the function returns [None] exactly
    when no question set was found or the one found is empty. *)
Theorem C7_empty_answers
  (g : Globals) (job_key : string) :
  (∀ qs, job_questions_of g job_key = Some qs -> qs ≠ [] ->
     ∃ r, psychology_predictor g job_key [] = Ok (Some r)
       ∧ totalScore r = 0
       ∧ (∀ k, k ∈ skill_keys -> skillScores r !! k = Some 0)
       ∧ detailedResults r = []
       ∧ behavioralSummary r = no_counts)
  ∧ (∀ answers, psychology_predictor g job_key answers = Ok None
       ↔ job_questions_of g job_key = None ∨ job_questions_of g job_key = Some []).
Proof.
  split.
  - intros qs Hq Hne. unfold psychology_predictor. rewrite Hq.
    destruct qs as [|q qs]; [contradiction|].
    unfold score_report. cbn [score_answers bind loop_init total_raw_score
      max_possible_trait_score_base skill_scores behavioral_summary detailed_results].
    unfold normalized_score. rewrite percent_zero.
    2: { unfold MAX_POSSIBLE_SCORE. cbn [length]. lia. }
    cbn [bind]. change (normalize_keys 0 skill_keys skill_scores_init)
      with (Ok (A := gmap string Z) skill_scores_init).
    cbn [bind fmap]. eexists. split; [reflexivity|]. cbn.
    repeat split.
    intros k Hk. unfold skill_keys in Hk. rewrite !elem_of_cons, elem_of_nil in Hk.
    destruct Hk as [->|[->|[->|[->|[->|[]]]]]]; reflexivity.
  - intros answers. unfold psychology_predictor.
    destruct (job_questions_of g job_key) as [[|q qs]|]; split; intros H; auto.
    + destruct (score_report g job_key (q :: qs) answers); discriminate.
    + destruct H; discriminate.
Qed.

(** C9: when the session's test id is the key of a generated test, the
    questions of that test are the set that is scored, whatever job profiles
    exist; otherwise the questions of the job profile under [job_key] are;
    and with neither the function returns [None] and scores nothing. *)
Theorem C9_question_set_resolution
  (g : Globals) (job_key : string) (answers : list Answer) :
  (∀ test_id test,
     session g !! "test_id" = Some test_id ->
     GENERATED_TESTS g !! test_id = Some test ->
     job_questions_of g job_key = Some (gt_questions test)
     ∧ psychology_predictor g job_key answers
       = match gt_questions test with
         | [] => Ok None
         | qs => fmap Some (score_report g job_key qs answers)
         end)
  ∧ (∀ profile,
       (session g !! "test_id" ≫= (λ test_id, GENERATED_TESTS g !! test_id)) = None ->
       JOB_PROFILES (ASSESSMENT_DATA g) !! job_key = Some profile ->
       job_questions_of g job_key = Some (questions profile)
       ∧ psychology_predictor g job_key answers
         = match questions profile with
           | [] => Ok None
           | qs => fmap Some (score_report g job_key qs answers)
           end)
  ∧ ((session g !! "test_id" ≫= (λ test_id, GENERATED_TESTS g !! test_id)) = None ->
     JOB_PROFILES (ASSESSMENT_DATA g) !! job_key = None ->
     job_questions_of g job_key = None
     ∧ psychology_predictor g job_key answers = Ok None).
Proof.
  unfold psychology_predictor, job_questions_of. split; [|split].
  - intros test_id test Hs Ht. rewrite Hs. cbn. rewrite Ht.
    split; [reflexivity|]. destruct (gt_questions test); reflexivity.
  - intros profile Hnone Hp. rewrite Hnone, Hp.
    split; [reflexivity|]. destruct (questions profile); reflexivity.
  - intros Hnone Hp. rewrite Hnone, Hp. split; reflexivity.
Qed.

(** C10: in every returned report [totalTimeMs] is the sum of the
    [timeTakenMs] of the detail records, and the three response counters,
    none of them negative, add up to at most the number of detail records. *)
Theorem C10_summary_accounts_for_details
  (g : Globals) (job_key : string) (answers : list Answer) (r : Report) :
  psychology_predictor g job_key answers = Ok (Some r) ->
  let b := behavioralSummary r in
  totalTimeMs b = total_time (detailedResults r)
  ∧ 0 <= fastResponses b ∧ 0 <= slowResponses b ∧ 0 <= optimalResponses b
  ∧ fastResponses b + slowResponses b + optimalResponses b
    <= Z.of_nat (length (detailedResults r)).
Proof.
  intros H.
  apply psychology_predictor_Some in H as (qs & st & _ & _ & Hst & _ & _ & Hb & Hd).
  pose proof (score_answers_accounting qs answers loop_init st keys_present_init Hst) as Ha.
  cbn in Ha. cbn. rewrite Hb, Hd. lia.
Qed.

(** C8: when the answers are given in another order and the function returns
    a report, it returns one for the other order too, with the same
    [totalScore], the same [skillScores] and the same [behavioralSummary];
    [detailedResults] holds the same records, each list in the order of its
    own answers. *)
Theorem C8_order_of_answers
  (g : Globals) (job_key : string) (answers answers' : list Answer) (r : Report) :
  answers ≡ₚ answers' ->
  psychology_predictor g job_key answers = Ok (Some r) ->
  ∃ qs r',
    job_questions_of g job_key = Some qs
    ∧ psychology_predictor g job_key answers' = Ok (Some r')
    ∧ totalScore r' = totalScore r
    ∧ skillScores r' = skillScores r
    ∧ behavioralSummary r' = behavioralSummary r
    ∧ detailedResults r ≡ₚ detailedResults r'
    ∧ detailedResults r = details_in_order qs answers
    ∧ detailedResults r' = details_in_order qs answers'.
Proof.
  intros Hperm H.
  apply psychology_predictor_Some in H as (qs & st & Hq & Hne & Hst & Hn & Hsk & Hb & Hd).
  destruct (score_answers_perm qs _ _ Hperm loop_init st keys_present_init Hst)
    as (st' & Hst' & Hraw & Hskills & Hbs & Hbase & Hdet).
  exists qs. unfold psychology_predictor. rewrite Hq.
  destruct qs as [|q qs]; [contradiction|].
  unfold score_report. rewrite Hst'. cbn [bind].
  rewrite <- Hraw, <- Hskills, <- Hbase, Hn, Hsk. cbn [bind fmap].
  eexists. split; [reflexivity|]. split; [reflexivity|]. cbn.
  repeat split.
  - congruence.
  - rewrite Hd. exact Hdet.
  - rewrite Hd. apply (score_answers_details _ _ loop_init _ keys_present_init Hst).
  - apply (score_answers_details _ _ loop_init _ keys_present_init Hst').
Qed.

(** ** binary64: no overflow below [2 ^ 1000] *)

Lemma digits2_pos_upper (p : positive) : Zpos p < 2 ^ Zpos (digits2_pos p).
Proof.
  induction p as [p IH|p IH|]; cbn [digits2_pos].
  - rewrite Pos2Z.inj_succ, Z.pow_succ_r by lia. lia.
  - rewrite Pos2Z.inj_succ, Z.pow_succ_r by lia. lia.
  - reflexivity.
Qed.

Lemma digits2_pos_lower (p : positive) : 2 ^ (Zpos (digits2_pos p) - 1) <= Zpos p.
Proof.
  induction p as [p IH|p IH|]; cbn [digits2_pos].
  - rewrite Pos2Z.inj_succ. replace (Z.succ (Zpos (digits2_pos p)) - 1)
      with (Z.succ (Zpos (digits2_pos p) - 1)) by lia.
    rewrite Z.pow_succ_r by lia. lia.
  - rewrite Pos2Z.inj_succ. replace (Z.succ (Zpos (digits2_pos p)) - 1)
      with (Z.succ (Zpos (digits2_pos p) - 1)) by lia.
    rewrite Z.pow_succ_r by lia. lia.
  - cbn. lia.
Qed.

Lemma Zdigits2_nonneg (m : Z) : 0 <= Zdigits2 m.
Proof. destruct m; cbn; lia. Qed.

Lemma Zdigits2_upper (m : Z) : 0 <= m -> m < 2 ^ Zdigits2 m.
Proof.
  destruct m as [|p|p]; intros H; cbn [Zdigits2]; [reflexivity | | lia].
  apply digits2_pos_upper.
Qed.

Lemma Zdigits2_le (m k : Z) : 0 <= k -> 0 <= m < 2 ^ k -> Zdigits2 m <= k.
Proof.
  intros Hk [Hm Hlt]. destruct m as [|p|p]; cbn [Zdigits2]; [lia | | lia].
  destruct (Z_le_gt_dec (Zpos (digits2_pos p)) k) as [Hle|Hgt]; [exact Hle|].
  pose proof (digits2_pos_lower p) as Hlow.
  assert (2 ^ k <= 2 ^ (Zpos (digits2_pos p) - 1)) by (apply Z.pow_le_mono_r; lia).
  lia.
Qed.

Lemma Zdigits2_shift (m n : Z) :
  0 <= m -> 0 <= n -> Zdigits2 (m / 2 ^ n) <= Z.max 0 (Zdigits2 m - n).
Proof.
  intros Hm Hn. pose proof (Zdigits2_upper m Hm) as Hup.
  pose proof (Zdigits2_nonneg m) as Hd.
  assert (Hpos : 0 < 2 ^ n) by (apply Z.pow_pos_nonneg; lia).
  apply Zdigits2_le; [lia|]. split; [apply Z.div_pos; lia|].
  apply Z.div_lt_upper_bound; [lia|].
  destruct (Z_le_gt_dec n (Zdigits2 m)) as [Hle|Hgt].
  - rewrite Z.max_r by lia. rewrite <- Z.pow_add_r by lia.
    replace (n + (Zdigits2 m - n)) with (Zdigits2 m) by lia. exact Hup.
  - rewrite Z.max_l by lia. rewrite Z.pow_0_r, Z.mul_1_r.
    assert (2 ^ Zdigits2 m <= 2 ^ n) by (apply Z.pow_le_mono_r; lia). lia.
Qed.

Lemma Zdigits2_succ (m : Z) : 0 <= m -> Zdigits2 (m + 1) <= Zdigits2 m + 1.
Proof.
  intros Hm. pose proof (Zdigits2_upper m Hm) as Hup.
  pose proof (Zdigits2_nonneg m) as Hd.
  apply Zdigits2_le; [lia|]. rewrite Z.pow_add_r, Z.pow_1_r by lia. lia.
Qed.

Lemma Zdigits2_mul (a b : Z) :
  0 <= a -> 0 <= b -> Zdigits2 (a * b) <= Zdigits2 a + Zdigits2 b.
Proof.
  intros Ha Hb. pose proof (Zdigits2_upper a Ha). pose proof (Zdigits2_upper b Hb).
  pose proof (Zdigits2_nonneg a). pose proof (Zdigits2_nonneg b).
  apply Zdigits2_le; [lia|]. rewrite Z.pow_add_r by lia. nia.
Qed.

Lemma Zdigits2_mono (a b : Z) : 0 <= a <= b -> Zdigits2 a <= Zdigits2 b.
Proof.
  intros [Ha Hab]. pose proof (Zdigits2_upper b ltac:(lia)).
  apply Zdigits2_le; [apply Zdigits2_nonneg | lia].
Qed.

Lemma shr_1_m (r : shr_record) : 0 <= shr_m r -> shr_m (shr_1 r) = shr_m r / 2.
Proof.
  destruct r as [m r s]. cbn [shr_m shr_1]. intros Hm.
  destruct m as [|[p|p|]|p]; cbn [shr_m]; try lia; try reflexivity.
  - rewrite Pos2Z.inj_xI. apply Z.div_unique with (r := 1); lia.
  - rewrite Pos2Z.inj_xO. apply Z.div_unique with (r := 0); lia.
Qed.

Lemma iter_shr_1_m (p : positive) (r : shr_record) :
  0 <= shr_m r -> shr_m (SpecFloat.iter_pos shr_1 p r) = shr_m r / 2 ^ Zpos p.
Proof.
  revert r. induction p as [p IH|p IH|]; intros r Hr; cbn [SpecFloat.iter_pos].
  - assert (Hp : 0 < 2 ^ Zpos p) by (apply Z.pow_pos_nonneg; lia).
    assert (H1 : 0 <= shr_m (shr_1 r)) by (rewrite shr_1_m by lia; apply Z.div_pos; lia).
    assert (H2 : 0 <= shr_m (SpecFloat.iter_pos shr_1 p (shr_1 r)))
      by (rewrite IH by lia; apply Z.div_pos; lia).
    assert (Hpow : 2 ^ Zpos p~1 = 2 * 2 ^ Zpos p * 2 ^ Zpos p).
    { replace (Zpos p~1) with (1 + Zpos p + Zpos p) by lia.
      rewrite !Z.pow_add_r, Z.pow_1_r by lia. reflexivity. }
    rewrite IH, IH, shr_1_m, Hpow by lia.
    rewrite <- !Z.div_div by lia. reflexivity.
  - assert (Hp : 0 < 2 ^ Zpos p) by (apply Z.pow_pos_nonneg; lia).
    assert (H2 : 0 <= shr_m (SpecFloat.iter_pos shr_1 p r))
      by (rewrite IH by lia; apply Z.div_pos; lia).
    assert (Hpow : 2 ^ Zpos p~0 = 2 ^ Zpos p * 2 ^ Zpos p).
    { replace (Zpos p~0) with (Zpos p + Zpos p) by lia.
      rewrite Z.pow_add_r by lia. reflexivity. }
    rewrite IH, IH, Hpow by lia.
    rewrite <- Z.div_div by lia. reflexivity.
  - rewrite shr_1_m by lia. reflexivity.
Qed.

Lemma shr_spec (r : shr_record) (e n : Z) :
  0 <= shr_m r ->
  snd (shr r e n) = e + Z.max 0 n
  ∧ shr_m (fst (shr r e n)) = shr_m r / 2 ^ Z.max 0 n.
Proof.
  intros Hr. unfold shr. destruct n as [|p|p]; cbn [fst snd].
  - rewrite Z.max_l by lia. rewrite Z.pow_0_r, Z.div_1_r. split; lia.
  - rewrite Z.max_r by lia. split; [reflexivity | apply iter_shr_1_m, Hr].
  - rewrite Z.max_l by lia. rewrite Z.pow_0_r, Z.div_1_r. split; lia.
Qed.

Lemma shr_record_of_loc_m (m : Z) (l : location) : shr_m (shr_record_of_loc m l) = m.
Proof. destruct l as [|[]]; reflexivity. Qed.

Lemma shr_fexp_spec (m e : Z) (l : location) :
  0 <= m ->
  ∃ e', e' = Z.max e (Z.max (Zdigits2 m + e - 53) (-1074))
    ∧ snd (shr_fexp prec emax m e l) = e'
    ∧ shr_m (fst (shr_fexp prec emax m e l)) = m / 2 ^ (e' - e).
Proof.
  intros Hm. eexists. split; [reflexivity|]. unfold shr_fexp.
  destruct (shr_spec (shr_record_of_loc m l) e (fexp prec emax (Zdigits2 m + e) - e))
    as [H1 H2]; [rewrite shr_record_of_loc_m; exact Hm|].
  rewrite shr_record_of_loc_m in H2. rewrite H1, H2.
  change (fexp prec emax (Zdigits2 m + e)) with (Z.max (Zdigits2 m + e - 53) (-1074)).
  split; [lia | f_equal; f_equal; lia].
Qed.

Lemma round_nearest_even_range (m : Z) (l : location) :
  m <= round_nearest_even m l <= m + 1.
Proof. unfold round_nearest_even. destruct l as [|[]]; try destruct (Z.even m); lia. Qed.

Lemma binary_round_aux_below (K : Z) (sx : bool) (mx ex : Z) (lx : location) :
  0 <= K <= 1023 -> 0 <= mx -> Zdigits2 mx + ex <= K -> ex <= K - 53 ->
  float_below (K + 1) (binary_round_aux prec emax sx mx ex lx).
Proof.
  intros HK Hmx Hd He. unfold binary_round_aux.
  destruct (shr_fexp_spec mx ex lx Hmx) as (e1' & He1 & Hs1 & Hm1).
  destruct (shr_fexp prec emax mx ex lx) as [r1 e1]. cbn [fst snd] in Hs1, Hm1. subst e1.
  set (m2 := round_nearest_even (shr_m r1) (loc_of_shr_record r1)).
  assert (Hp1 : 0 < 2 ^ (e1' - ex)) by (apply Z.pow_pos_nonneg; lia).
  assert (Hm1pos : 0 <= shr_m r1) by (rewrite Hm1; apply Z.div_pos; lia).
  pose proof (round_nearest_even_range (shr_m r1) (loc_of_shr_record r1)) as Hr. fold m2 in Hr.
  assert (Hm2 : 0 <= m2) by lia.
  destruct (shr_fexp_spec m2 e1' loc_Exact Hm2) as (e2' & He2 & Hs2 & Hm3).
  destruct (shr_fexp prec emax m2 e1' loc_Exact) as [r2 e2]. cbn [fst snd] in Hs2, Hm3. subst e2.
  pose proof (Zdigits2_nonneg mx) as Hdmx.
  assert (Hd1 : Zdigits2 (shr_m r1) <= Z.max 0 (Zdigits2 mx - (e1' - ex))).
  { rewrite Hm1. apply Zdigits2_shift; lia. }
  assert (Hd2 : Zdigits2 m2 <= Zdigits2 (shr_m r1) + 1).
  { etransitivity; [apply Zdigits2_mono; split; [exact Hm2 | apply Hr]|].
    apply Zdigits2_succ, Hm1pos. }
  assert (Hd3 : Zdigits2 (shr_m r2) <= Z.max 0 (Zdigits2 m2 - (e2' - e1'))).
  { rewrite Hm3. apply Zdigits2_shift; lia. }
  assert (Hp2 : 0 < 2 ^ (e2' - e1')) by (apply Z.pow_pos_nonneg; lia).
  assert (Hm3pos : 0 <= shr_m r2) by (rewrite Hm3; apply Z.div_pos; lia).
  destruct (shr_m r2) as [|m3|m3] eqn:Em3; [exact I | | lia].
  assert (He2' : e2' <= emax - prec) by (unfold emax, prec; lia).
  apply Z.leb_le in He2'. rewrite He2'. cbn [float_below].
  assert (0 < Zdigits2 (Zpos m3)) by (cbn; lia).
  lia.
Qed.

Lemma Zdigits2_shiftl (m s : Z) :
  0 <= m -> 0 <= s -> Zdigits2 (m * 2 ^ s) <= Zdigits2 m + s.
Proof.
  intros Hm Hs. pose proof (Zdigits2_upper m Hm). pose proof (Zdigits2_nonneg m).
  assert (0 < 2 ^ s) by (apply Z.pow_pos_nonneg; lia).
  apply Zdigits2_le; [lia|]. rewrite Z.pow_add_r by lia. nia.
Qed.

Lemma truediv_below (a b : Z) :
  Z.abs a < 2 ^ 1000 -> 0 < b ->
  ∃ q, truediv a b = Ok q ∧ float_below 1001 q.
Proof.
  intros Ha Hb. unfold truediv.
  destruct (Z.eqb_spec b 0) as [->|_]; [lia|].
  destruct (Z.eqb_spec a 0) as [->|Hne]; [eexists; split; [reflexivity | exact I]|].
  cbn [SFdiv]. unfold SFdiv_core_binary.
  set (m1 := Zpos (Z.to_pos (Z.abs a))). set (m2 := Zpos (Z.to_pos (Z.abs b))).
  assert (Hm1 : m1 = Z.abs a) by (unfold m1; rewrite Z2Pos.id; lia).
  assert (Hm2 : 0 < m2) by (unfold m2; lia).
  set (e' := Z.min (fexp prec emax (Zdigits2 m1 + 0 - (Zdigits2 m2 + 0))) (0 - 0)).
  set (s := 0 - 0 - e').
  set (m' := match s with Zpos _ => Z.shiftl m1 s | Z0 => m1 | Zneg _ => 0 end).
  assert (He' : e' <= 0) by (unfold e'; lia).
  assert (Hs : s = - e') by (unfold s; lia).
  assert (Hm' : m' = m1 * 2 ^ s).
  { unfold m'. destruct s as [|p|p] eqn:Es; [lia | | lia].
    rewrite Z.shiftl_mul_pow2 by lia. reflexivity. }
  assert (Hm'pos : 0 <= m').
  { rewrite Hm'. assert (0 < 2 ^ s) by (apply Z.pow_pos_nonneg; lia). nia. }
  destruct (Z.div_eucl m' m2) as [q r] eqn:E.
  assert (Hq : q = m' / m2) by (unfold Z.div; rewrite E; reflexivity).
  assert (Hq0 : 0 <= q) by (rewrite Hq; apply Z.div_pos; lia).
  assert (Hqle : q <= m').
  { rewrite Hq. apply Z.div_le_upper_bound; [lia | nia]. }
  assert (Hd1 : Zdigits2 m1 <= 1000) by (apply Zdigits2_le; lia).
  assert (Hdq : Zdigits2 q <= Zdigits2 m1 + s).
  { etransitivity; [apply Zdigits2_mono; split; [exact Hq0 | exact Hqle]|].
    rewrite Hm'. apply Zdigits2_shiftl; lia. }
  pose proof (binary_round_aux_below 1000 (xorb (a <? 0) (b <? 0)) q e'
                (new_location m2 r) ltac:(lia) Hq0 ltac:(lia) ltac:(lia)) as Hbelow.
  change (1000 + 1) with 1001 in Hbelow.
  destruct (binary_round_aux prec emax (xorb (a <? 0) (b <? 0)) q e' (new_location m2 r))
    as [sz|sz| |sz mz ez]; cbn [float_below] in Hbelow; try contradiction;
    eexists; (split; [reflexivity | exact Hbelow]).
Qed.

Lemma mul_int_below (K : Z) (x : spec_float) :
  0 <= K <= 1015 -> float_below K x -> float_below (K + 8) (mul_int x 100).
Proof.
  intros HK Hx. unfold mul_int.
  change (float_of_small 100) with (S754_finite false 7036874417766400 (-46)).
  destruct x as [sx|sx| |sx mx ex]; cbn [float_below] in Hx; try contradiction.
  - exact I.
  - cbn [SFmul]. destruct Hx as [Hd He].
    replace (K + 8) with (K + 7 + 1) by lia.
    apply binary_round_aux_below; try lia.
    rewrite Pos2Z.inj_mul.
    pose proof (Zdigits2_mul (Zpos mx) 7036874417766400 ltac:(lia) ltac:(lia)) as Hmul.
    change (Zdigits2 7036874417766400) with 53 in Hmul. lia.
Qed.

Lemma round_below (K : Z) (x : spec_float) : float_below K x -> ∃ z, round x = Ok z.
Proof. destruct x; cbn; intros H; try contradiction; eauto. Qed.

Lemma percent_total (a b : Z) :
  Z.abs a < 2 ^ 1000 -> 0 < b -> ∃ z, percent a b = Ok z.
Proof.
  intros Ha Hb. unfold percent.
  destruct (truediv_below a b Ha Hb) as (q & -> & Hq). cbn [bind].
  apply (round_below 1009), (mul_int_below 1001); [lia | exact Hq].
Qed.

(** ** binary64: the accuracy of [round(a / b * 100)] *)

Lemma loc_of_shr_record_of_loc (m : Z) (l : location) :
  loc_of_shr_record (shr_record_of_loc m l) = l.
Proof. destruct l as [|[]]; reflexivity. Qed.

Lemma loc_of_cases (N D : Z) (rb sb : bool) (m : Z) :
  0 < D ->
  loc_of_shr_record {| shr_m := m; shr_r := rb; shr_s := sb |} = loc_of N D ->
  (N mod D = 0 ∧ rb = false ∧ sb = false)
  ∨ (N mod D ≠ 0 ∧ 2 * (N mod D) < D ∧ rb = false ∧ sb = true)
  ∨ (2 * (N mod D) = D ∧ rb = true ∧ sb = false)
  ∨ (D < 2 * (N mod D) ∧ rb = true ∧ sb = true).
Proof.
  intros HD. unfold loc_of.
  pose proof (Z.mod_pos_bound N D HD) as Hr.
  destruct (Z.eqb_spec (N mod D) 0) as [H0|H0];
    destruct (Z.compare_spec (2 * (N mod D)) D) as [Hc|Hc|Hc];
    destruct rb, sb; cbn; intros H; try discriminate; lia.
Qed.

Lemma loc_of_double (N D : Z) (odd : bool) (h : Z) :
  0 <= N -> 0 < D -> N / D = 2 * h + (if odd then 1 else 0) ->
  N / (2 * D) = h
  ∧ N mod (2 * D) = (if odd then D else 0) + N mod D.
Proof.
  intros HN HD Hm.
  pose proof (Z.div_mod N D ltac:(lia)) as Hdm.
  pose proof (Z.mod_pos_bound N D HD) as Hr.
  rewrite Hm in Hdm.
  assert (Heq : N = 2 * D * h + ((if odd then D else 0) + N mod D)) by (destruct odd; lia).
  assert (Hb : 0 <= (if odd then D else 0) + N mod D < 2 * D) by (destruct odd; lia).
  split.
  - symmetry. eapply Z.div_unique_pos; [exact Hb | exact Heq].
  - symmetry. eapply Z.mod_unique_pos; [exact Hb | exact Heq].
Qed.

Lemma shr_1_loc (N D : Z) (r : shr_record) :
  0 <= N -> 0 < D -> shr_m r = N / D -> loc_of_shr_record r = loc_of N D ->
  shr_m (shr_1 r) = N / (2 * D)
  ∧ loc_of_shr_record (shr_1 r) = loc_of N (2 * D).
Proof.
  intros HN HD Hm Hl.
  assert (Hm0 : 0 <= N / D) by (apply Z.div_pos; lia).
  pose proof (Z.mod_pos_bound N D HD) as Hr.
  destruct r as [m rb sb]. cbn [shr_m] in Hm.
  apply loc_of_cases in Hl; [|exact HD].
  assert (Hshape : ∃ (odd : bool) (h : Z), N / D = 2 * h + (if odd then 1 else 0)
                    ∧ shr_1 {| shr_m := m; shr_r := rb; shr_s := sb |}
                      = {| shr_m := h; shr_r := odd; shr_s := rb || sb |}).
  { rewrite <- Hm. destruct m as [|[p|p|]|p]; cbn [shr_1].
    - exists false, 0. split; [lia | reflexivity].
    - exists true, (Zpos p). split; [lia | reflexivity].
    - exists false, (Zpos p). split; [lia | reflexivity].
    - exists true, 0. split; [lia | reflexivity].
    - lia. }
  destruct Hshape as (odd & h & Hh & ->).
  destruct (loc_of_double N D odd h HN HD Hh) as [Hq Hmod].
  split; [cbn [shr_m]; lia|].
  unfold loc_of. rewrite Hmod.
  destruct Hl as [(H0 & -> & ->)|[(H0 & H1 & -> & ->)|[(H0 & -> & ->)|(H0 & -> & ->)]]];
    destruct odd; cbn [orb loc_of_shr_record];
    match goal with
    | |- _ = (if ?c =? 0 then _ else _) => destruct (Z.eqb_spec c 0); try lia
    end;
    try reflexivity;
    match goal with
    | |- _ = loc_Inexact (?a ?= ?b) => destruct (Z.compare_spec a b); try lia; reflexivity
    end.
Qed.

Lemma iter_shr_1_loc (p : positive) (N D : Z) (r : shr_record) :
  0 <= N -> 0 < D -> shr_m r = N / D -> loc_of_shr_record r = loc_of N D ->
  shr_m (SpecFloat.iter_pos shr_1 p r) = N / (D * 2 ^ Zpos p)
  ∧ loc_of_shr_record (SpecFloat.iter_pos shr_1 p r) = loc_of N (D * 2 ^ Zpos p).
Proof.
  intros HN. revert D r.
  induction p as [p IH|p IH|]; intros D r HD Hm Hl; cbn [SpecFloat.iter_pos].
  - assert (Hp : 0 < 2 ^ Zpos p) by (apply Z.pow_pos_nonneg; lia).
    assert (Hpow : D * 2 ^ Zpos p~1 = 2 * D * 2 ^ Zpos p * 2 ^ Zpos p).
    { replace (Zpos p~1) with (1 + Zpos p + Zpos p) by lia.
      rewrite !Z.pow_add_r, Z.pow_1_r by lia. lia. }
    rewrite Hpow.
    destruct (shr_1_loc N D r HN HD Hm Hl) as [H1 H2].
    destruct (IH (2 * D) (shr_1 r) ltac:(lia) H1 H2) as [H3 H4].
    apply IH; [nia | exact H3 | exact H4].
  - assert (Hp : 0 < 2 ^ Zpos p) by (apply Z.pow_pos_nonneg; lia).
    assert (Hpow : D * 2 ^ Zpos p~0 = D * 2 ^ Zpos p * 2 ^ Zpos p).
    { replace (Zpos p~0) with (Zpos p + Zpos p) by lia.
      rewrite Z.pow_add_r by lia. lia. }
    rewrite Hpow.
    destruct (IH D r HD Hm Hl) as [H3 H4].
    apply IH; [nia | exact H3 | exact H4].
  - rewrite Z.pow_1_r, (Z.mul_comm D 2). apply shr_1_loc; assumption.
Qed.

Lemma shr_fexp_loc (N D m e : Z) (l : location) :
  0 <= N -> 0 < D -> m = N / D -> l = loc_of N D ->
  ∃ e', e' = Z.max e (Z.max (Zdigits2 m + e - 53) (-1074))
    ∧ snd (shr_fexp prec emax m e l) = e'
    ∧ shr_m (fst (shr_fexp prec emax m e l)) = N / (D * 2 ^ (e' - e))
    ∧ loc_of_shr_record (fst (shr_fexp prec emax m e l)) = loc_of N (D * 2 ^ (e' - e)).
Proof.
  intros HN HD Hm Hl. eexists. split; [reflexivity|].
  unfold shr_fexp, shr.
  change (fexp prec emax (Zdigits2 m + e)) with (Z.max (Zdigits2 m + e - 53) (-1074)).
  set (n := Z.max (Zdigits2 m + e - 53) (-1074) - e).
  assert (Hr0 : shr_m (shr_record_of_loc m l) = N / D)
    by (rewrite shr_record_of_loc_m; exact Hm).
  assert (Hl0 : loc_of_shr_record (shr_record_of_loc m l) = loc_of N D)
    by (rewrite loc_of_shr_record_of_loc; exact Hl).
  destruct n as [|p|p] eqn:En; cbn [fst snd].
  - replace (Z.max e (Z.max (Zdigits2 m + e - 53) (-1074)) - e) with 0 by lia.
    rewrite Z.pow_0_r, Z.mul_1_r. split; [lia | split; assumption].
  - replace (Z.max e (Z.max (Zdigits2 m + e - 53) (-1074)) - e) with (Zpos p) by lia.
    split; [lia|]. apply iter_shr_1_loc; assumption.
  - replace (Z.max e (Z.max (Zdigits2 m + e - 53) (-1074)) - e) with 0 by lia.
    rewrite Z.pow_0_r, Z.mul_1_r. split; [lia | split; assumption].
Qed.

Lemma round_nearest_even_close (N D : Z) :
  0 <= N -> 0 < D ->
  2 * Z.abs (round_nearest_even (N / D) (loc_of N D) * D - N) <= D.
Proof.
  intros HN HD.
  pose proof (Z.div_mod N D ltac:(lia)) as Hdm.
  pose proof (Z.mod_pos_bound N D HD) as Hr.
  unfold round_nearest_even, loc_of.
  destruct (Z.eqb_spec (N mod D) 0) as [H0|H0]; [lia|].
  destruct (Z.compare_spec (2 * (N mod D)) D) as [Hc|Hc|Hc];
    [destruct (Z.even (N / D))| |]; lia.
Qed.

Lemma Zdigits2_lower (m : Z) : 0 < m -> 2 ^ (Zdigits2 m - 1) <= m.
Proof.
  destruct m as [|p|p]; intros H; cbn [Zdigits2]; [lia | | lia].
  apply digits2_pos_lower.
Qed.

Lemma Zdigits2_ge (m k : Z) : 0 <= k -> 2 ^ k <= m -> k + 1 <= Zdigits2 m.
Proof.
  intros Hk Hm.
  assert (Hpos : 0 < 2 ^ k) by (apply Z.pow_pos_nonneg; lia).
  pose proof (Zdigits2_upper m ltac:(lia)) as Hup.
  destruct (Z_le_gt_dec (k + 1) (Zdigits2 m)) as [Hle|Hgt]; [exact Hle|].
  assert (2 ^ Zdigits2 m <= 2 ^ k) by (apply Z.pow_le_mono_r; lia). lia.
Qed.

Lemma loc_of_Exact (N D : Z) : loc_of N D = loc_Exact -> N mod D = 0.
Proof.
  unfold loc_of. destruct (Z.eqb_spec (N mod D) 0); [auto | discriminate].
Qed.

Lemma binary_round_aux_close (sx : bool) (mx ex : Z) (lx : location) (N D : Z) :
  0 <= N -> 0 < D -> mx = N / D -> lx = loc_of N D ->
  lx = loc_Exact ∨ 53 <= Zdigits2 mx ∨ ex <= -1074 ->
  ∃ Y, 0 <= Y
    ∧ scaled (binary_round_aux prec emax sx mx ex lx) sx ex Y
    ∧ close N D ex Y.
Proof.
  intros HN HD Hmx Hlx Hgood. unfold binary_round_aux.
  destruct (shr_fexp_loc N D mx ex lx HN HD Hmx Hlx) as (e1' & He1 & Hs1 & Hm1 & Hl1).
  destruct (shr_fexp prec emax mx ex lx) as [r1 e1]. cbn [fst snd] in *. subst e1.
  set (k := e1' - ex) in *.
  assert (Hk : 0 <= k) by lia.
  assert (Hpk : 0 < 2 ^ k) by (apply Z.pow_pos_nonneg; lia).
  set (D' := D * 2 ^ k) in *.
  assert (HD' : 0 < D') by nia.
  rewrite Hm1, Hl1.
  set (m2 := round_nearest_even (N / D') (loc_of N D')).
  pose proof (round_nearest_even_close N D' HN HD') as Hclose. fold m2 in Hclose.
  pose proof (round_nearest_even_range (N / D') (loc_of N D')) as Hr. fold m2 in Hr.
  assert (Hm1pos : 0 <= N / D') by (apply Z.div_pos; lia).
  assert (Hm2 : 0 <= m2) by lia.
  assert (Hmxpos : 0 <= mx) by (subst mx; apply Z.div_pos; lia).
  assert (Hm1eq : N / D' = mx / 2 ^ k).
  { unfold D'. rewrite <- Z.div_div by lia. subst mx. reflexivity. }
  pose proof (Zdigits2_nonneg mx) as Hdmx.
  assert (Hd1 : Zdigits2 (N / D') <= 53).
  { rewrite Hm1eq. etransitivity; [apply Zdigits2_shift; lia|]. lia. }
  assert (Hm1lt : N / D' < 2 ^ 53).
  { pose proof (Zdigits2_upper (N / D') Hm1pos).
    assert (2 ^ Zdigits2 (N / D') <= 2 ^ 53) by (apply Z.pow_le_mono_r; lia). lia. }
  assert (Hm2le : m2 <= 2 ^ 53) by lia.
  destruct (shr_fexp_spec m2 e1' loc_Exact Hm2) as (e2' & He2 & Hs2 & Hm3).
  destruct (shr_fexp prec emax m2 e1' loc_Exact) as [r2 e2]. cbn [fst snd] in *. subst e2.
  assert (Hexact : shr_m r2 * 2 ^ (e2' - e1') = m2 ∧ e1' <= e2').
  { destruct (Z_lt_le_dec m2 (2 ^ 53)) as [Hlt|Hge].
    - assert (Zdigits2 m2 <= 53) by (apply Zdigits2_le; lia).
      assert (e2' = e1') by lia. rewrite Hm3. replace (e2' - e1') with 0 by lia.
      rewrite Z.pow_0_r, Z.div_1_r. lia.
    - assert (Heq : m2 = 2 ^ 53) by lia.
      assert (Hd : Zdigits2 m2 = 54) by (rewrite Heq; reflexivity).
      assert (e2' = e1' + 1) by lia.
      rewrite Hm3. replace (e2' - e1') with 1 by lia. rewrite Heq.
      split; [reflexivity | lia]. }
  destruct Hexact as [Hex Hle].
  exists (m2 * 2 ^ k). split; [nia|]. split.
  - destruct (shr_m r2) as [|m3|m3] eqn:Em3.
    + cbn. split; [reflexivity|]. nia.
    + destruct (e2' <=? emax - prec); cbn; [|exact I].
      split; [reflexivity|]. split; [lia|]. split; [lia|].
      rewrite <- Hex. replace (e2' - ex) with ((e2' - e1') + k) by lia.
      rewrite Z.pow_add_r by lia. lia.
    + assert (0 < 2 ^ (e2' - e1')) by (apply Z.pow_pos_nonneg; lia). nia.
  - unfold close.
    replace (m2 * 2 ^ k * D - N) with (m2 * D' - N) by (unfold D'; lia).
    destruct (Z_le_gt_dec 53 (Zdigits2 mx)) as [Hd53|Hd53];
      [destruct (Z_le_gt_dec (-1074) (Zdigits2 mx + ex - 53)) as [Hn|Hn]|].
    + left.
      assert (Hkd : k = Zdigits2 mx - 53) by lia.
      assert (Hmx0 : 0 < mx) by (destruct mx; cbn in Hd53; lia).
      pose proof (Zdigits2_lower mx Hmx0) as Hlow.
      replace (Zdigits2 mx - 1) with (52 + k) in Hlow by lia.
      rewrite Z.pow_add_r in Hlow by lia.
      pose proof (Z.div_mod N D ltac:(lia)) as Hdm.
      pose proof (Z.mod_pos_bound N D HD) as Hrem. rewrite <- Hmx in Hdm.
      assert (2 ^ 52 * D' <= N) by (unfold D'; nia).
      lia.
    + right. assert (Hkd : k = -1074 - ex) by lia.
      split; [lia|]. rewrite <- Hkd. fold D'. exact Hclose.
    + destruct (Z_le_gt_dec ex (-1074)) as [Hex1|Hex1].
      * right. assert (Hkd : k = -1074 - ex) by lia.
        split; [lia|]. rewrite <- Hkd. fold D'. exact Hclose.
      * left. destruct Hgood as [Hg|[Hg|Hg]]; [|lia|lia].
        assert (Hk0 : k = 0) by lia.
        assert (HDD : D' = D) by (unfold D'; rewrite Hk0, Z.pow_0_r; lia).
        rewrite Hg in Hlx. symmetry in Hlx.
        pose proof (loc_of_Exact N D Hlx) as Hmod.
        pose proof (Z.div_mod N D ltac:(lia)) as Hdm.
        assert (Hm2eq : m2 = N / D).
        { unfold m2. rewrite HDD, Hlx. reflexivity. }
        rewrite Hm2eq, HDD. replace (N / D * D - N) with 0 by lia.
        cbn. lia.
Qed.

Lemma new_location_loc (N D : Z) :
  0 < D -> new_location D (N mod D) = loc_of N D.
Proof.
  intros HD. pose proof (Z.mod_pos_bound N D HD) as Hr.
  unfold new_location, new_location_even, new_location_odd, loc_of.
  destruct (Z.even D) eqn:Ev; destruct (Z.eqb_spec (N mod D) 0); try reflexivity.
  f_equal.
  assert (Hodd : Z.odd D = true) by (rewrite <- Z.negb_even, Ev; reflexivity).
  apply Z.odd_spec in Hodd as [h Hh].
  destruct (Z.compare_spec (2 * (N mod D) + 1) D);
    destruct (Z.compare_spec (2 * (N mod D)) D); try lia; reflexivity.
Qed.

Lemma truediv_close (a b : Z) (f : spec_float) :
  a ≠ 0 -> 0 < b -> truediv a b = Ok f ->
  ∃ s Y, 0 <= s ∧ 0 <= Y ∧ not_infinite f
    ∧ scaled f (a <? 0) (- s) Y
    ∧ close (Z.abs a * 2 ^ s) b (- s) Y.
Proof.
  intros Ha Hb. unfold truediv.
  destruct (Z.eqb_spec b 0) as [->|_]; [lia|].
  destruct (Z.eqb_spec a 0) as [->|_]; [lia|].
  cbn [SFdiv]. unfold SFdiv_core_binary.
  set (m1 := Zpos (Z.to_pos (Z.abs a))). set (m2 := Zpos (Z.to_pos (Z.abs b))).
  assert (Hm1 : m1 = Z.abs a) by (unfold m1; rewrite Z2Pos.id; lia).
  assert (Hm2 : m2 = b) by (unfold m2; rewrite Z2Pos.id; lia).
  assert (Hsb : (b <? 0) = false) by (apply Z.ltb_ge; lia).
  rewrite Hsb, xorb_false_r.
  set (e' := Z.min (fexp prec emax (Zdigits2 m1 + 0 - (Zdigits2 m2 + 0))) (0 - 0)).
  set (s := 0 - 0 - e').
  set (m' := match s with Zpos _ => Z.shiftl m1 s | Z0 => m1 | Zneg _ => 0 end).
  assert (He'def : e' = Z.min (Z.max (Zdigits2 m1 - Zdigits2 m2 - 53) (-1074)) 0).
  { unfold e', fexp, emin, prec, emax. lia. }
  assert (He' : e' <= 0) by lia.
  assert (Hs : s = - e') by (unfold s; lia).
  assert (Hm' : m' = m1 * 2 ^ s).
  { unfold m'. destruct s as [|p|p] eqn:Es; [lia | | lia].
    rewrite Z.shiftl_mul_pow2 by lia. reflexivity. }
  assert (Hps : 0 < 2 ^ s) by (apply Z.pow_pos_nonneg; lia).
  assert (Hm'pos : 0 <= m') by (rewrite Hm'; nia).
  destruct (Z.div_eucl m' m2) as [q r] eqn:E.
  assert (Hq : q = m' / m2) by (unfold Z.div; rewrite E; reflexivity).
  assert (Hr : r = m' mod m2) by (unfold Z.modulo; rewrite E; reflexivity).
  assert (Hloc : new_location m2 r = loc_of m' m2)
    by (rewrite Hr; apply new_location_loc; lia).
  assert (Hgood : new_location m2 r = loc_Exact ∨ 53 <= Zdigits2 q ∨ e' <= -1074).
  { destruct (Z_le_gt_dec (Zdigits2 m1 - Zdigits2 m2 - 53) (-1074)) as [Hu|Hu];
      [right; right; lia|].
    right; left.
    assert (Hm1pos : 0 < m1) by (unfold m1; lia).
    pose proof (Zdigits2_lower m1 Hm1pos) as Hlow.
    pose proof (Zdigits2_upper m2 ltac:(lia)) as Hup.
    pose proof (Zdigits2_nonneg m2) as Hd2.
    assert (Hd1 : 0 < Zdigits2 m1) by (unfold m1; cbn; lia).
    assert (Hbig : 2 ^ (52 + Zdigits2 m2) <= m').
    { rewrite Hm'.
      assert (2 ^ (52 + Zdigits2 m2) <= 2 ^ (Zdigits2 m1 - 1 + s))
        by (apply Z.pow_le_mono_r; lia).
      rewrite (Z.pow_add_r 2 (Zdigits2 m1 - 1) s) in H by lia. nia. }
    rewrite Z.pow_add_r in Hbig by lia.
    assert (2 ^ 52 <= q).
    { rewrite Hq. apply Z.div_le_lower_bound; [lia|]. nia. }
    apply (Zdigits2_ge q 52); lia. }
  destruct (binary_round_aux_close (a <? 0) q e' (new_location m2 r) m' m2
              Hm'pos ltac:(lia) Hq Hloc Hgood) as (Y & HY & Hsc & Hcl).
  intros H. exists s, Y.
  replace (- s) with e' by lia.
  replace (Z.abs a * 2 ^ s) with m' by (rewrite Hm', Hm1; reflexivity).
  rewrite <- Hm2.
  split; [lia|]. split; [exact HY|].
  destruct (binary_round_aux prec emax (a <? 0) q e' (new_location m2 r)) as [sz|sz| |sz mz ez];
    try discriminate; inversion H; subst f; (split; [exact I|]); split; assumption.
Qed.

Lemma mul_int_close (sq : bool) (mq : positive) (eq : Z) :
  ∃ Y, 0 <= Y
    ∧ scaled (mul_int (S754_finite sq mq eq) 100) sq (eq - 46) Y
    ∧ close (Zpos mq * 7036874417766400) 1 (eq - 46) Y.
Proof.
  unfold mul_int.
  change (float_of_small 100) with (S754_finite false 7036874417766400 (-46)).
  cbn [SFmul]. rewrite xorb_false_r, Pos2Z.inj_mul.
  change (eq + -46) with (eq - 46).
  apply binary_round_aux_close.
  - lia.
  - lia.
  - rewrite Z.div_1_r. reflexivity.
  - unfold loc_of. rewrite Z.mod_1_r. reflexivity.
  - left. reflexivity.
Qed.

Lemma round_pos_close (m : positive) (e T : Z) :
  0 <= T -> 0 <= e + T ->
  0 <= round_pos m e
  ∧ 2 * Z.abs (round_pos m e * 2 ^ T - Zpos m * 2 ^ (e + T)) <= 2 ^ T.
Proof.
  intros HT HeT.
  assert (HpT : 0 < 2 ^ T) by (apply Z.pow_pos_nonneg; lia).
  destruct e as [|p|p]; cbn [round_pos].
  - rewrite Z.add_0_l. split; [lia|].
    replace (Zpos m * 2 ^ T - Zpos m * 2 ^ T) with 0 by lia. cbn. lia.
  - assert (0 < 2 ^ Zpos p) by (apply Z.pow_pos_nonneg; lia).
    split; [nia|]. rewrite Z.pow_add_r by lia.
    replace (Zpos m * 2 ^ Zpos p * 2 ^ T - Zpos m * (2 ^ Zpos p * 2 ^ T)) with 0 by lia.
    cbn. lia.
  - set (d := 2 ^ Zpos p).
    assert (Hd : 0 < d) by (apply Z.pow_pos_nonneg; lia).
    set (W := 2 ^ (Zneg p + T)).
    assert (HW : 0 < W) by (apply Z.pow_pos_nonneg; lia).
    assert (HdW : 2 ^ T = d * W).
    { unfold d, W. rewrite <- Z.pow_add_r by lia. f_equal. lia. }
    pose proof (Z.div_mod (Zpos m) d ltac:(lia)) as Hdm.
    pose proof (Z.mod_pos_bound (Zpos m) d Hd) as Hr.
    assert (Hq0 : 0 <= Zpos m / d) by (apply Z.div_pos; lia).
    set (n := match 2 * (Zpos m mod d) ?= d with
              | Eq => if Z.even (Zpos m / d) then Zpos m / d else Zpos m / d + 1
              | Lt => Zpos m / d
              | Gt => Zpos m / d + 1
              end).
    assert (Hn : 0 <= n ∧ 2 * Z.abs (n * d - Zpos m) <= d).
    { unfold n. destruct (Z.compare_spec (2 * (Zpos m mod d)) d);
        [destruct (Z.even (Zpos m / d))| |]; lia. }
    destruct Hn as [Hn0 Hn].
    split; [exact Hn0|]. rewrite HdW.
    replace (n * (d * W) - Zpos m * W) with ((n * d - Zpos m) * W) by lia.
    rewrite Z.abs_mul, (Z.abs_eq W) by lia. nia.
Qed.

(** The three errors of [round(a / b * 100)] added up, all in units of
    [2 ^ -(s + 46)]. *)
Lemma percent_errors (A b P E mq Yq Yp n' Zp S : Z) :
  0 < A -> 0 < b -> 0 < P -> 0 < E -> 0 < mq -> 0 <= n' ->
  S = 2 ^ 46 * P -> Yq = mq * E -> Zp = Yp * E ->
  (2 ^ 53 * Z.abs (Yq * b - A * P) <= A * P
   ∨ ∃ P1, 0 < P1 ∧ P = 2 ^ 1074 * P1 ∧ 2 * Z.abs (Yq * b - A * P) <= b * P1) ->
  (2 ^ 53 * Z.abs (Yp * 1 - mq * 7036874417766400) <= mq * 7036874417766400
   ∨ ∃ P2 R, 0 < P2 ∧ P = 2 ^ 1028 * P2 ∧ P2 = R * E
       ∧ 2 * Z.abs (Yp * 1 - mq * 7036874417766400) <= 1 * R) ->
  2 * Z.abs (n' * S - Zp) <= S ->
  2 ^ 53 * Z.abs (b * n' - 100 * A) <= (2 ^ 52 + 1) * b + 300 * A.
Proof.
  intros HA Hb HP HE Hmq Hn' HS HYq HZp H1 H2 H3.
  assert (HSpos : 0 < S) by lia.
  set (C := 7036874417766400) in *.
  set (x1 := n' * S - Zp) in *.
  set (x2 := Zp - Yq * C).
  set (x3 := Yq * b - A * P) in *.
  assert (HCP : C * P = 100 * S) by (unfold C; lia).
  assert (Hsplit : (b * n' - 100 * A) * S = b * x1 + b * x2 + C * x3).
  { unfold x1, x2, x3. replace (100 * A * S) with (C * P * A) by (rewrite HCP; lia). lia. }
  assert (Hx2 : x2 = (Yp * 1 - mq * C) * E) by (unfold x2; rewrite HZp, HYq; lia).
  (* the three terms *)
  assert (Hy1 : 2 * Z.abs (b * x1) <= b * S).
  { rewrite Z.abs_mul, (Z.abs_eq b) by lia.
    pose proof (Z.mul_le_mono_nonneg_l _ _ b ltac:(lia) H3). lia. }
  assert (Hy3 : 2 ^ 53 * Z.abs (C * x3) <= 100 * (A * S) ∧ 2 ^ 53 * Z.abs x3 <= A * P
                ∨ 2 ^ 1000 * Z.abs (C * x3) <= b * S ∧ 2 ^ 1000 * Z.abs x3 <= b * P).
  { destruct H1 as [H1|(P1 & HP1 & HPP & H1)].
    - left. split; [|exact H1]. rewrite Z.abs_mul, (Z.abs_eq C) by (unfold C; lia).
      replace (100 * (A * S)) with (C * (A * P)) by lia.
      pose proof (Z.mul_le_mono_nonneg_l _ _ C ltac:(unfold C; lia) H1). lia.
    - right. rewrite Z.abs_mul, (Z.abs_eq C) by (unfold C; lia).
      assert (HS1 : S = 2 ^ 46 * 2 ^ 1074 * P1) by lia.
      assert (Hbx : 0 <= b * P1) by (apply Z.mul_nonneg_nonneg; lia).
      pose proof (Z.abs_nonneg x3) as Hx3.
      split.
      + replace (b * S) with (2 ^ 46 * 2 ^ 1074 * (b * P1)) by (rewrite HS1; lia).
        unfold C. lia.
      + replace (b * P) with (2 ^ 1074 * (b * P1)) by (rewrite HPP; lia). lia. }
  assert (HYqb : Yq * b = x3 + A * P) by (unfold x3; lia).
  assert (HAP : 0 < A * P) by (apply Z.mul_pos_pos; lia).
  assert (HAS : 0 < A * S) by (apply Z.mul_pos_pos; lia).
  assert (HbS : 0 < b * S) by (apply Z.mul_pos_pos; lia).
  assert (Hy2 : 2 ^ 53 * Z.abs (b * x2) <= Z.abs (C * x3) + 100 * (A * S)
                ∨ 2 ^ 1000 * Z.abs (b * x2) <= b * S).
  { rewrite Z.abs_mul, (Z.abs_eq b) by lia.
    destruct H2 as [H2|(P2 & R & HP2 & HPP & HR & H2)].
    - left. rewrite Hx2, Z.abs_mul, (Z.abs_eq E) by lia.
      pose proof (Z.mul_le_mono_nonneg_r _ _ E ltac:(lia) H2) as Hq.
      pose proof (Z.mul_le_mono_nonneg_l _ _ b ltac:(lia) Hq) as Hb'.
      replace (b * (2 ^ 53 * Z.abs (Yp * 1 - mq * C) * E))
        with (2 ^ 53 * (b * (Z.abs (Yp * 1 - mq * C) * E))) in Hb' by lia.
      replace (b * (mq * C * E)) with (C * (Yq * b)) in Hb' by (rewrite HYq; lia).
      rewrite HYqb in Hb'.
      replace (C * (x3 + A * P)) with (C * x3 + 100 * (A * S)) in Hb' by nia.
      lia.
    - right. rewrite Hx2, Z.abs_mul, (Z.abs_eq E) by lia.
      pose proof (Z.mul_le_mono_nonneg_r _ _ E ltac:(lia) H2) as Hq.
      replace (1 * R * E) with P2 in Hq by lia.
      pose proof (Z.mul_le_mono_nonneg_l _ _ b ltac:(lia) Hq) as Hb'.
      assert (HS2 : S = 2 ^ 46 * 2 ^ 1028 * P2) by lia.
      replace (b * S) with (2 ^ 46 * 2 ^ 1028 * (b * P2)) by (rewrite HS2; lia).
      assert (0 <= b * (Z.abs (Yp * 1 - mq * C) * E)).
      { apply Z.mul_nonneg_nonneg; [lia|]. apply Z.mul_nonneg_nonneg; lia. }
      lia. }
  assert (Hfinal : 2 ^ 53 * Z.abs ((b * n' - 100 * A) * S) <= ((2 ^ 52 + 1) * b + 300 * A) * S).
  { rewrite Hsplit.
    replace (((2 ^ 52 + 1) * b + 300 * A) * S) with ((2 ^ 52 + 1) * (b * S) + 300 * (A * S)) by lia.
    destruct Hy3 as [[Hy3 _]|[Hy3 _]]; destruct Hy2 as [Hy2|Hy2]; lia. }
  rewrite Z.abs_mul, (Z.abs_eq S) in Hfinal by lia.
  apply (Z.mul_le_mono_pos_r _ _ S HSpos). lia.
Qed.

Lemma percent_close (a b x : Z) :
  0 < b -> percent a b = Ok x -> close_to_percent a b x.
Proof.
  intros Hb H. unfold close_to_percent.
  destruct (Z.eq_dec a 0) as [->|Ha].
  { rewrite percent_zero in H by lia. inversion H; subst x.
    rewrite Z.mul_0_r. cbn [Z.sub Z.opp Z.abs Z.add Z.mul]. lia. }
  unfold percent in H. apply bind_Ok in H as (f & Hf & Hx).
  destruct (truediv_close a b f Ha Hb Hf) as (s & Yq & Hs & HYq & Hfin & Hsc & Hcl).
  set (A := Z.abs a) in *.
  assert (HA : 0 < A) by (unfold A; lia).
  set (P := 2 ^ s) in *.
  assert (HP : 0 < P) by (apply Z.pow_pos_nonneg; lia).
  assert (Hsign : ∀ n', 0 <= n' -> x = cond_Zopp (a <? 0) n' ->
            2 ^ 53 * Z.abs (b * n' - 100 * A) <= (2 ^ 52 + 1) * b + 300 * A ->
            2 ^ 53 * Z.abs (b * x - 100 * a) <= (2 ^ 52 + 1) * b + 300 * A).
  { intros n' Hn' -> Hle. unfold A in *.
    destruct (Z.ltb_spec a 0); cbn [cond_Zopp].
    - replace (b * - n' - 100 * a) with (- (b * n' - 100 * Z.abs a)) by lia.
      rewrite Z.abs_opp. exact Hle.
    - replace (b * n' - 100 * a) with (b * n' - 100 * Z.abs a) by lia. exact Hle. }
  assert (Hzero : 2 ^ 1075 * A <= b ->
            2 ^ 53 * Z.abs (b * 0 - 100 * A) <= (2 ^ 52 + 1) * b + 300 * A).
  { intros Hsmall. rewrite Z.mul_0_r. lia. }
  destruct f as [sz|sz| |sq mq eq]; cbn [scaled not_infinite] in Hsc, Hfin;
    try contradiction.
  - (* the quotient underflows to zero *)
    destruct Hsc as [_ ->].
    assert (Hx0 : x = 0).
    { unfold mul_int in Hx.
      change (float_of_small 100) with (S754_finite false 7036874417766400 (-46)) in Hx.
      cbn in Hx. inversion Hx. reflexivity. }
    apply (Hsign 0); [lia | rewrite Hx0; destruct (a <? 0); reflexivity|].
    apply Hzero.
    destruct Hcl as [Hcl|[Hs1 Hcl]].
    + rewrite Z.mul_0_l in Hcl.
      assert (0 < A * P) by (apply Z.mul_pos_pos; lia). lia.
    + rewrite Z.mul_0_l in Hcl.
      replace (-1074 - - s) with (s - 1074) in Hcl by lia.
      assert (HPP : P = 2 ^ 1074 * 2 ^ (s - 1074)).
      { unfold P. rewrite <- Z.pow_add_r by lia. f_equal. lia. }
      assert (HP1 : 0 < 2 ^ (s - 1074)) by (apply Z.pow_pos_nonneg; lia).
      set (P1 := 2 ^ (s - 1074)) in *.
      rewrite HPP in Hcl.
      replace (0 - A * (2 ^ 1074 * P1)) with (- (2 ^ 1074 * A * P1)) in Hcl by lia.
      rewrite Z.abs_opp, Z.abs_eq in Hcl
        by (apply Z.mul_nonneg_nonneg; [|lia]; apply Z.mul_nonneg_nonneg; lia).
      apply (Z.mul_le_mono_pos_r _ _ P1 HP1). lia.
  - (* a finite quotient *)
    destruct Hsc as (-> & Heq & Heq' & HYqe).
    replace (eq - - s) with (eq + s) in HYqe by lia.
    set (E := 2 ^ (eq + s)) in *.
    assert (HE : 0 < E) by (apply Z.pow_pos_nonneg; lia).
    destruct (mul_int_close (a <? 0) mq eq) as (Yp & HYp & Hscp & Hclp).
    destruct (mul_int (S754_finite (a <? 0) mq eq) 100) as [sz|sz| |sp mp ep];
      cbn [scaled] in Hscp; cbn [round] in Hx; try discriminate; try contradiction.
    + (* the product cannot be zero *)
      exfalso. destruct Hscp as [_ ->].
      destruct Hclp as [Hclp|[He1 Hclp]].
      * rewrite Z.mul_0_l in Hclp. lia.
      * rewrite Z.mul_0_l in Hclp.
        assert (2 ^ (-1074 - (eq - 46)) <= 2 ^ 46) by (apply Z.pow_le_mono_r; lia).
        lia.
    + destruct Hscp as (-> & Hep & Hep' & HYpe).
      injection Hx as Hxe.
      destruct (round_pos_close mp ep (s + 46) ltac:(lia) ltac:(lia)) as [Hn0 Hn].
      apply (Hsign (round_pos mp ep) Hn0 (eq_sym Hxe)).
      apply (percent_errors A b P E (Zpos mq) Yq Yp (round_pos mp ep)
               (Zpos mp * 2 ^ (ep + (s + 46))) (2 ^ (s + 46))); try lia.
      * unfold P. rewrite Z.pow_add_r by lia. lia.
      * rewrite HYpe. unfold E. rewrite <- Z.mul_assoc, <- Z.pow_add_r by lia.
        f_equal. f_equal. lia.
      * destruct Hcl as [Hcl|[Hs1 Hcl]]; [left; exact Hcl|].
        right. exists (2 ^ (s - 1074)).
        split; [apply Z.pow_pos_nonneg; lia|]. split.
        -- unfold P. rewrite <- Z.pow_add_r by lia. f_equal. lia.
        -- replace (s - 1074) with (-1074 - - s) by lia. exact Hcl.
      * destruct Hclp as [Hclp|[He1 Hclp]]; [left; exact Hclp|].
        right. exists (2 ^ (s - 1028)), (2 ^ (-1074 - (eq - 46))).
        split; [apply Z.pow_pos_nonneg; lia|]. split; [|split].
        -- unfold P. rewrite <- Z.pow_add_r by lia. f_equal. lia.
        -- unfold E. rewrite <- Z.pow_add_r by lia. f_equal. lia.
        -- exact Hclp.
Qed.

(** Below [2 ^ 53] the error of the two operations is less than the least
    gap: [x] is a nearest integer to [100 * a / b]. *)
Lemma close_to_percent_nearest (a b x : Z) :
  0 < b -> 600 * Z.abs a + 2 * b < 2 ^ 53 ->
  close_to_percent a b x -> nearest_percent a b x.
Proof. unfold close_to_percent, nearest_percent. intros Hb Hsmall H. lia. Qed.

Lemma percent_rounded (a b x : Z) :
  0 < b -> percent a b = Ok x -> rounded_percent a b x.
Proof.
  intros Hb H. pose proof (percent_close a b x Hb H) as Hc.
  split; [|split].
  - unfold percent in H. apply bind_Ok in H as (q & Hq & Hx). eauto.
  - exact Hc.
  - intros Hsmall. apply close_to_percent_nearest; assumption.
Qed.

(** C3: after the loop, on a non-empty question set, the maximum possible
    score is 15 times the number of questions; [totalScore] is
    [round(total_raw_score / (15 * questions) * 100)] clamped to 0..100; each
    of TA, SL, ER, BP is [round(raw / base * 100)] clamped to 0..100 when the
    trait base is positive and 0 otherwise; BS is its raw total clamped to
    0..100, never divided.  [round(a / b * 100)] is Python's, on binary64
    with ties to even, and is within one half and the error of the two float
    operations of [100 * a / b]: a nearest integer whenever
    [600 |a| + 2 b < 2 ^ 53]. *)
Theorem C3_normalization
  (g : Globals) (job_key : string) (answers : list Answer) (r : Report) :
  psychology_predictor g job_key answers = Ok (Some r) ->
  ∃ qs st,
    job_questions_of g job_key = Some qs ∧ qs ≠ []
    ∧ score_answers qs loop_init answers = Ok st
    ∧ MAX_POSSIBLE_SCORE qs = Z.of_nat (length qs) * 15
    ∧ (∃ x, rounded_percent (total_raw_score st) (Z.of_nat (length qs) * 15) x
            ∧ totalScore r = clamp x 0 100)
    ∧ (∀ k, k ∈ ["TA"; "SL"; "ER"; "BP"] ->
         ∃ raw, skill_scores st !! k = Some raw
           ∧ (0 < max_possible_trait_score_base st ->
              ∃ x, rounded_percent raw (max_possible_trait_score_base st) x
                   ∧ skillScores r !! k = Some (clamp x 0 100))
           ∧ (max_possible_trait_score_base st <= 0 -> skillScores r !! k = Some 0))
    ∧ (∃ raw, skill_scores st !! "BS" = Some raw
              ∧ skillScores r !! "BS" = Some (clamp raw 0 100)).
Proof.
  intros H.
  apply psychology_predictor_Some in H as (qs & st & Hq & Hne & Hst & Hn & Hsk & _ & _).
  exists qs, st. do 4 (split; [assumption || reflexivity|]).
  destruct (normalize_keys_Ok _ _ _ _ skill_keys_NoDup Hsk) as [Hin _].
  assert (Hmax : 0 < Z.of_nat (length qs) * 15) by (destruct qs; [contradiction | cbn; lia]).
  split; [|split].
  - unfold normalized_score in Hn. apply bind_Ok in Hn as (x & Hx & Hn).
    inversion Hn. exists x. split; [|reflexivity].
    apply percent_rounded; [exact Hmax | exact Hx].
  - intros k Hk. apply ratio_keys in Hk as [Hk Hbs].
    destruct (Hin k Hk) as (raw & v' & Hraw & Hv' & Hr).
    exists raw. split; [exact Hraw|].
    unfold normalized_skill in Hv'.
    rewrite bool_decide_eq_true_2 in Hv' by assumption.
    rewrite Z.gtb_ltb in Hv'.
    destruct (Z.ltb_spec 0 (max_possible_trait_score_base st)) as [Hpos|Hle].
    + apply bind_Ok in Hv' as (x & Hx & Hv'). inversion Hv'; subst v'.
      split; [|lia]. intros _. exists x. split; [|exact Hr].
      apply percent_rounded; assumption.
    + cbn [bind] in Hv'. inversion Hv'; subst v'. split; [lia | intros _; exact Hr].
  - destruct (Hin "BS" ltac:(known_key)) as (raw & v' & Hraw & Hv' & Hr).
    unfold normalized_skill in Hv'.
    rewrite bool_decide_eq_false_2 in Hv' by (intros Hne'; apply Hne'; reflexivity).
    inversion Hv'; subst v'. eauto.
Qed.

(** ** No exception on typed input *)

Lemma weight_nonneg (items : list (string * Z)) : 0 <= weight items.
Proof. induction items as [|[k v] l IH]; simpl; lia. Qed.

Lemma weight_app (l1 l2 : list (string * Z)) : weight (l1 ++ l2) = weight l1 + weight l2.
Proof. induction l1 as [|[k v] l1 IH]; simpl; [reflexivity | rewrite IH; lia]. Qed.

Lemma points_le_weight (items : list (string * Z)) : Z.abs (points items) <= weight items.
Proof. induction items as [|[k v] l IH]; simpl; lia. Qed.

Lemma points_for_le_weight (k : string) (items : list (string * Z)) :
  Z.abs (points_for k items) <= weight items.
Proof.
  induction items as [|[k' v] l IH]; simpl; [lia|].
  destruct (decide (k' = k)); lia.
Qed.

Lemma time_rule_bounds (t : Z) :
  Z.abs (time_rule t).1.1.1 <= 20 ∧ weight (time_rule t).1.1.2 <= 20.
Proof. unfold time_rule. repeat case_match; cbn; lia. Qed.

Lemma int_finite_number (v : pyval) :
  finite_number v = true -> (∃ z, int int_of_str v = Ok z) ∨ parse_failure v.
Proof.
  unfold parse_failure. destruct v as [|b|z|f|s| |]; cbn; intros H; eauto.
  - destruct f; cbn; eauto. discriminate.
  - destruct (int_of_str s); eauto.
Qed.

Lemma parse_fields_total (a : Answer) (v w : pyval) :
  selectedOptionIndex a = Some v -> timeTakenMs a = Some w ->
  finite_number v = true -> finite_number w = true ->
  ∃ p, parse_fields a = Ok p.
Proof.
  intros Hv Hw Fv Fw.
  destruct (int_finite_number v Fv) as [[i Hi]|Hf].
  - destruct (int_finite_number w Fw) as [[t Ht]|Hf].
    + rewrite (parse_fields_both a v w i t); eauto.
    + rewrite (parse_fields_time_failure a v w i); eauto.
  - rewrite (parse_fields_index_failure a v); eauto.
Qed.

Lemma find_question_In (qs : list Question) (a : Answer) (q : Question) :
  find_question qs a = Ok (Some q) -> In q qs.
Proof.
  unfold find_question. destruct qs as [|q0 qs]; [discriminate|].
  destruct (questionId a) as [i|]; cbn [getitem bind]; [|discriminate].
  intros H.
  apply (find_some (λ q', bool_decide (q_id q' = i)) (q0 :: qs)). congruence.
Qed.

Lemma typed_chosen_option (W : Z) (qs : list Question) (a : Answer) (q : Question)
  (i : Z) (o : AnswerOption) :
  typed_questions W qs = true -> find_question qs a = Ok (Some q) ->
  chosen_option q i = Some o ->
  known_keys (o_score o) = true ∧ weight (o_score o) <= W.
Proof.
  intros Ht Hq Ho. apply find_question_In in Hq.
  unfold typed_questions in Ht. rewrite forallb_forall in Ht.
  specialize (Ht q Hq). rewrite forallb_forall in Ht.
  apply chosen_option_in_bounds in Ho as [_ Ho].
  apply list_elem_of_lookup_2, list_elem_of_In in Ho.
  specialize (Ht o Ho). unfold typed_option in Ht.
  apply andb_prop in Ht as [Hk Hw]. apply Z.leb_le in Hw. auto.
Qed.

Lemma effect_of_total (W : Z) (qs : list Question) (a : Answer) :
  typed_questions W qs = true -> complete_answer a = true ->
  ∃ e, effect_of qs a = Ok e.
Proof.
  intros Ht Ha. unfold complete_answer in Ha.
  destruct (questionId a) as [id|] eqn:Hid; [|discriminate].
  destruct (selectedOptionIndex a) as [v|] eqn:Hv; [|discriminate].
  destruct (timeTakenMs a) as [w|] eqn:Hw; [|discriminate].
  apply andb_prop in Ha as [Fv Fw].
  unfold effect_of.
  destruct (find_question qs a) as [[q|]|e] eqn:Hq; cbn [bind].
  - destruct (parse_fields_total a v w Hv Hw Fv Fw) as [[[i t]|] ->]; cbn [bind]; eauto.
    destruct (chosen_option q i) as [o|] eqn:Ho; eauto.
    destruct (typed_chosen_option W qs a q i o Ht Hq Ho) as [-> _].
    destruct (time_rule t) as [[[time_score side] counts] label].
    rewrite Hid. cbn [getitem bind]. eauto.
  - eauto.
  - unfold find_question in Hq. destruct qs; [discriminate|].
    rewrite Hid in Hq. discriminate.
Qed.

Lemma effect_of_bounds (W : Z) (qs : list Question) (a : Answer) (e : Effect) :
  0 <= W -> typed_questions W qs = true -> effect_of qs a = Ok e ->
  Z.abs (e_raw e) <= W + 20 ∧ weight (e_items e) <= W + 20.
Proof.
  intros HW Ht He. apply effect_of_Ok_cases in He as [->|[->|He]].
  - cbn. lia.
  - cbn. lia.
  - destruct He as (q & o & id & i & t & Hq & _ & Ho & _ & _ & ->).
    destruct (typed_chosen_option W qs a q i o Ht Hq Ho) as [_ Hw].
    pose proof (time_rule_bounds t) as [H1 H2].
    pose proof (points_le_weight (o_score o)).
    cbn [e_raw e_items]. rewrite weight_app. lia.
Qed.

Lemma apply_effect_within (B D : Z) (e : Effect) (st : LoopState) :
  Z.abs (e_raw e) <= D -> weight (e_items e) <= D ->
  Z.abs (total_raw_score st) <= B -> skills_within B (skill_scores st) ->
  Z.abs (total_raw_score (apply_effect e st)) <= B + D
  ∧ skills_within (B + D) (skill_scores (apply_effect e st)).
Proof.
  intros Hr Hw HB Hs. unfold apply_effect. cbn. split; [lia|].
  intros k v. rewrite lookup_bumped.
  destruct (skill_scores st !! k) as [v0|] eqn:Hv0; cbn; [|discriminate].
  intros H. inversion H; subst v.
  pose proof (Hs k v0 Hv0). pose proof (points_for_le_weight k (e_items e)). lia.
Qed.

Lemma score_answers_total (W : Z) (qs : list Question) (l : list Answer) :
  0 <= W -> typed_questions W qs = true -> forallb complete_answer l = true ->
  ∀ (B : Z) (st : LoopState),
    keys_present (skill_scores st) ->
    Z.abs (total_raw_score st) <= B -> skills_within B (skill_scores st) ->
    ∃ st', score_answers qs st l = Ok st'
      ∧ Z.abs (total_raw_score st') <= B + (W + 20) * Z.of_nat (length l)
      ∧ skills_within (B + (W + 20) * Z.of_nat (length l)) (skill_scores st').
Proof.
  intros HW Ht. induction l as [|a l IH]; intros Hl B st Hm HB Hs.
  - exists st. cbn. rewrite Z.mul_0_r, Z.add_0_r. auto.
  - cbn [forallb] in Hl. apply andb_prop in Hl as [Ha Hl].
    destruct (effect_of_total W qs a Ht Ha) as [e He].
    destruct (effect_of_bounds W qs a e HW Ht He) as [He1 He2].
    destruct (apply_effect_within B (W + 20) e st He1 He2 HB Hs) as [HB' Hs'].
    destruct (IH Hl (B + (W + 20)) (apply_effect e st) (apply_effect_keys e st Hm) HB' Hs')
      as (st' & Hst' & Hraw & Hskills).
    exists st'. cbn [score_answers].
    rewrite (score_answer_of_effect qs st a e Hm He). cbn [bind].
    replace (B + (W + 20) * Z.of_nat (length (a :: l)))
      with (B + (W + 20) + (W + 20) * Z.of_nat (length l)) by (cbn [length]; lia).
    auto.
Qed.

Lemma normalized_skill_total (base : Z) (k : string) (v : Z) :
  Z.abs v < 2 ^ 1000 -> ∃ v', normalized_skill base k v = Ok v'.
Proof.
  intros Hv. unfold normalized_skill. destruct (bool_decide (k ≠ "BS")); [|eauto].
  rewrite Z.gtb_ltb. destruct (Z.ltb_spec 0 base) as [Hpos|_].
  - destruct (percent_total v base Hv Hpos) as [x ->]. cbn [bind]. eauto.
  - cbn [bind]. eauto.
Qed.

Lemma normalize_keys_total (base : Z) (keys : list string) (m : gmap string Z) :
  NoDup keys ->
  (∀ k, k ∈ keys -> ∃ v, m !! k = Some v ∧ Z.abs v < 2 ^ 1000) ->
  ∃ m', normalize_keys base keys m = Ok m'.
Proof.
  revert m. induction keys as [|k0 keys IH]; intros m Hnd Hm; cbn [normalize_keys].
  - eauto.
  - apply NoDup_cons in Hnd as [Hk0 Hnd].
    destruct (Hm k0 ltac:(left)) as (v & Hv & Hb).
    destruct (normalized_skill_total base k0 v Hb) as [v' Hv'].
    unfold normalize_key. rewrite Hv. cbn [getitem bind]. rewrite Hv'. cbn [bind].
    apply IH; [exact Hnd|]. intros k Hk.
    assert (k0 ≠ k) by (intros ->; contradiction).
    rewrite lookup_insert_ne by assumption. apply Hm. right. exact Hk.
Qed.

(** C4: when the options of the question set score the five
    trait keys only, with values of total magnitude at most [W] per option,
    when every answer carries [questionId], [selectedOptionIndex] and
    [timeTakenMs] and none of the two numbers is an infinite float, and when
    [(W + 20) * len(answers) < 2 ^ 1000], the function returns a report or
    [None] and raises nothing: answers with an unknown id, a field that fails
    [int] with ValueError or TypeError or an index out of bounds are left out
    of the sums. *)
Theorem C4_no_exception_on_typed_input
  (g : Globals) (job_key : string) (answers : list Answer) (W : Z) :
  0 <= W ->
  (∀ qs, job_questions_of g job_key = Some qs -> typed_questions W qs = true) ->
  forallb complete_answer answers = true ->
  (W + 20) * Z.of_nat (length answers) < 2 ^ 1000 ->
  ∃ r, psychology_predictor g job_key answers = Ok r.
Proof.
  intros HW Hqs Ha Hsize. unfold psychology_predictor.
  destruct (job_questions_of g job_key) as [[|q qs]|]; eauto.
  specialize (Hqs _ eq_refl).
  destruct (score_answers_total W (q :: qs) answers HW Hqs Ha 0 loop_init keys_present_init)
    as (st & Hst & Hraw & Hskills).
  { cbn. lia. }
  { intros k v Hv. unfold loop_init in Hv. cbn [skill_scores] in Hv.
    assert (Hz : ∀ k v, skill_scores_init !! k = Some v -> v = 0).
    { intros k' v' H. unfold skill_scores_init, skill_keys in H. cbn in H.
      repeat (rewrite lookup_insert in H; case_decide; [congruence|]).
      rewrite lookup_empty in H. discriminate. }
    rewrite (Hz k v Hv). lia. }
  pose proof (score_answers_keys _ _ loop_init _ keys_present_init Hst) as Hkeys.
  unfold score_report. rewrite Hst. cbn [bind].
  unfold normalized_score.
  destruct (percent_total (total_raw_score st) (MAX_POSSIBLE_SCORE (q :: qs))) as [x ->].
  { lia. }
  { unfold MAX_POSSIBLE_SCORE. cbn [length]. lia. }
  cbn [bind].
  destruct (normalize_keys_total (max_possible_trait_score_base st) skill_keys
              (skill_scores st) skill_keys_NoDup) as [m' ->].
  { intros k Hk. apply (keys_present_lookup _ _ Hkeys) in Hk as [v Hv].
    exists v. split; [exact Hv|]. specialize (Hskills k v Hv). lia. }
  cbn [bind fmap]. eauto.
Qed.

(** ** Further properties of the loop *)

Lemma existsb_find {A : Type} (f : A -> bool) (l : list A) :
  existsb f l = true ↔ is_Some (List.find f l).
Proof.
  induction l as [|x l IH]; simpl.
  - split; [discriminate | intros [? ?]; discriminate].
  - destruct (f x); simpl; [split; eauto | exact IH].
Qed.

Lemma find_question_matched (qs : list Question) (a : Answer) (found : option Question) :
  find_question qs a = Ok found -> (is_Some found ↔ is_matched qs a = true).
Proof.
  unfold find_question, is_matched. destruct qs as [|q0 qs].
  - intros H. inversion H; subst. destruct (questionId a); simpl;
      split; try discriminate; intros [? ?]; discriminate.
  - destruct (questionId a) as [i|]; cbn [getitem bind]; [|discriminate].
    intros H.
    assert (Hf : found = List.find (λ q, bool_decide (q_id q = i)) (q0 :: qs)) by congruence.
    rewrite Hf. symmetry. apply existsb_find.
Qed.

Lemma effect_of_base (qs : list Question) (a : Answer) (e : Effect) :
  effect_of qs a = Ok e ->
  e_base e = (if is_matched qs a then 10 else 0)
  ∧ Z.of_nat (length (e_details e)) <= (if is_matched qs a then 1 else 0).
Proof.
  unfold effect_of. intros H.
  destruct (find_question qs a) as [found|] eqn:Hq; cbn [bind] in H; [|discriminate].
  pose proof (find_question_matched qs a found Hq) as Hm.
  destruct found as [q|].
  - assert (Hmt : is_matched qs a = true) by (apply Hm; eauto). rewrite Hmt.
    destruct (parse_fields a) as [[[i t]|]|]; cbn [bind] in H; try discriminate.
    2: { inversion H; cbn; lia. }
    destruct (chosen_option q i) as [o|].
    2: { inversion H; cbn; lia. }
    destruct (known_keys (o_score o)); [|discriminate].
    destruct (time_rule t) as [[[time_score side] counts] label].
    destruct (questionId a); cbn [getitem bind] in H; [|discriminate].
    inversion H; cbn; lia.
  - destruct (is_matched qs a) eqn:Hmt.
    + destruct Hm as [_ Hm]. destruct (Hm eq_refl) as [? ?]. discriminate.
    + inversion H; cbn; lia.
Qed.

Lemma score_answers_base (qs : list Question) (l : list Answer) (st st' : LoopState) :
  keys_present (skill_scores st) ->
  score_answers qs st l = Ok st' ->
  max_possible_trait_score_base st'
  = max_possible_trait_score_base st + 10 * matched_count qs l
  ∧ Z.of_nat (length (detailed_results st'))
    <= Z.of_nat (length (detailed_results st)) + matched_count qs l.
Proof.
  revert st. induction l as [|a l IH]; intros st Hm H; cbn [score_answers] in H.
  - inversion H; subst. unfold matched_count. cbn. lia.
  - apply bind_Ok in H as (s1 & H1 & H2).
    destruct (score_answer_Ok_inv _ _ _ _ Hm H1) as (e & He & ->).
    destruct (IH _ (apply_effect_keys e st Hm) H2) as [IH1 IH2].
    destruct (effect_of_base qs a e He) as [Hb Hd].
    unfold matched_count in *. cbn [List.filter].
    cbn [apply_effect max_possible_trait_score_base detailed_results] in IH1, IH2.
    rewrite length_app in IH2.
    destruct (is_matched qs a); cbn [length]; lia.
Qed.

Lemma matched_count_le (qs : list Question) (l : list Answer) :
  0 <= matched_count qs l <= Z.of_nat (length l).
Proof.
  unfold matched_count. split; [lia|].
  apply inj_le. induction l as [|a l IH]; simpl; [lia|].
  destruct (is_matched qs a); simpl; lia.
Qed.

Lemma trait_base_counts_matched_answers_aux
  (qs : list Question) (answers : list Answer) (st : LoopState) :
  score_answers qs loop_init answers = Ok st ->
  max_possible_trait_score_base st = 10 * matched_count qs answers
  ∧ Z.of_nat (length (detailed_results st)) <= matched_count qs answers.
Proof.
  intros H.
  destruct (score_answers_base qs answers loop_init st keys_present_init H) as [Hb Hd].
  cbn in Hb, Hd. split; lia.
Qed.

(** X1: when the loop ends, the trait base is 10 times the number of answers
    whose [questionId] is the id of some question, whether or not the answer
    was scored; the detail records are at most as many as those answers. *)
Theorem trait_base_counts_matched_answers
  (qs : list Question) (answers : list Answer) (st : LoopState) :
  score_answers qs loop_init answers = Ok st ->
  max_possible_trait_score_base st = 10 * matched_count qs answers
  ∧ Z.of_nat (length (detailed_results st)) <= matched_count qs answers
  ∧ matched_count qs answers <= Z.of_nat (length answers).
Proof.
  intros H.
  destruct (trait_base_counts_matched_answers_aux qs answers st H) as [Hb Hd].
  pose proof (matched_count_le qs answers). repeat split; lia.
Qed.

Lemma time_total_add (b c : BehavioralSummary) :
  time_total (add_counts b c) = time_total b + time_total c.
Proof. unfold time_total, add_counts. cbn. lia. Qed.

Lemma side_total_add (k : string) (b c : BehavioralSummary) :
  side_total k (add_counts b c) = side_total k b + side_total k c.
Proof. unfold side_total, add_counts. cbn. repeat case_decide; lia. Qed.

Lemma details_points_app (l1 l2 : list Detail) :
  details_points (l1 ++ l2) = details_points l1 + details_points l2.
Proof. induction l1 as [|d l1 IH]; simpl; [reflexivity | rewrite IH; lia]. Qed.

Lemma details_points_for_app (k : string) (l1 l2 : list Detail) :
  details_points_for k (l1 ++ l2) = details_points_for k l1 + details_points_for k l2.
Proof. induction l1 as [|d l1 IH]; simpl; [reflexivity | rewrite IH; lia]. Qed.

Lemma time_rule_ledger (t : Z) :
  (time_rule t).1.1.1 = time_total (time_rule t).1.2
  ∧ ∀ k, points_for k (time_rule t).1.1.2 = side_total k (time_rule t).1.2.
Proof.
  unfold time_rule, time_total, side_total.
  repeat case_match; cbn; (split; [lia | intros k; repeat case_decide; lia]).
Qed.

Lemma effect_of_ledger (qs : list Question) (a : Answer) (e : Effect) :
  effect_of qs a = Ok e ->
  e_raw e = details_points (e_details e) + time_total (e_counts e)
  ∧ ∀ k, points_for k (e_items e)
         = details_points_for k (e_details e) + side_total k (e_counts e).
Proof.
  intros H. apply effect_of_Ok_cases in H as [->|[->|H]].
  - split; [reflexivity | intros k; unfold side_total; cbn; repeat case_decide; lia].
  - split; [reflexivity | intros k; unfold side_total; cbn; repeat case_decide; lia].
  - destruct H as (q & o & id & i & t & _ & _ & _ & _ & _ & ->).
    destruct (time_rule_ledger t) as [H1 H2]. cbn. split.
    + unfold time_total in *. cbn. lia.
    + intros k. rewrite points_for_app, H2. unfold side_total. cbn. lia.
Qed.

Lemma score_answers_ledger (qs : list Question) (l : list Answer) (st st' : LoopState) :
  keys_present (skill_scores st) ->
  score_answers qs st l = Ok st' ->
  total_raw_score st' - details_points (detailed_results st')
    - time_total (behavioral_summary st')
  = total_raw_score st - details_points (detailed_results st)
    - time_total (behavioral_summary st)
  ∧ ∀ k v', skill_scores st' !! k = Some v' ->
      ∃ v, skill_scores st !! k = Some v
        ∧ v' - details_points_for k (detailed_results st')
            - side_total k (behavioral_summary st')
          = v - details_points_for k (detailed_results st)
            - side_total k (behavioral_summary st).
Proof.
  revert st. induction l as [|a l IH]; intros st Hm H; cbn [score_answers] in H.
  - inversion H; subst. split; [reflexivity | eauto].
  - apply bind_Ok in H as (s1 & H1 & H2).
    destruct (score_answer_Ok_inv _ _ _ _ Hm H1) as (e & He & ->).
    destruct (IH _ (apply_effect_keys e st Hm) H2) as [IH1 IH2].
    destruct (effect_of_ledger qs a e He) as [Hr Hk].
    cbn [apply_effect total_raw_score detailed_results behavioral_summary skill_scores]
      in IH1, IH2.
    rewrite details_points_app, time_total_add in IH1. split; [lia|].
    intros k v' Hv'. destruct (IH2 k v' Hv') as (v1 & Hv1 & Heq).
    rewrite lookup_bumped in Hv1.
    destruct (skill_scores st !! k) as [v|]; [|discriminate].
    cbn in Hv1. inversion Hv1; subst v1. exists v. split; [reflexivity|].
    rewrite details_points_for_app, side_total_add in Heq. rewrite Hk in Heq. lia.
Qed.

Lemma skill_scores_init_zero (k : string) (v : Z) :
  skill_scores_init !! k = Some v -> v = 0.
Proof.
  unfold skill_scores_init, skill_keys. cbn. intros H.
  repeat (rewrite lookup_insert in H; case_decide; [congruence|]).
  rewrite lookup_empty in H. discriminate.
Qed.

Lemma score_answers_ledger_init (qs : list Question) (l : list Answer) (st : LoopState) :
  score_answers qs loop_init l = Ok st ->
  total_raw_score st
  = details_points (detailed_results st) + time_total (behavioral_summary st)
  ∧ ∀ k v, skill_scores st !! k = Some v ->
      v = details_points_for k (detailed_results st)
          + side_total k (behavioral_summary st).
Proof.
  intros H.
  destruct (score_answers_ledger qs l loop_init st keys_present_init H) as [Hraw Hk].
  split.
  - unfold time_total in *. cbn in Hraw. lia.
  - intros k v Hv. destruct (Hk k v Hv) as (v0 & Hv0 & Heq).
    apply skill_scores_init_zero in Hv0. subst v0.
    assert (H0 : side_total k (behavioral_summary loop_init) = 0).
    { unfold side_total. cbn. repeat case_decide; lia. }
    rewrite H0 in Heq. cbn in Heq. lia.
Qed.

(** X2: [totalScore] can be read off the report itself and the number of
    questions: it is [round(raw / (15 * questions) * 100)] clamped to 0..100,
    where the raw score is the option points shown in the detail records,
    plus 5 per optimal answer, minus 20 per fast and per slow answer
    ([time_total]); so it is within one half, and the error of the two float
    operations, of [100 * raw / (15 * questions)]. *)
Theorem total_score_from_report
  (g : Globals) (job_key : string) (answers : list Answer) (r : Report) :
  psychology_predictor g job_key answers = Ok (Some r) ->
  ∃ qs x,
    job_questions_of g job_key = Some qs
    ∧ rounded_percent
        (details_points (detailedResults r) + time_total (behavioralSummary r))
        (15 * Z.of_nat (length qs)) x
    ∧ totalScore r = clamp x 0 100.
Proof.
  intros H.
  apply psychology_predictor_Some in H as (qs & st & Hq & Hne & Hst & Hn & _ & Hb & Hd).
  destruct (score_answers_ledger_init qs answers st Hst) as [Hraw _].
  unfold normalized_score in Hn. apply bind_Ok in Hn as (x & Hx & Hn).
  exists qs, x. split; [exact Hq|]. rewrite Hb, Hd. split.
  - rewrite <- Hraw.
    unfold MAX_POSSIBLE_SCORE in Hx. rewrite Z.mul_comm in Hx.
    apply percent_rounded; [|exact Hx].
    destruct qs; [contradiction | cbn [length]; lia].
  - inversion Hn. reflexivity.
Qed.

(** X3: the Behavioral Speed score is the BS points of the chosen options,
    plus 5 per fast answer and per optimal answer, minus 10 per slow answer,
    clamped to 0..100. *)
Theorem behavioral_speed_from_report
  (g : Globals) (job_key : string) (answers : list Answer) (r : Report) :
  psychology_predictor g job_key answers = Ok (Some r) ->
  let b := behavioralSummary r in
  skillScores r !! "BS"
  = Some (clamp (details_points_for "BS" (detailedResults r)
                 + 5 * fastResponses b + 5 * optimalResponses b - 10 * slowResponses b)
            0 100).
Proof.
  intros H b. subst b.
  apply psychology_predictor_Some in H as (qs & st & _ & _ & Hst & _ & Hsk & Hb & Hd).
  destruct (score_answers_ledger_init qs answers st Hst) as [_ Hk].
  destruct (normalize_keys_Ok _ _ _ _ skill_keys_NoDup Hsk) as [Hin _].
  destruct (Hin "BS" ltac:(known_key)) as (raw & v' & Hraw & Hv' & Hr).
  pose proof (Hk "BS" raw Hraw) as Heq.
  unfold normalized_skill in Hv'.
  rewrite bool_decide_eq_false_2 in Hv' by (intros Hne; apply Hne; reflexivity).
  inversion Hv'; subst v'.
  assert (Hraw' : raw = details_points_for "BS" (detailed_results st)
                        + 5 * fastResponses (behavioral_summary st)
                        + 5 * optimalResponses (behavioral_summary st)
                        - 10 * slowResponses (behavioral_summary st)).
  { unfold side_total in Heq. repeat case_decide; try discriminate; try congruence.
    lia. }
  rewrite Hr, Hb, Hd, <- Hraw'. reflexivity.
Qed.

(** X4: TA, SL, ER and BP are [round(raw / base * 100)] clamped to 0..100,
    where the base is 10 times the number of answers with a known question
    id and the raw total is the option points of the key shown in the detail
    records, less 5 per slow answer for TA and 5 per fast answer for ER and
    for SL ([side_total]); with no such answer they are 0. *)
Theorem ratio_traits_from_report
  (g : Globals) (job_key : string) (answers : list Answer) (r : Report) (k : string) :
  psychology_predictor g job_key answers = Ok (Some r) ->
  k ∈ ["TA"; "SL"; "ER"; "BP"] ->
  ∃ qs,
    job_questions_of g job_key = Some qs
    ∧ (0 < matched_count qs answers ->
       ∃ x, rounded_percent
              (details_points_for k (detailedResults r)
               + side_total k (behavioralSummary r))
              (10 * matched_count qs answers) x
            ∧ skillScores r !! k = Some (clamp x 0 100))
    ∧ (matched_count qs answers = 0 -> skillScores r !! k = Some 0).
Proof.
  intros H Hk.
  apply psychology_predictor_Some in H as (qs & st & Hq & _ & Hst & _ & Hsk & Hb & Hd).
  destruct (score_answers_ledger_init qs answers st Hst) as [_ Hl].
  destruct (trait_base_counts_matched_answers_aux qs answers st Hst) as [Hbase _].
  destruct (normalize_keys_Ok _ _ _ _ skill_keys_NoDup Hsk) as [Hin _].
  apply ratio_keys in Hk as [Hk Hbs].
  destruct (Hin k Hk) as (raw & v' & Hraw & Hv' & Hr).
  pose proof (Hl k raw Hraw) as Heq.
  exists qs. split; [exact Hq|].
  unfold normalized_skill in Hv'. rewrite bool_decide_eq_true_2 in Hv' by assumption.
  rewrite Z.gtb_ltb, Hbase in Hv'. rewrite Hb, Hd.
  destruct (Z.ltb_spec 0 (10 * matched_count qs answers)) as [Hpos|Hle].
  - apply bind_Ok in Hv' as (x & Hx & Hv'). inversion Hv'; subst v'.
    split; [|lia]. intros _. exists x. split; [|exact Hr].
    rewrite <- Heq. apply percent_rounded; assumption.
  - cbn [bind] in Hv'. inversion Hv'; subst v'. split; [lia | intros _; exact Hr].
Qed.

(** ** Errors that leave the loop *)

(** X5: a valid choice of an option whose score map has a key outside the
    five traits raises KeyError (line 108), from any state of the loop. *)
Theorem unknown_trait_key_raises
  (qs : list Question) (st : LoopState) (a : Answer) (q : Question) (i t : Z)
  (o : AnswerOption) :
  keys_present (skill_scores st) ->
  find_question qs a = Ok (Some q) ->
  parse_fields a = Ok (Some (i, t)) ->
  chosen_option q i = Some o ->
  known_keys (o_score o) = false ->
  score_answer qs st a = Raise KeyError.
Proof.
  intros Hm Hq Hp Ho Hk. rewrite score_answer_effect by assumption.
  unfold effect_of. rewrite Hq; cbn [bind]. rewrite Hp; cbn [bind].
  rewrite Ho, Hk. reflexivity.
Qed.

(** X6: a missing key of an answer is not skipped, it raises KeyError:
    [questionId] on any non-empty question set; [selectedOptionIndex] once
    the question is found; [timeTakenMs] once the index has converted. *)
Theorem missing_field_raises
  (qs : list Question) (st : LoopState) (a : Answer) :
  (qs ≠ [] -> questionId a = None -> score_answer qs st a = Raise KeyError)
  ∧ (∀ q, find_question qs a = Ok (Some q) -> selectedOptionIndex a = None ->
          score_answer qs st a = Raise KeyError)
  ∧ (∀ q v i, find_question qs a = Ok (Some q) ->
              selectedOptionIndex a = Some v -> int int_of_str v = Ok i ->
              timeTakenMs a = None ->
              score_answer qs st a = Raise KeyError).
Proof.
  split; [|split].
  - intros Hqs Hid. unfold score_answer, find_question.
    destruct qs; [contradiction|]. rewrite Hid. reflexivity.
  - intros q Hq Hv. unfold score_answer. rewrite Hq; cbn [bind].
    unfold parse_fields. rewrite Hv. reflexivity.
  - intros q v i Hq Hv Hi Hw. unfold score_answer. rewrite Hq; cbn [bind].
    unfold parse_fields. rewrite Hv; cbn [getitem bind]. rewrite Hi; cbn [bind].
    rewrite Hw. reflexivity.
Qed.

(** X7: an infinite float in [selectedOptionIndex], or in [timeTakenMs] once
    the index has converted, raises OverflowError, which the [except] clause
    of line 94 lets through. *)
Theorem infinite_number_raises
  (qs : list Question) (st : LoopState) (a : Answer) (q : Question) (s : bool) :
  find_question qs a = Ok (Some q) ->
  (selectedOptionIndex a = Some (PyFloat (S754_infinity s)) ->
   score_answer qs st a = Raise OverflowError)
  ∧ (∀ v i, selectedOptionIndex a = Some v -> int int_of_str v = Ok i ->
            timeTakenMs a = Some (PyFloat (S754_infinity s)) ->
            score_answer qs st a = Raise OverflowError).
Proof.
  intros Hq. split.
  - intros Hv. unfold score_answer. rewrite Hq; cbn [bind].
    unfold parse_fields. rewrite Hv. reflexivity.
  - intros v i Hv Hi Hw. unfold score_answer. rewrite Hq; cbn [bind].
    unfold parse_fields. rewrite Hv; cbn [getitem bind]. rewrite Hi; cbn [bind].
    rewrite Hw. reflexivity.
Qed.

(** X8: there is no partial report: when the answers before [a] are
    processed without exception and [a] raises, the function raises the same
    exception, whatever answers follow. *)
Theorem raising_answer_aborts
  (g : Globals) (job_key : string) (qs : list Question)
  (before after : list Answer) (a : Answer) (st : LoopState) (e : exn) :
  job_questions_of g job_key = Some qs ->
  score_answers qs loop_init before = Ok st ->
  score_answer qs st a = Raise e ->
  psychology_predictor g job_key (before ++ a :: after) = Raise e.
Proof.
  intros Hq Hst Ha. unfold psychology_predictor. rewrite Hq.
  destruct qs as [|q0 qs'].
  - unfold score_answer in Ha. cbn in Ha. discriminate.
  - unfold score_report. rewrite score_answers_app, Hst. cbn [bind score_answers].
    rewrite Ha. reflexivity.
Qed.

Lemma find_app_found {A : Type} (f : A -> bool) (l r r' : list A) :
  (∃ x, x ∈ l ∧ f x = true) -> List.find f (l ++ r) = List.find f (l ++ r').
Proof.
  induction l as [|x0 l IH]; intros (x & Hin & Hx).
  - inversion Hin.
  - cbn [app List.find]. destruct (f x0) eqn:Hf; [reflexivity|].
    apply elem_of_cons in Hin as [Heq|Hin]; [congruence|]. apply IH. eauto.
Qed.

Lemma find_app_skip {A : Type} (f : A -> bool) (l r : list A) (y : A) :
  f y = false -> List.find f (l ++ y :: r) = List.find f (l ++ r).
Proof.
  intros Hy. induction l as [|x0 l IH]; cbn [app List.find].
  - rewrite Hy. reflexivity.
  - destruct (f x0); [reflexivity | exact IH].
Qed.

Lemma find_shadowed (i : qid) (qs1 qs2 : list Question) (q' : Question) :
  (∃ q, q ∈ qs1 ∧ q_id q = q_id q') ->
  List.find (λ q, bool_decide (q_id q = i)) (qs1 ++ q' :: qs2)
  = List.find (λ q, bool_decide (q_id q = i)) (qs1 ++ qs2).
Proof.
  intros (q & Hin & Hid). destruct (decide (q_id q' = i)) as [Heq|Hne].
  - apply find_app_found. exists q. split; [exact Hin|].
    apply bool_decide_eq_true_2. congruence.
  - apply find_app_skip. apply bool_decide_eq_false_2. exact Hne.
Qed.

(** X9: a question whose id already occurs earlier in the set is never
    looked at by the loop, yet it counts 15 in the maximum possible score. *)
Theorem duplicate_question_id_is_shadowed
  (qs1 qs2 : list Question) (q' : Question) (st : LoopState) (answers : list Answer) :
  (∃ q, q ∈ qs1 ∧ q_id q = q_id q') ->
  score_answers (qs1 ++ q' :: qs2) st answers = score_answers (qs1 ++ qs2) st answers
  ∧ MAX_POSSIBLE_SCORE (qs1 ++ q' :: qs2) = MAX_POSSIBLE_SCORE (qs1 ++ qs2) + 15.
Proof.
  intros Hdup. split.
  - assert (Hfind : ∀ a, find_question (qs1 ++ q' :: qs2) a = find_question (qs1 ++ qs2) a).
    { intros a. unfold find_question.
      destruct qs1 as [|q0 qs1]; [destruct Hdup as (q & Hin & _); inversion Hin|].
      cbn [app]. destruct (questionId a) as [i|]; cbn [getitem bind]; [|reflexivity].
      f_equal. apply (find_shadowed i (q0 :: qs1) qs2 q' Hdup). }
    assert (Hstep : ∀ s a, score_answer (qs1 ++ q' :: qs2) s a
                           = score_answer (qs1 ++ qs2) s a).
    { intros s a. unfold score_answer. rewrite Hfind. reflexivity. }
    revert st. induction answers as [|a l IH]; intros st; cbn [score_answers]; [reflexivity|].
    rewrite Hstep. destruct (score_answer (qs1 ++ qs2) st a) as [s1|e]; cbn [bind]; auto.
  - unfold MAX_POSSIBLE_SCORE. rewrite !length_app. cbn [length]. lia.
Qed.

(** ** The routes *)

Lemma psychology_predictor_labels (g : Globals) (job_key : string) (answers : list Answer)
  (r : Report) :
  psychology_predictor g job_key answers = Ok (Some r) ->
  0 <= totalScore r <= 100
  ∧ jobTitle r = job_key
  ∧ candidateName r = default "N/A" (session g !! "candidate_name")
  ∧ testId r = default "N/A" (session g !! "test_id").
Proof.
  intros H. split.
  - apply psychology_predictor_Some in H as (qs & st & _ & _ & _ & Hn & _).
    unfold normalized_score in Hn. apply bind_Ok in Hn as (x & _ & Hn). inversion Hn. lia.
  - unfold psychology_predictor in H.
    destruct (job_questions_of g job_key) as [[|q qs]|]; try discriminate.
    apply fmap_Ok in H as (r' & H & Hr). inversion Hr; subst r'.
    unfold score_report in H.
    apply bind_Ok in H as (st & _ & H). apply bind_Ok in H as (n & _ & H).
    apply bind_Ok in H as (sk & _ & H). inversion H; subst. cbn. auto.
Qed.

(** X10: [assess] answers with the redirect exactly when the session holds a
    candidate name, the job key and the answer list are not empty and the
    scoring returns a report; with any other answer the stored results, the
    generated tests and the session are left as they were.  Without a
    candidate name the answer is 401; an empty answer list gives 400 and
    never reaches the scoring. *)
Theorem assess_stores_only_on_success
  (srv : Server) (sess : gmap string string) (job_key : option string)
  (answers : option (list Answer)) (fresh now : string) :
  let out := assess srv sess job_key answers fresh now in
  (out.2 = JsonRedirect
   ↔ is_Some (sess !! "candidate_name")
     ∧ ∃ key first rest r,
         job_key = Some key ∧ key ≠ "" ∧ answers = Some (first :: rest)
         ∧ psychology_predictor (globals_in srv sess) key (first :: rest) = Ok (Some r))
  ∧ (out.2 ≠ JsonRedirect -> out.1.1 = srv ∧ out.1.2 = sess)
  ∧ (sess !! "candidate_name" = None
     -> out.2 = JsonError 401 "Session expired, please log in again.")
  ∧ (is_Some (sess !! "candidate_name") -> answers = Some [] ∨ answers = None
     -> out.2 = JsonError 400 "Missing job key or answers").
Proof.
  cbv zeta. split; [split|split; [|split]].
  - unfold assess. intros H.
    destruct (sess !! "candidate_name") as [name|]; [|discriminate H].
    destruct job_key as [key|]; [|discriminate H].
    destruct answers as [[|first rest]|]; try discriminate H.
    destruct (bool_decide (key = "")) eqn:Hkey; [discriminate H|].
    apply bool_decide_eq_false_1 in Hkey.
    destruct (psychology_predictor (globals_in srv sess) key (first :: rest))
      as [[r|]|e] eqn:Hp; try discriminate H.
    split; [eauto|]. exists key, first, rest, r. auto.
  - intros ([name Hn] & key & first & rest & r & -> & Hne & -> & Hp).
    unfold assess. rewrite Hn, bool_decide_eq_false_2, Hp by assumption. reflexivity.
  - unfold assess.
    destruct (sess !! "candidate_name") as [name|]; [|auto].
    destruct job_key as [key|]; [|auto].
    destruct answers as [[|first rest]|]; auto.
    destruct (bool_decide (key = "")); [auto|].
    destruct (psychology_predictor (globals_in srv sess) key (first :: rest))
      as [[r|]|e]; cbn; auto. intros H. contradiction.
  - intros Hn. unfold assess. rewrite Hn. reflexivity.
  - intros [name Hn] [->| ->]; unfold assess; rewrite Hn; destruct job_key; reflexivity.
Qed.

Lemma assess_success_inv (srv srv' : Server) (sess sess' : gmap string string)
  (job_key : option string) (answers : option (list Answer)) (fresh now : string) :
  assess srv sess job_key answers fresh now = (srv', sess', JsonRedirect) ->
  ∃ name key first rest r,
    sess !! "candidate_name" = Some name
    ∧ job_key = Some key ∧ answers = Some (first :: rest)
    ∧ psychology_predictor (globals_in srv sess) key (first :: rest) = Ok (Some r)
    ∧ srv' = {| srv_GENERATED_TESTS := srv_GENERATED_TESTS srv;
                srv_TEST_RESULTS :=
                  srv_TEST_RESULTS srv ++
                  [{| r_id := str_prefix 8 fresh;
                      r_username := candidateName r;
                      r_score := totalScore r;
                      r_role := jobTitle r;
                      r_submitted_at := now;
                      r_full_results := r |}];
                srv_ASSESSMENT_DATA := srv_ASSESSMENT_DATA srv |}
    ∧ sess' = delete "assigned_role"
                (delete "test_id"
                   (delete "candidate_name" (<["last_result_id" := fresh]> sess))).
Proof.
  unfold assess. intros H.
  destruct (sess !! "candidate_name") as [name|]; [|discriminate].
  destruct job_key as [key|]; [|discriminate].
  destruct answers as [[|first rest]|]; try discriminate.
  destruct (bool_decide (key = "")); [discriminate|].
  destruct (psychology_predictor (globals_in srv sess) key (first :: rest))
    as [[r|]|e] eqn:Hp; try discriminate.
  inversion H; subst. exists name, key, first, rest, r. auto 10.
Qed.

(** X11: a successful [assess] appends one result, whose score is the
    report's [totalScore] (between 0 and 100), whose role is the job key sent
    and whose user name is the session's candidate name; it removes the
    candidate name, the test id and the assigned role from the session, so
    that a second [assess] with that session answers 401 and stores nothing. *)
Theorem one_submission_per_login
  (srv srv' : Server) (sess sess' : gmap string string)
  (job_key : option string) (answers : option (list Answer)) (fresh now : string) :
  assess srv sess job_key answers fresh now = (srv', sess', JsonRedirect) ->
  (∃ x, srv_TEST_RESULTS srv' = (srv_TEST_RESULTS srv ++ [x])%list
        ∧ sound_entry x
        ∧ r_id x = str_prefix 8 fresh ∧ r_submitted_at x = now
        ∧ Some (r_role x) = job_key
        ∧ Some (r_username x) = sess !! "candidate_name")
  ∧ srv_GENERATED_TESTS srv' = srv_GENERATED_TESTS srv
  ∧ srv_ASSESSMENT_DATA srv' = srv_ASSESSMENT_DATA srv
  ∧ sess' !! "candidate_name" = None ∧ sess' !! "test_id" = None
  ∧ sess' !! "assigned_role" = None ∧ sess' !! "last_result_id" = Some fresh
  ∧ ∀ job_key2 answers2 fresh2 now2,
      assess srv' sess' job_key2 answers2 fresh2 now2
      = (srv', sess', JsonError 401 "Session expired, please log in again.").
Proof.
  intros H.
  apply assess_success_inv in H
    as (name & key & first & rest & r & Hname & -> & -> & Hp & -> & ->).
  destruct (psychology_predictor_labels _ _ _ _ Hp) as (Hrange & Htitle & Hcand & _).
  cbn [globals_in session] in Hcand. rewrite Hname in Hcand. cbn in Hcand.
  assert (Hgone : (delete "assigned_role"
                     (delete "test_id"
                        (delete "candidate_name" (<["last_result_id" := fresh]> sess))))
                  !! "candidate_name" = None).
  { rewrite lookup_delete_ne, lookup_delete_ne, lookup_delete_eq by discriminate.
    reflexivity. }
  split; [|repeat split].
  - eexists. split; [reflexivity|]. unfold sound_entry. cbn.
    rewrite Htitle, Hcand, Hname. auto 10.
  - exact Hgone.
  - rewrite lookup_delete_ne, lookup_delete_eq by discriminate. reflexivity.
  - rewrite lookup_delete_eq. reflexivity.
  - rewrite !lookup_delete_ne, lookup_insert_eq by discriminate. reflexivity.
  - intros job_key2 answers2 fresh2 now2. unfold assess. rewrite Hgone. reflexivity.
Qed.

(** X12: [login] lets a candidate in exactly when the name and the test id
    are not empty and the test id is the key of a generated test or is
    "test123"; the session then holds the name, the test id and the role of
    the generated test (the empty string for "test123"); otherwise the session
    is left as it was. *)
Theorem login_accepts
  (srv : Server) (sess : gmap string string) (name test_id : option string) :
  let out := login srv sess name test_id in
  (out.2 = RedirectIndex
   ↔ ∃ n t, name = Some n ∧ test_id = Some t ∧ n ≠ "" ∧ t ≠ ""
            ∧ (is_Some (srv_GENERATED_TESTS srv !! t) ∨ t = "test123"))
  ∧ (out.2 ≠ RedirectIndex -> out.1 = sess)
  ∧ (out.2 = RedirectIndex ->
     ∃ n t, name = Some n ∧ test_id = Some t
       ∧ out.1 !! "candidate_name" = Some n
       ∧ out.1 !! "test_id" = Some t
       ∧ out.1 !! "assigned_role"
         = Some (from_option gt_role "" (srv_GENERATED_TESTS srv !! t))).
Proof.
  cbv zeta.
  assert (Hentered : ∀ n t role, entered sess n t role !! "candidate_name" = Some n
                                 ∧ entered sess n t role !! "test_id" = Some t
                                 ∧ entered sess n t role !! "assigned_role" = Some role).
  { intros n t role. unfold entered. repeat split.
    - rewrite !lookup_insert_ne, lookup_insert_eq by discriminate. reflexivity.
    - rewrite lookup_insert_ne, lookup_insert_eq by discriminate. reflexivity.
    - rewrite lookup_insert_eq. reflexivity. }
  split; [split|split].
  - unfold login. intros H.
    destruct name as [n|]; [|discriminate H].
    destruct test_id as [t|]; [|discriminate H].
    destruct (bool_decide (n = "")) eqn:Hn; [discriminate H|].
    destruct (bool_decide (t = "")) eqn:Ht; [discriminate H|].
    apply bool_decide_eq_false_1 in Hn. apply bool_decide_eq_false_1 in Ht.
    exists n, t. do 4 (split; [reflexivity || assumption|]).
    destruct (srv_GENERATED_TESTS srv !! t) as [test|]; [eauto|].
    destruct (bool_decide (t ≠ "test123")) eqn:H123; [discriminate H|].
    apply bool_decide_eq_false_1 in H123. right.
    destruct (decide (t = "test123")); [assumption | contradiction].
  - intros (n & t & -> & -> & Hn & Ht & Hok). unfold login.
    rewrite !bool_decide_eq_false_2 by assumption. cbn [orb].
    destruct (srv_GENERATED_TESTS srv !! t) as [test|]; [reflexivity|].
    destruct Hok as [[? Hs]| ->]; [discriminate|]. reflexivity.
  - unfold login.
    destruct name as [n|]; [|auto]. destruct test_id as [t|]; [|auto].
    destruct (bool_decide (n = "") || bool_decide (t = "")); [auto|].
    destruct (srv_GENERATED_TESTS srv !! t) as [test|]; [cbn; contradiction|].
    destruct (bool_decide (t ≠ "test123")); cbn; [auto | contradiction].
  - unfold login. intros H.
    destruct name as [n|]; [|discriminate H].
    destruct test_id as [t|]; [|discriminate H].
    destruct (bool_decide (n = "") || bool_decide (t = "")); [discriminate H|].
    exists n, t. do 2 (split; [reflexivity|]).
    destruct (srv_GENERATED_TESTS srv !! t) as [test|]; [apply Hentered|].
    destruct (bool_decide (t ≠ "test123")); [discriminate H | apply Hentered].
Qed.

(** X13: the questions [start_assessment_page] shows are the ones
    [psychology_predictor] scores under the same session and job key; where
    the page answers "not found", the scoring returns [None]. *)
Theorem shown_questions_are_scored
  (srv : Server) (sess : gmap string string) (job_key : string) :
  (∀ key name qs,
     start_assessment_page srv sess job_key = TestPage key name qs ->
     key = job_key ∧ sess !! "candidate_name" = Some name
     ∧ job_questions_of (globals_in srv sess) job_key = Some qs)
  ∧ (start_assessment_page srv sess job_key = NotFoundText ->
     ∀ answers, psychology_predictor (globals_in srv sess) job_key answers = Ok None).
Proof.
  unfold start_assessment_page, psychology_predictor, job_questions_of.
  cbn [globals_in session GENERATED_TESTS ASSESSMENT_DATA].
  destruct (sess !! "candidate_name") as [cand|]; [|split; intros; discriminate].
  destruct (sess !! "test_id" ≫= (λ t, srv_GENERATED_TESTS srv !! t)) as [test|].
  - split; [|discriminate]. intros key name qs H. inversion H; subst. auto.
  - destruct (JOB_PROFILES (srv_ASSESSMENT_DATA srv) !! job_key) as [p|].
    + split; [|discriminate]. intros key name qs H. inversion H; subst. auto.
    + split; [discriminate | reflexivity].
Qed.

(** No route removes a generated test, and only [hr_create_test] writes
    one: a request that does not store under [key] leaves its entry alone. *)
Lemma handle_keeps_test (srv : Server) (sess : gmap string string) (req : request)
  (key : string) :
  reuses_key key req = false ->
  srv_GENERATED_TESTS (handle srv sess req).1.1 !! key = srv_GENERATED_TESTS srv !! key.
Proof.
  intros Hk. destruct req as [|name test_id| |jk| |jk|jk ans fresh now|rid|post fresh|];
    cbn [handle reuses_key] in *; try reflexivity.
  - destruct (login srv sess name test_id). reflexivity.
  - unfold assess. repeat case_match; reflexivity.
  - apply bool_decide_eq_false in Hk.
    assert (Hh : srv_GENERATED_TESTS (hr_create_test srv post fresh).1 !! key
                 = srv_GENERATED_TESTS srv !! key).
    { unfold hr_create_test. destruct post as [[role|]|]; try reflexivity.
      destruct (bool_decide (role = "")); [reflexivity|].
      destruct (JOB_PROFILES (srv_ASSESSMENT_DATA srv) !! role); [|reflexivity].
      cbn [fst srv_GENERATED_TESTS]. apply lookup_insert_ne. exact Hk. }
    destruct (hr_create_test srv post fresh) as [s r]. exact Hh.
Qed.

Lemma serve_keeps_test (reqs : list (gmap string string * request)) (srv : Server)
  (key : string) :
  Forall (λ sr, reuses_key key sr.2 = false) reqs ->
  srv_GENERATED_TESTS (serve srv reqs) !! key = srv_GENERATED_TESTS srv !! key.
Proof.
  revert srv. induction reqs as [|[sess req] rest IH]; intros srv H; [reflexivity|].
  inversion H as [|? ? H1 H2]; subst. cbn [serve]. rewrite IH by exact H2.
  apply handle_keeps_test. exact H1.
Qed.

(** X14: a test key handed out by [hr_create_test] works for as long as no
    later [hr_create_test] draws the same six characters: after any requests
    [before], [login] accepts the key with a name that is not empty and
    records the role, and after any further requests [after] the page shows,
    and the scoring uses, the questions of the role's profile, whatever job
    key the candidate sends.  The key is not checked to be free (line 343
    assigns over an existing entry): a later test created under the same key
    replaces the questions for the session that is already logged in. *)
Theorem generated_test_is_usable
  (srv srv' : Server) (sess : gmap string string)
  (role_field fresh role test_key name : string) (qs : list Question)
  (before after : list (gmap string string * request)) :
  hr_create_test srv (Some (Some role_field)) fresh = (srv', HrSuccess role test_key qs) ->
  test_key ≠ "" -> name ≠ "" ->
  Forall (λ sr, reuses_key test_key sr.2 = false) (before ++ after) ->
  ∃ profile sess',
    JOB_PROFILES (srv_ASSESSMENT_DATA srv) !! role = Some profile
    ∧ questions profile = qs
    ∧ login (serve srv' before) sess (Some name) (Some test_key) = (sess', RedirectIndex)
    ∧ sess' !! "assigned_role" = Some role
    ∧ (∀ job_key,
         start_assessment_page (serve srv' (before ++ after)) sess' job_key
         = TestPage job_key name qs
         ∧ job_questions_of (globals_in (serve srv' (before ++ after)) sess') job_key
           = Some qs)
    ∧ (∀ role2 fresh2 profile2 job_key,
         role2 ≠ "" -> str_prefix 6 fresh2 = test_key ->
         JOB_PROFILES (srv_ASSESSMENT_DATA (serve srv' (before ++ after))) !! role2
         = Some profile2 ->
         let later :=
           (hr_create_test (serve srv' (before ++ after)) (Some (Some role2)) fresh2).1 in
         start_assessment_page later sess' job_key
         = TestPage job_key name (questions profile2)
         ∧ job_questions_of (globals_in later sess') job_key = Some (questions profile2)).
Proof.
  intros H Hkey Hname Hfree.
  assert (Hfacts : ∃ profile,
             JOB_PROFILES (srv_ASSESSMENT_DATA srv) !! role = Some profile
             ∧ questions profile = qs
             ∧ srv_GENERATED_TESTS srv' !! test_key
               = Some {| gt_role := role; gt_questions := qs |}).
  { unfold hr_create_test in H.
    destruct (bool_decide (role_field = "")); [discriminate|].
    destruct (JOB_PROFILES (srv_ASSESSMENT_DATA srv) !! role_field) as [profile|] eqn:Hp;
      [|discriminate].
    inversion H; subst. exists profile. split; [exact Hp|]. split; [reflexivity|].
    cbn [srv_GENERATED_TESTS]. apply lookup_insert_eq. }
  destruct Hfacts as (profile & Hp & Hqs & Htest). clear H.
  pose proof (serve_keeps_test (before ++ after) srv' test_key Hfree) as Ht2.
  apply Forall_app in Hfree as [Hb _].
  pose proof (serve_keeps_test before srv' test_key Hb) as Ht1.
  rewrite Htest in Ht1, Ht2.
  exists profile, (entered sess name test_key role).
  assert (Hc : entered sess name test_key role !! "candidate_name" = Some name).
  { unfold entered. rewrite !lookup_insert_ne, lookup_insert_eq by discriminate.
    reflexivity. }
  assert (Ht : entered sess name test_key role !! "test_id" = Some test_key).
  { unfold entered. rewrite lookup_insert_ne, lookup_insert_eq by discriminate.
    reflexivity. }
  split; [exact Hp|]. split; [exact Hqs|]. split; [|split; [|split]].
  - unfold login. rewrite !bool_decide_eq_false_2 by assumption. cbn [orb].
    rewrite Ht1. reflexivity.
  - unfold entered. rewrite lookup_insert_eq. reflexivity.
  - intros job_key. unfold start_assessment_page, job_questions_of.
    cbn [globals_in session GENERATED_TESTS ASSESSMENT_DATA].
    rewrite Hc, Ht. cbn [mbind option_bind]. rewrite Ht2. auto.
  - intros role2 fresh2 profile2 job_key Hr2 Hpre Hp2. cbv zeta.
    unfold hr_create_test. rewrite bool_decide_eq_false_2 by exact Hr2. rewrite Hp2.
    cbn [fst]. unfold start_assessment_page, job_questions_of.
    cbn [globals_in session GENERATED_TESTS ASSESSMENT_DATA srv_GENERATED_TESTS].
    rewrite Hc, Ht. cbn [mbind option_bind]. rewrite Hpre, lookup_insert_eq. auto.
Qed.

(** ** Sequences of requests *)

Lemma assess_stores_only_on_success_aux
  (srv : Server) (sess : gmap string string) (job_key : option string)
  (answers : option (list Answer)) (fresh now : string) :
  (assess srv sess job_key answers fresh now).2 ≠ JsonRedirect ->
  (assess srv sess job_key answers fresh now).1.1 = srv
  ∧ (assess srv sess job_key answers fresh now).1.2 = sess.
Proof.
  unfold assess.
  destruct (sess !! "candidate_name") as [name|]; [|auto].
  destruct job_key as [key|]; [|auto].
  destruct answers as [[|first rest]|]; auto.
  destruct (bool_decide (key = "")); [auto|].
  destruct (psychology_predictor (globals_in srv sess) key (first :: rest))
    as [[r|]|e]; cbn; auto. intros H. contradiction.
Qed.

Lemma handle_keeps (srv : Server) (sess : gmap string string) (req : request) :
  let srv' := (handle srv sess req).1.1 in
  srv_ASSESSMENT_DATA srv' = srv_ASSESSMENT_DATA srv
  ∧ (tests_follow_profiles srv -> tests_follow_profiles srv')
  ∧ ∃ new, srv_TEST_RESULTS srv' = (srv_TEST_RESULTS srv ++ new)%list
           ∧ (length new <= 1)%nat ∧ Forall sound_entry new.
Proof.
  cbv zeta.
  assert (Hsame : srv_ASSESSMENT_DATA srv = srv_ASSESSMENT_DATA srv
                  ∧ (tests_follow_profiles srv -> tests_follow_profiles srv)
                  ∧ ∃ new, srv_TEST_RESULTS srv = (srv_TEST_RESULTS srv ++ new)%list
                           ∧ (length new <= 1)%nat ∧ Forall sound_entry new).
  { split; [reflexivity|]. split; [auto|]. exists []. rewrite app_nil_r. auto. }
  destruct req as [|name test_id| |job_key| |job_key|job_key answers fresh now|result_id
                  |post fresh|];
    cbn [handle].
  - exact Hsame.
  - destruct (login srv sess name test_id). exact Hsame.
  - exact Hsame.
  - exact Hsame.
  - exact Hsame.
  - exact Hsame.
  - destruct (assess srv sess job_key answers fresh now) as [[srv' sess'] resp] eqn:Ha.
    cbn [fst].
    assert (Hresp : resp = JsonRedirect ∨ resp ≠ JsonRedirect)
      by (destruct resp; (left; reflexivity) || (right; discriminate)).
    destruct Hresp as [->|Hne].
    + apply assess_success_inv in Ha
        as (name & key & first & rest & r & Hname & -> & -> & Hp & -> & ->).
      destruct (psychology_predictor_labels _ _ _ _ Hp) as (Hrange & Htitle & Hcand & _).
      cbn. split; [reflexivity|]. split; [auto|].
      eexists. split; [reflexivity|]. split; [cbn; lia|].
      apply Forall_singleton. unfold sound_entry. cbn. auto.
    + pose proof (assess_stores_only_on_success_aux srv sess job_key answers fresh now)
        as Hun. rewrite Ha in Hun. cbn in Hun. destruct (Hun Hne) as [-> _]. exact Hsame.
  - exact Hsame.
  - unfold hr_create_test.
    destruct post as [[role|]|]; try exact Hsame.
    destruct (bool_decide (role = "")); [exact Hsame|].
    destruct (JOB_PROFILES (srv_ASSESSMENT_DATA srv) !! role) as [profile|] eqn:Hp;
      [|exact Hsame].
    cbn. split; [reflexivity|]. split.
    + intros Hinv key test Hkey. cbn in Hkey.
      rewrite lookup_insert in Hkey. case_decide.
      * inversion Hkey; subst. cbn. eauto.
      * apply Hinv in Hkey. exact Hkey.
    + exists []. rewrite app_nil_r. auto.
  - exact Hsame.
Qed.

(** X15: from the start of the process on, whatever requests arrive with
    whatever sessions: the assessment data is never changed; every generated
    test holds the questions of its role's job profile; every stored result
    carries the score, role and user name of its own report, with a score
    between 0 and 100; and there are at most as many results as requests. *)
Theorem server_invariants
  (d : AssessmentData) (reqs : list (gmap string string * request)) :
  let srv := serve (server_at_start d) reqs in
  srv_ASSESSMENT_DATA srv = d
  ∧ tests_follow_profiles srv
  ∧ Forall sound_entry (srv_TEST_RESULTS srv)
  ∧ (length (srv_TEST_RESULTS srv) <= length reqs)%nat.
Proof.
  cbv zeta.
  assert (Hgen : ∀ reqs srv,
    tests_follow_profiles srv -> Forall sound_entry (srv_TEST_RESULTS srv) ->
    srv_ASSESSMENT_DATA (serve srv reqs) = srv_ASSESSMENT_DATA srv
    ∧ tests_follow_profiles (serve srv reqs)
    ∧ Forall sound_entry (srv_TEST_RESULTS (serve srv reqs))
    ∧ (length (srv_TEST_RESULTS (serve srv reqs))
       <= length (srv_TEST_RESULTS srv) + length reqs)%nat).
  { clear reqs. induction reqs as [|[sess req] reqs IH]; intros srv Ht Hr.
    - cbn. repeat split; auto. lia.
    - cbn [serve].
      destruct (handle_keeps srv sess req) as (Hd & Ht' & new & Hnew & Hlen & Hsound).
      destruct (IH (handle srv sess req).1.1 (Ht' Ht)) as (IHd & IHt & IHr & IHl).
      { rewrite Hnew. apply Forall_app. auto. }
      rewrite Hnew, length_app in IHl. cbn [length].
      repeat split; [congruence | assumption | assumption | lia]. }
  destruct (Hgen reqs (server_at_start d)) as (H1 & H2 & H3 & H4).
  - intros key test Hkey. cbn in Hkey. rewrite lookup_empty in Hkey. discriminate.
  - constructor.
  - cbn in H1, H4. auto.
Qed.

Lemma serve_appends (srv : Server) (reqs : list (gmap string string * request)) :
  ∃ new, srv_TEST_RESULTS (serve srv reqs) = (srv_TEST_RESULTS srv ++ new)%list.
Proof.
  revert srv. induction reqs as [|[sess req] reqs IH]; intros srv; cbn [serve].
  - exists []. rewrite app_nil_r. reflexivity.
  - destruct (handle_keeps srv sess req) as (_ & _ & new & Hnew & _).
    destruct (IH (handle srv sess req).1.1) as [new' Hnew'].
    exists (new ++ new')%list. rewrite Hnew', Hnew, app_assoc. reflexivity.
Qed.

Lemma find_app_Some {A : Type} (f : A -> bool) (l r : list A) (x : A) :
  List.find f l = Some x -> List.find f (l ++ r) = Some x.
Proof.
  induction l as [|y l IH]; cbn [app List.find]; [discriminate|].
  destruct (f y); auto.
Qed.

(** X16: stored results are only ever appended to, and a report that
    [show_assessment_result] finds under an id is the report it finds under
    that id after any further requests. *)
Theorem shown_report_is_stable
  (srv : Server) (reqs : list (gmap string string * request)) (result_id : string)
  (r : Report) :
  show_assessment_result srv result_id = HrReport r ->
  (∃ new, srv_TEST_RESULTS (serve srv reqs) = (srv_TEST_RESULTS srv ++ new)%list)
  ∧ show_assessment_result (serve srv reqs) result_id = HrReport r.
Proof.
  intros H. destruct (serve_appends srv reqs) as [new Hnew].
  split; [eauto|]. unfold show_assessment_result in *. rewrite Hnew.
  destruct (List.find _ (srv_TEST_RESULTS srv)) as [x|] eqn:Hf; [|discriminate].
  rewrite (find_app_Some _ _ new x Hf). exact H.
Qed.

Lemma find_app_None {A : Type} (f : A -> bool) (l r : list A) :
  (∀ x, x ∈ l -> f x = false) -> List.find f (l ++ r) = List.find f r.
Proof.
  induction l as [|y l IH]; intros H; cbn [app List.find]; [reflexivity|].
  rewrite (H y) by left. apply IH. intros x Hx. apply H. right. exact Hx.
Qed.

(** X17: after a successful [assess] made with the fresh id [fresh],
    [show_assessment_result] never answers "not found" for [fresh]; when no
    older result has the first eight characters of [fresh] as its id or
    [fresh] as its test id, it shows the report just computed. *)
Theorem stored_report_is_shown
  (srv srv' : Server) (sess sess' : gmap string string)
  (job_key : option string) (answers : option (list Answer)) (fresh now : string) :
  assess srv sess job_key answers fresh now = (srv', sess', JsonRedirect) ->
  (∃ r, show_assessment_result srv' fresh = HrReport r)
  ∧ ((∀ x, x ∈ srv_TEST_RESULTS srv ->
           r_id x ≠ str_prefix 8 fresh ∧ testId (r_full_results x) ≠ fresh) ->
     ∃ key l r,
       job_key = Some key ∧ answers = Some l
       ∧ psychology_predictor (globals_in srv sess) key l = Ok (Some r)
       ∧ show_assessment_result srv' fresh = HrReport r).
Proof.
  intros H.
  apply assess_success_inv in H
    as (name & key & first & rest & r & Hname & -> & -> & Hp & -> & ->).
  unfold show_assessment_result. cbn [srv_TEST_RESULTS].
  set (same_id := λ x : ResultEntry,
         bool_decide (r_id x = str_prefix 8 fresh)
         || bool_decide (testId (r_full_results x) = fresh)).
  split.
  - destruct (List.find same_id (srv_TEST_RESULTS srv)) as [x|] eqn:Hf.
    + rewrite (find_app_Some _ _ _ x Hf). eauto.
    + rewrite find_app_None.
      2: { intros x Hx. apply list_elem_of_In in Hx.
           apply (find_none _ _ Hf x Hx). }
      unfold same_id. cbn [List.find r_id].
      rewrite bool_decide_eq_true_2 by reflexivity. cbn. eauto.
  - intros Hold. exists key, (first :: rest), r. do 3 (split; [reflexivity || exact Hp|]).
    rewrite find_app_None.
    2: { intros x Hx. destruct (Hold x Hx) as [H1 H2]. unfold same_id.
         rewrite !bool_decide_eq_false_2 by assumption. reflexivity. }
    unfold same_id. cbn [List.find r_id].
    rewrite bool_decide_eq_true_2 by reflexivity. reflexivity.
Qed.

(** ** The dashboard *)

Lemma insert_by_time_perm (x : ResultEntry) (l : list ResultEntry) :
  insert_by_time x l ≡ₚ x :: l.
Proof.
  induction l as [|y l IH]; cbn [insert_by_time]; [reflexivity|].
  destruct (String.ltb (r_submitted_at x) (r_submitted_at y)); [|reflexivity].
  rewrite IH. apply perm_swap.
Qed.

Lemma ltb_asym (s1 s2 : string) : String.ltb s1 s2 = true -> String.ltb s2 s1 = false.
Proof.
  unfold String.ltb. rewrite (String.compare_antisym s2 s1).
  destruct (String.compare s1 s2); cbn; congruence.
Qed.

Lemma insert_by_time_sorted (x : ResultEntry) (l : list ResultEntry) :
  Sorted (λ a b, String.ltb (r_submitted_at a) (r_submitted_at b) = false) l ->
  Sorted (λ a b, String.ltb (r_submitted_at a) (r_submitted_at b) = false)
    (insert_by_time x l).
Proof.
  induction l as [|y l IH]; intros Hs; cbn [insert_by_time].
  - repeat constructor.
  - destruct (String.ltb (r_submitted_at x) (r_submitted_at y)) eqn:Hxy.
    + apply Sorted_inv in Hs as [Hs Hhd]. constructor; [apply IH, Hs|].
      destruct l as [|z l]; cbn [insert_by_time].
      * constructor. apply ltb_asym, Hxy.
      * destruct (String.ltb (r_submitted_at x) (r_submitted_at z)).
        -- constructor. inversion Hhd; assumption.
        -- constructor. apply ltb_asym, Hxy.
    + constructor; [exact Hs | constructor; exact Hxy].
Qed.

(** X18: the dashboard lists every stored result once, and no result in it
    is older than the one that follows it. *)
Theorem dashboard_lists_all_newest_first (srv : Server) :
  ∃ l, hr_dashboard srv = HrDashboard l
    ∧ l ≡ₚ srv_TEST_RESULTS srv
    ∧ Sorted (λ a b, String.ltb (r_submitted_at a) (r_submitted_at b) = false) l.
Proof.
  unfold hr_dashboard. eexists. split; [reflexivity|].
  unfold sorted_newest_first. induction (srv_TEST_RESULTS srv) as [|x l [IHp IHs]]; cbn.
  - split; [reflexivity | constructor].
  - split.
    + rewrite insert_by_time_perm, IHp. reflexivity.
    + apply insert_by_time_sorted, IHs.
Qed.

(** X19: when questions.json is missing or cannot be read, the process
    starts with no job profile, and then no request ever creates a generated
    test or stores a result. *)
Theorem nothing_assessed_without_questions
  (file : option (option AssessmentData)) (reqs : list (gmap string string * request)) :
  file = None ∨ file = Some None ->
  let srv := serve (server_at_start (load_assessment_data file)) reqs in
  srv_GENERATED_TESTS srv = ∅ ∧ srv_TEST_RESULTS srv = []
  ∧ JOB_PROFILES (srv_ASSESSMENT_DATA srv) = ∅.
Proof.
  intros Hfile. cbv zeta.
  assert (Hdata : load_assessment_data file = {| PASS_THRESHOLD := 75; JOB_PROFILES := ∅ |})
    by (destruct Hfile as [-> | ->]; reflexivity).
  rewrite Hdata. clear Hdata Hfile.
  assert (Hgen : ∀ reqs srv,
    srv_GENERATED_TESTS srv = ∅ -> srv_TEST_RESULTS srv = [] ->
    JOB_PROFILES (srv_ASSESSMENT_DATA srv) = ∅ ->
    srv_GENERATED_TESTS (serve srv reqs) = ∅ ∧ srv_TEST_RESULTS (serve srv reqs) = []
    ∧ JOB_PROFILES (srv_ASSESSMENT_DATA (serve srv reqs)) = ∅).
  { clear reqs. induction reqs as [|[sess req] reqs IH]; intros srv Ht Hr Hp; [cbn; auto|].
    cbn [serve].
    assert (Hsame : (handle srv sess req).1.1 = srv).
    { destruct req as [|name test_id| |job_key| |job_key|job_key answers fresh now|result_id
                      |post fresh|];
        cbn [handle]; try reflexivity.
      - destruct (login srv sess name test_id). reflexivity.
      - apply assess_stores_only_on_success_aux.
        unfold assess. destruct (sess !! "candidate_name"); [|discriminate].
        destruct job_key as [key|]; [|discriminate].
        destruct answers as [[|first rest]|]; try discriminate.
        destruct (bool_decide (key = "")); [discriminate|].
        unfold psychology_predictor, job_questions_of.
        cbn [globals_in session GENERATED_TESTS ASSESSMENT_DATA].
        rewrite Ht, Hp.
        destruct (sess !! "test_id") as [tid|]; cbn [mbind option_bind];
          rewrite ?lookup_empty; discriminate.
      - unfold hr_create_test. destruct post as [[role|]|]; try reflexivity.
        destruct (bool_decide (role = "")); [reflexivity|].
        rewrite Hp, lookup_empty. reflexivity. }
    rewrite Hsame. apply IH; assumption. }
  apply Hgen; reflexivity.
Qed.

(** X20: for a session that is on no generated test, the details
    [get_assessment_details] gives for a job key are those of the question
    set that is scored: the maximum possible score is 15 times the question
    count it reports, and the pass threshold it reports is the one written in
    every report. *)
Theorem details_match_scored_set
  (srv : Server) (sess : gmap string string) (job_key : string)
  (n : nat) (skills : list string) (threshold minutes : Z) :
  (sess !! "test_id" ≫= (λ test_id, srv_GENERATED_TESTS srv !! test_id)) = None ->
  get_assessment_details srv (Some job_key) = Details n skills threshold minutes ->
  (∃ qs, job_questions_of (globals_in srv sess) job_key = Some qs
         ∧ length qs = n ∧ MAX_POSSIBLE_SCORE qs = 15 * Z.of_nat n)
  ∧ ∀ answers r,
      psychology_predictor (globals_in srv sess) job_key answers = Ok (Some r) ->
      passThreshold r = threshold.
Proof.
  intros Hnone Hd. unfold get_assessment_details in Hd. cbn [mbind option_bind] in Hd.
  destruct (JOB_PROFILES (srv_ASSESSMENT_DATA srv) !! job_key) as [p|] eqn:Hp;
    [|discriminate].
  inversion Hd; subst. clear Hd. split.
  - exists (questions p). unfold job_questions_of.
    cbn [globals_in session GENERATED_TESTS ASSESSMENT_DATA]. rewrite Hnone, Hp.
    unfold MAX_POSSIBLE_SCORE. repeat split. lia.
  - intros answers r H. unfold psychology_predictor in H.
    destruct (job_questions_of (globals_in srv sess) job_key) as [[|q qs]|];
      try discriminate.
    apply fmap_Ok in H as (r' & H & Hr). inversion Hr; subst r'.
    unfold score_report in H.
    apply bind_Ok in H as (st & _ & H). apply bind_Ok in H as (x & _ & H).
    apply bind_Ok in H as (sk & _ & H). inversion H; subst. reflexivity.
Qed.

End Engine.

(** ** The claims at concrete inputs *)

(** The end-to-end scenario of the specification: one option worth TA 10,
    chosen in 45000 ms. *)
Example scenario_single_answer :
  ∃ r, psychology_predictor int_of_decimal g0 "dev" [answer 1 (PyInt 0) (PyInt 45000)]
       = Ok (Some r)
    ∧ totalScore r = 100 ∧ skillScores r !! "TA" = Some 100
    ∧ skillScores r !! "BS" = Some 5.
Proof. eexists. split; [vm_compute; reflexivity|]. repeat split. Qed.

(** [round((69 / 120) * 100)] is 57 in binary64: the product is just below
    57.5. *)
Example percent_69_120 : percent 69 120 = Ok 57.
Proof. vm_compute. reflexivity. Qed.

(** The boundary timings, on the first option of [q1] (worth TA 10): the time
    score, the label and the raw BS total after the answer. *)
Example boundary_timings :
  (λ t, match score_answer int_of_decimal [q1] loop_init (answer 1 (PyInt 0) (PyInt t)) with
        | Ok st => Some (total_raw_score st - 10, d_timeBehavior <$> detailed_results st,
                         skill_scores st !! "BS")
        | Raise _ => None
        end) <$> [14999; 15000; 30000; 60000; 60001]
  = [Some (-20, ["Too Fast (Lack of Contemplation)"], Some 5);
     Some (0, ["Optimal"], Some 0);
     Some (5, ["Optimal"], Some 5);
     Some (5, ["Optimal"], Some 5);
     Some (-20, ["Too Slow (Inefficiency)"], Some (-10))].
Proof. vm_compute. reflexivity. Qed.

Lemma C1_time_classification_witness :
  ∃ st', score_answer int_of_decimal [q1] loop_init (answer 1 (PyInt 0) (PyStr "14999"))
         = Ok st'
    ∧ total_raw_score st' = -10
    ∧ fastResponses (behavioral_summary st') = 1.
Proof.
  destruct (C1_time_classification int_of_decimal [q1] loop_init
              (answer 1 (PyInt 0) (PyStr "14999")) q1 0 14999
              {| o_text := "a"; o_score := [("TA", 10)] |})
    as (st' & Hst' & Hfast & _); try reflexivity.
  exists st'. split; [exact Hst'|].
  destruct (Hfast ltac:(lia)) as (Hraw & _ & Hf & _).
  rewrite Hraw, Hf. split; reflexivity.
Defined.

Lemma C2_malformed_answer_witness :
  score_answer int_of_decimal [q1] loop_init (answer 1 (PyInt 0) (PyStr "soon"))
  = Ok (skipped loop_init)
  ∧ max_possible_trait_score_base (skipped loop_init) = 10.
Proof.
  destruct (C2_malformed_answer_counts_in_base int_of_decimal [q1] loop_init
              (answer 1 (PyInt 0) (PyStr "soon")) q1) as (H & _ & _ & _ & _ & Hb).
  - reflexivity.
  - right. left. exists (PyInt 0), 0, (PyStr "soon").
    repeat split. left. reflexivity.
  - split; [exact H | exact Hb].
Defined.

(** C2 as stated fails: a matched answer whose [timeTakenMs] is an infinite
    float fails [int] with OverflowError, which line 94 does not catch; the
    answer is not skipped, the function raises. *)
Lemma C2_counterexample :
  find_question [q1] (answer 1 (PyInt 0) infinity) = Ok (Some q1)
  ∧ int int_of_decimal infinity = Raise OverflowError
  ∧ score_answer int_of_decimal [q1] loop_init (answer 1 (PyInt 0) infinity)
    = Raise OverflowError
  ∧ psychology_predictor int_of_decimal g0 "dev" [answer 1 (PyInt 0) infinity]
    = Raise OverflowError.
Proof. repeat split. Qed.

Lemma C3_normalization_witness :
  ∃ r, psychology_predictor int_of_decimal g0 "dev"
         [answer 1 (PyInt 1) (PyInt 45000); answer 1 (PyInt 0) (PyInt 61000)] = Ok (Some r)
    ∧ totalScore r = 33
    ∧ skillScores r !! "TA" = Some 25
    ∧ skillScores r !! "BS" = Some 0.
Proof.
  destruct (psychology_predictor int_of_decimal g0 "dev"
              [answer 1 (PyInt 1) (PyInt 45000); answer 1 (PyInt 0) (PyInt 61000)])
    as [[r|]|e] eqn:E.
  - exists r. split; [reflexivity|].
    destruct (C3_normalization int_of_decimal g0 "dev" _ r E)
      as (qs & st & Hq & _ & Hst & _ & (x & Hx & Ht) & Hk & (raw & Hraw & Hbs)).
    vm_compute in Hq. injection Hq as <-.
    vm_compute in Hst. injection Hst as <-.
    destruct (Hk "TA" ltac:(repeat constructor)) as (rawk & Hrk & Hpos & _).
    destruct Hpos as (xk & Hxk & Hsk); [reflexivity|].
    vm_compute in Hrk. injection Hrk as <-.
    vm_compute in Hraw. injection Hraw as <-.
    destruct Hx as (_ & _ & Hnear). destruct Hxk as (_ & _ & Hneark).
    assert (Hn : nearest_percent 5 15 x) by (apply Hnear; reflexivity).
    assert (Hnk : nearest_percent 5 20 xk) by (apply Hneark; reflexivity).
    unfold nearest_percent in Hn, Hnk.
    assert (x = 33) by lia. assert (xk = 25) by lia. subst x xk.
    split; [exact Ht|]. split; [exact Hsk | exact Hbs].
  - vm_compute in E. discriminate.
  - vm_compute in E. discriminate.
Defined.

Lemma C4_no_exception_witness :
  ∃ r, psychology_predictor int_of_decimal g0 "dev"
         [answer 1 (PyInt 0) (PyInt 45000); answer 1 (PyInt 7) (PyStr "soon");
          answer 5 PyNone PyList] = Ok r.
Proof.
  apply (C4_no_exception_on_typed_input int_of_decimal g0 "dev" _ 10).
  - lia.
  - intros qs H. vm_compute in H. injection H as <-. reflexivity.
  - reflexivity.
  - vm_compute. reflexivity.
Defined.

(** C4 as stated fails: an option whose score map has a key that is no trait,
    and an answer without [timeTakenMs], each make the function raise
    KeyError. *)
Lemma C4_counterexample :
  psychology_predictor int_of_decimal g_odd "dev" [answer 1 (PyInt 0) (PyInt 45000)]
  = Raise KeyError
  ∧ psychology_predictor int_of_decimal g0 "dev"
      [{| questionId := Some (IdInt 1); selectedOptionIndex := Some (PyInt 0);
          timeTakenMs := None |}]
    = Raise KeyError.
Proof. split; vm_compute; reflexivity. Qed.

Lemma C5_scores_in_range_witness :
  ∃ r, psychology_predictor int_of_decimal g0 "dev"
         [answer 1 (PyInt 1) (PyInt 70000); answer 1 (PyInt 0) (PyInt 100)] = Ok (Some r)
    ∧ 0 <= totalScore r <= 100.
Proof.
  destruct (psychology_predictor int_of_decimal g0 "dev"
              [answer 1 (PyInt 1) (PyInt 70000); answer 1 (PyInt 0) (PyInt 100)])
    as [[r|]|e] eqn:E.
  - exists r. split; [reflexivity|].
    apply (C5_scores_in_range int_of_decimal g0 "dev" _ r E).
  - vm_compute in E. discriminate.
  - vm_compute in E. discriminate.
Defined.

Lemma C6_unknown_question_witness :
  score_answer int_of_decimal [q1] loop_init (answer 99 (PyInt 0) (PyInt 45000))
  = Ok loop_init
  ∧ psychology_predictor int_of_decimal g0 "dev"
      ([answer 1 (PyInt 0) (PyInt 45000)] ++ answer 99 (PyInt 0) (PyInt 45000) :: [])
    = psychology_predictor int_of_decimal g0 "dev" ([answer 1 (PyInt 0) (PyInt 45000)] ++ []).
Proof.
  destruct (C6_unknown_question_is_ignored int_of_decimal g0 "dev" [q1]
              (answer 99 (PyInt 0) (PyInt 45000)) (IdInt 99)) as [Hstep Hreport].
  - reflexivity.
  - reflexivity.
  - intros q Hq. apply list_elem_of_singleton in Hq as ->. discriminate.
  - split; [apply Hstep | apply Hreport].
Defined.

Lemma C7_empty_answers_witness :
  ∃ r, psychology_predictor int_of_decimal g0 "dev" [] = Ok (Some r)
    ∧ totalScore r = 0 ∧ detailedResults r = [].
Proof.
  destruct (C7_empty_answers int_of_decimal g0 "dev") as [Hempty _].
  destruct (Hempty [q1]) as (r & Hr & Ht & _ & Hd & _).
  - reflexivity.
  - discriminate.
  - exists r. auto.
Defined.

Lemma C8_order_of_answers_witness :
  ∃ r r',
    psychology_predictor int_of_decimal g0 "dev"
      [answer 1 (PyInt 0) (PyInt 45000); answer 1 (PyInt 1) (PyInt 100)] = Ok (Some r)
    ∧ psychology_predictor int_of_decimal g0 "dev"
        [answer 1 (PyInt 1) (PyInt 100); answer 1 (PyInt 0) (PyInt 45000)] = Ok (Some r')
    ∧ totalScore r' = totalScore r ∧ skillScores r' = skillScores r.
Proof.
  destruct (psychology_predictor int_of_decimal g0 "dev"
              [answer 1 (PyInt 0) (PyInt 45000); answer 1 (PyInt 1) (PyInt 100)])
    as [[r|]|e] eqn:E.
  - destruct (C8_order_of_answers int_of_decimal g0 "dev" _
                [answer 1 (PyInt 1) (PyInt 100); answer 1 (PyInt 0) (PyInt 45000)] r
                (perm_swap _ _ _) E)
      as (qs & r' & _ & Hr' & Ht & Hs & _).
    exists r, r'. auto.
  - vm_compute in E. discriminate.
  - vm_compute in E. discriminate.
Defined.

Lemma C9_question_set_resolution_witness :
  job_questions_of g_gen "dev" = Some [q2]
  ∧ psychology_predictor int_of_decimal g_gen "dev" [answer 2 (PyInt 0) (PyInt 45000)]
    = fmap Some (score_report int_of_decimal g_gen "dev" [q2]
                   [answer 2 (PyInt 0) (PyInt 45000)]).
Proof.
  destruct (C9_question_set_resolution int_of_decimal g_gen "dev"
              [answer 2 (PyInt 0) (PyInt 45000)]) as [Hgen _].
  apply (Hgen "ab12cd" {| gt_role := "dev"; gt_questions := [q2] |}); reflexivity.
Defined.

Lemma C10_summary_witness :
  ∃ r, psychology_predictor int_of_decimal g0 "dev"
         [answer 1 (PyInt 0) (PyInt 20000); answer 1 (PyInt 1) (PyInt 100)] = Ok (Some r)
    ∧ totalTimeMs (behavioralSummary r) = total_time (detailedResults r).
Proof.
  destruct (psychology_predictor int_of_decimal g0 "dev"
              [answer 1 (PyInt 0) (PyInt 20000); answer 1 (PyInt 1) (PyInt 100)])
    as [[r|]|e] eqn:E.
  - exists r. split; [reflexivity|].
    apply (C10_summary_accounts_for_details int_of_decimal g0 "dev" _ r E).
  - vm_compute in E. discriminate.
  - vm_compute in E. discriminate.
Defined.

(** ** The further properties at concrete inputs *)

Lemma trait_base_witness :
  ∃ st, score_answers int_of_decimal [q1] loop_init
          [answer 1 (PyInt 0) (PyInt 45000); answer 1 (PyInt 9) (PyInt 1);
           answer 7 (PyInt 0) (PyInt 1)] = Ok st
    ∧ max_possible_trait_score_base st = 20.
Proof.
  destruct (score_answers int_of_decimal [q1] loop_init
              [answer 1 (PyInt 0) (PyInt 45000); answer 1 (PyInt 9) (PyInt 1);
               answer 7 (PyInt 0) (PyInt 1)]) as [st|e] eqn:E.
  - exists st. split; [reflexivity|].
    destruct (trait_base_counts_matched_answers int_of_decimal _ _ st E) as [Hb _].
    rewrite Hb. reflexivity.
  - vm_compute in E. discriminate.
Defined.

Lemma total_score_from_report_witness :
  ∃ r x,
    psychology_predictor int_of_decimal g0 "dev"
      [answer 1 (PyInt 0) (PyInt 45000); answer 1 (PyInt 1) (PyInt 100)] = Ok (Some r)
    ∧ rounded_percent
        (details_points (detailedResults r) + time_total (behavioralSummary r)) 15 x
    ∧ totalScore r = clamp x 0 100.
Proof.
  destruct (psychology_predictor int_of_decimal g0 "dev"
              [answer 1 (PyInt 0) (PyInt 45000); answer 1 (PyInt 1) (PyInt 100)])
    as [[r|]|e] eqn:E.
  - destruct (total_score_from_report int_of_decimal g0 "dev" _ r E)
      as (qs & x & Hq & Hx & Ht).
    vm_compute in Hq. injection Hq as <-.
    exists r, x. split; [reflexivity|]. split; [exact Hx | exact Ht].
  - vm_compute in E. discriminate.
  - vm_compute in E. discriminate.
Defined.

Lemma behavioral_speed_witness :
  ∃ r, psychology_predictor int_of_decimal g0 "dev"
         [answer 1 (PyInt 0) (PyInt 45000); answer 1 (PyInt 1) (PyInt 100);
          answer 1 (PyInt 0) (PyInt 61000)] = Ok (Some r)
    ∧ skillScores r !! "BS"
      = Some (clamp (details_points_for "BS" (detailedResults r)
                     + 5 * fastResponses (behavioralSummary r)
                     + 5 * optimalResponses (behavioralSummary r)
                     - 10 * slowResponses (behavioralSummary r)) 0 100).
Proof.
  destruct (psychology_predictor int_of_decimal g0 "dev"
              [answer 1 (PyInt 0) (PyInt 45000); answer 1 (PyInt 1) (PyInt 100);
               answer 1 (PyInt 0) (PyInt 61000)]) as [[r|]|e] eqn:E.
  - exists r. split; [reflexivity|].
    apply (behavioral_speed_from_report int_of_decimal g0 "dev" _ r E).
  - vm_compute in E. discriminate.
  - vm_compute in E. discriminate.
Defined.

Lemma ratio_traits_witness :
  ∃ r, psychology_predictor int_of_decimal g0 "dev"
         [answer 1 (PyInt 0) (PyInt 61000); answer 9 (PyInt 0) (PyInt 100)] = Ok (Some r)
    ∧ ∃ x, rounded_percent (details_points_for "TA" (detailedResults r)
                            + side_total "TA" (behavioralSummary r)) 10 x
           ∧ skillScores r !! "TA" = Some (clamp x 0 100).
Proof.
  destruct (psychology_predictor int_of_decimal g0 "dev"
              [answer 1 (PyInt 0) (PyInt 61000); answer 9 (PyInt 0) (PyInt 100)])
    as [[r|]|e] eqn:E.
  - exists r. split; [reflexivity|].
    destruct (ratio_traits_from_report int_of_decimal g0 "dev" _ r "TA" E)
      as (qs & Hq & Hpos & _).
    + repeat constructor.
    + vm_compute in Hq. injection Hq as <-. apply Hpos. reflexivity.
  - vm_compute in E. discriminate.
  - vm_compute in E. discriminate.
Defined.

Lemma unknown_trait_key_witness :
  score_answer int_of_decimal [q_odd] loop_init (answer 1 (PyInt 0) (PyInt 45000))
  = Raise KeyError.
Proof.
  apply (unknown_trait_key_raises int_of_decimal [q_odd] loop_init _ q_odd 0 45000
           {| o_text := "a"; o_score := [("XX", 3)] |}); reflexivity.
Defined.

Lemma infinite_number_witness :
  score_answer int_of_decimal [q1] loop_init (answer 1 infinity (PyInt 45000))
  = Raise OverflowError.
Proof.
  destruct (infinite_number_raises int_of_decimal [q1] loop_init
              (answer 1 infinity (PyInt 45000)) q1 false) as [H _].
  - reflexivity.
  - apply H. reflexivity.
Defined.

Lemma raising_answer_witness :
  psychology_predictor int_of_decimal g0 "dev"
    ([answer 1 (PyInt 0) (PyInt 45000)]
     ++ {| questionId := Some (IdInt 1); selectedOptionIndex := None; timeTakenMs := None |}
     :: [answer 1 (PyInt 1) (PyInt 100)])
  = Raise KeyError.
Proof.
  destruct (score_answers int_of_decimal [q1] loop_init [answer 1 (PyInt 0) (PyInt 45000)])
    as [st|e] eqn:E.
  - apply (raising_answer_aborts int_of_decimal g0 "dev" [q1] _ _ _ st KeyError);
      [reflexivity | exact E | reflexivity].
  - vm_compute in E. discriminate.
Defined.

Lemma duplicate_question_id_witness :
  score_answers int_of_decimal ([q1] ++ q_odd :: [q2]) loop_init
    [answer 1 (PyInt 0) (PyInt 45000)]
  = score_answers int_of_decimal ([q1] ++ [q2]) loop_init [answer 1 (PyInt 0) (PyInt 45000)]
  ∧ MAX_POSSIBLE_SCORE ([q1] ++ q_odd :: [q2]) = MAX_POSSIBLE_SCORE ([q1] ++ [q2]) + 15.
Proof.
  apply (duplicate_question_id_is_shadowed int_of_decimal [q1] [q2] q_odd).
  exists q1. split; [left | reflexivity].
Defined.

Lemma one_submission_witness :
  ∃ srv' sess',
    assess int_of_decimal srv0 (session g0) (Some "dev")
      (Some [answer 1 (PyInt 0) (PyInt 45000)]) uuid_a "2026-01-01T10:00:00"
    = (srv', sess', JsonRedirect)
    ∧ length (srv_TEST_RESULTS srv') = 1%nat
    ∧ sess' !! "candidate_name" = None.
Proof.
  destruct (assess int_of_decimal srv0 (session g0) (Some "dev")
              (Some [answer 1 (PyInt 0) (PyInt 45000)]) uuid_a "2026-01-01T10:00:00")
    as [[srv' sess'] resp] eqn:E.
  pose proof E as E'. vm_compute in E'.
  assert (resp = JsonRedirect) by congruence. subst resp. clear E'.
  destruct (one_submission_per_login int_of_decimal _ _ _ _ _ _ _ _ E)
    as ((x & Hx & _) & _ & _ & Hc & _).
  exists srv', sess'. split; [reflexivity|]. split; [|exact Hc].
  rewrite Hx. reflexivity.
Defined.

Lemma generated_test_witness :
  ∃ srv' sess',
    hr_create_test srv0 (Some (Some "dev")) uuid_a = (srv', HrSuccess "dev" "1f3a9c" [q1])
    ∧ login (serve int_of_decimal srv' [(∅, HrDashboardPage)]) ∅ (Some "Ada") (Some "1f3a9c")
      = (sess', RedirectIndex)
    ∧ job_questions_of
        (globals_in
           (serve int_of_decimal srv' ([(∅, HrDashboardPage)]
                        ++ [(∅, HrCreateTest (Some (Some "dev")) uuid_b)])) sess')
        "anything"
      = Some [q1].
Proof.
  destruct (hr_create_test srv0 (Some (Some "dev")) uuid_a) as [srv' resp] eqn:E.
  pose proof E as E'. vm_compute in E'.
  assert (resp = HrSuccess "dev" "1f3a9c" [q1]) by (injection E' as _ <-; reflexivity).
  subst resp. clear E'.
  destruct (generated_test_is_usable int_of_decimal srv0 srv' ∅ "dev" uuid_a "dev" "1f3a9c" "Ada" [q1]
              [(∅, HrDashboardPage)] [(∅, HrCreateTest (Some (Some "dev")) uuid_b)] E)
    as (profile & sess' & _ & _ & Hl & _ & Hq & _);
    [discriminate | discriminate | repeat constructor |].
  exists srv', sess'. split; [reflexivity|]. split; [exact Hl | apply Hq].
Defined.

(** The key of a generated test is not checked to be free: a second test
    whose [uuid4] starts with the same six characters takes the place of the
    first, and the candidate logged in on the first is scored on the
    questions of the second. *)
Example generated_test_key_reused :
  let srv1 := (hr_create_test srv_two (Some (Some "dev")) uuid_a).1 in
  let sess := (login srv1 ∅ (Some "Ada") (Some "1f3a9c")).1 in
  let srv2 := (hr_create_test srv1 (Some (Some "ops")) uuid_a').1 in
  job_questions_of (globals_in srv1 sess) "dev" = Some [q1]
  ∧ job_questions_of (globals_in srv2 sess) "dev" = Some [q2].
Proof. split; reflexivity. Qed.

Lemma shown_report_witness :
  ∃ r, show_assessment_result
         (assess int_of_decimal srv0 (session g0) (Some "dev")
            (Some [answer 1 (PyInt 0) (PyInt 45000)]) uuid_a "2026-01-01T10:00:00").1.1
         uuid_a = HrReport r
    ∧ show_assessment_result
        (serve int_of_decimal
           (assess int_of_decimal srv0 (session g0) (Some "dev")
              (Some [answer 1 (PyInt 0) (PyInt 45000)]) uuid_a "2026-01-01T10:00:00").1.1
           [(∅, Logout); (∅, HrCreateTest (Some (Some "dev")) uuid_a)])
        uuid_a = HrReport r.
Proof.
  destruct (show_assessment_result
              (assess int_of_decimal srv0 (session g0) (Some "dev")
                 (Some [answer 1 (PyInt 0) (PyInt 45000)]) uuid_a "2026-01-01T10:00:00").1.1
              uuid_a) as [| | | | | | | | | |r| | |] eqn:E;
    try (vm_compute in E; discriminate).
  exists r. split; [reflexivity|].
  apply (shown_report_is_stable int_of_decimal _ _ uuid_a r E).
Defined.

Lemma stored_report_witness :
  ∃ srv' sess' r,
    assess int_of_decimal srv0 (session g0) (Some "dev")
      (Some [answer 1 (PyInt 1) (PyInt 45000)]) uuid_a "2026-01-01T10:00:00"
    = (srv', sess', JsonRedirect)
    ∧ show_assessment_result srv' uuid_a = HrReport r.
Proof.
  destruct (assess int_of_decimal srv0 (session g0) (Some "dev")
              (Some [answer 1 (PyInt 1) (PyInt 45000)]) uuid_a "2026-01-01T10:00:00")
    as [[srv' sess'] resp] eqn:E.
  pose proof E as E'. vm_compute in E'.
  assert (resp = JsonRedirect) by congruence. subst resp. clear E'.
  destruct (stored_report_is_shown int_of_decimal _ _ _ _ _ _ _ _ E) as [[r Hr] _].
  exists srv', sess', r. split; [reflexivity | exact Hr].
Defined.

Lemma nothing_assessed_witness :
  srv_TEST_RESULTS
    (serve int_of_decimal (server_at_start (load_assessment_data None))
       [(session g0, Assess (Some "dev") (Some [answer 1 (PyInt 0) (PyInt 45000)])
                       uuid_a "2026-01-01T10:00:00");
        (∅, HrCreateTest (Some (Some "dev")) uuid_a)]) = [].
Proof.
  apply (nothing_assessed_without_questions int_of_decimal None). left. reflexivity.
Defined.

Lemma details_match_witness :
  ∃ qs, job_questions_of (globals_in srv0 (session g0)) "dev" = Some qs
        ∧ length qs = 1%nat ∧ MAX_POSSIBLE_SCORE qs = 15 * Z.of_nat 1.
Proof.
  apply (details_match_scored_set int_of_decimal srv0 (session g0) "dev" 1 [] 75 10);
    reflexivity.
Defined.
